(** * HMS backend: appointments, billing ledger and notifications

    A shallow embedding of the service layer of the Healthcare Management
    System backend:

    - [notification.service.ts]  ([setWebSocketService], [getNotifications],
      [markNotificationRead], [createNotification]);
    - [websocket.service.ts]     (the [WebSocketService] class: the
      [connectedUsers] map and the connection / disconnect /
      notification_read handlers);
    - [appointment.service.ts]   ([createAppointmentService],
      [updateAppointmentStatusService], and the patient's reading services
      [getPatientAppointmentsService], [getAppointmentByIdService],
      [getAppointmentCountService]);
    - [doctor.service.ts]        ([updateDoctorAppointmentStatus] and the
      billing services);
    - [admin-notification.service.ts]  ([sendDailyAppointmentSummary]).

    Conventions of the embedding.

    - The Prisma database is a record of tables; a table is the list of its
      rows in insertion order.  Auto-increment keys are drawn from per-table
      counters, the generated notification key from a counter printed in
      decimal (the code never looks inside it).
    - An [async] service is a function [World -> result A * World].  A
      [throw] leaves the writes done before it in place: the services open no
      transaction.
    - JavaScript [number]s that hold money ([price], [unit_cost],
      [total_cost], [discount], [total_amount]) are IEEE 754 binary64 values
      (Rocq's primitive [float]), added, multiplied and divided as the
      processor does, in the order the code writes.  Keys and quantities are
      integers ([Z]), turned into a [number] where they meet an amount.
    - A [Date] is its [getTime()] value, in milliseconds ([Z]).  One service
      call reads one clock value [now].  Date parsing and locale formatting
      belong to the runtime and are fields of [Env]. *)

From Stdlib Require Import PrimFloat.
From Stdlib Require FloatOps SpecFloat.
From Stdlib Require Import ZArith String Ascii List Lia.
From stdpp Require Import base option list gmap strings pretty sorting numbers.

Open Scope Z_scope.
Open Scope string_scope.
Open Scope list_scope.

(** A decimal literal denotes the nearest binary64 value, as in JavaScript. *)
Set Warnings "-inexact-float".

(** ** JavaScript values *)

Module JS.

  (** Truthiness of the values the services test with [if (x)]. *)
Definition truthy_string (s : string) : bool := negb (String.eqb s "").

Definition truthy_opt_string (o : option string) : bool :=
    match o with
    | Some s => truthy_string s
    | None => false
    end.

Definition truthy_Z (n : Z) : bool := negb (Z.eqb n 0).

Definition truthy_opt_Z (o : option Z) : bool :=
    match o with
    | Some n => truthy_Z n
    | None => false
    end.

(** A [number]: an IEEE 754 binary64 value, with the arithmetic of the
    processor ([+], [-], [*], [/] round to nearest, ties to even). *)
Abbreviation number := PrimFloat.float.

(** The [number] that holds an integer: the nearest binary64 value (ties to
    even), which is the integer itself up to 2^53; a Prisma [Int] is a 32-bit
    integer and is held exactly. *)
Definition number_of_Z (z : Z) : number :=
    FloatOps.SF2Prim
      (SpecFloat.binary_normalize FloatOps.prec FloatOps.emax z 0 false).

(** [0], [-0] and [NaN] are falsy. *)
Definition truthy_number (x : number) : bool :=
    negb (PrimFloat.eqb x 0 || PrimFloat.is_nan x).

Definition truthy_opt_number (o : option number) : bool :=
    match o with
    | Some x => truthy_number x
    | None => false
    end.

  (** [a ?? b] *)
Definition nullish {A} (o : option A) (d : A) : A :=
    match o with
    | Some a => a
    | None => d
    end.

(** A column written from an optional input: [undefined] keeps the old
    value. *)
Definition nullish_opt {A} (o old : option A) : option A :=
    match o with
    | Some a => Some a
    | None => old
    end.

  (** [String.prototype.toLowerCase], on the ASCII letters.  The two words
      the services look for ([urgent], [emergency]) contain no letter that
      is the lower-case image of a non-ASCII character. *)
Definition lower_ascii (c : ascii) : ascii :=
    let n := nat_of_ascii c in
    if (Nat.leb 65 n && Nat.leb n 90)%bool then ascii_of_nat (n + 32) else c.

Fixpoint toLowerCase (s : string) : string :=
    match s with
    | EmptyString => EmptyString
    | String c r => String (lower_ascii c) (toLowerCase r)
    end.

  (** [String.prototype.includes] *)
Fixpoint includes (s sub : string) : bool :=
    if String.prefix sub s then true
    else match s with
         | EmptyString => false
         | String _ r => includes r sub
         end.

  (** [Math.ceil (a / b)] for integers [a] and a positive integer [b]. *)
Definition ceil_div (a b : Z) : Z := - ((- a) / b).

End JS.

(** ** Data model (rows of the Prisma tables) *)

(** Modelled from the spec: the Prisma enum [AppointmentStatus] is declared
    in [schema.prisma], which is not among the sources; section 3 of the
    specification lists its members. *)
Inductive AppointmentStatus := PENDING | SCHEDULED | COMPLETED | CANCELLED.

Global Instance AppointmentStatus_eq_dec : EqDecision AppointmentStatus.
Proof. solve_decision. Defined.

Definition AppointmentStatus_to_string (s : AppointmentStatus) : string :=
  match s with
  | PENDING => "PENDING"
  | SCHEDULED => "SCHEDULED"
  | COMPLETED => "COMPLETED"
  | CANCELLED => "CANCELLED"
  end.

(** [Object.values(AppointmentStatus).includes(status)], returning the member. *)
Definition AppointmentStatus_of_string (s : string) : option AppointmentStatus :=
  if String.eqb s "PENDING" then Some PENDING
  else if String.eqb s "SCHEDULED" then Some SCHEDULED
  else if String.eqb s "COMPLETED" then Some COMPLETED
  else if String.eqb s "CANCELLED" then Some CANCELLED
  else None.

Module User.
Record t := mk { id : string; role : string }.
End User.

Module Patient.
Record t := mk {
    id : string;
    user_id : option string;
    first_name : string;
    last_name : string }.
End Patient.

Module Doctor.
Record t := mk {
    id : string;
    user_id : option string;
    name : string }.
End Doctor.

Module Appointment.
Record t := mk {
    id : Z;
    patient_id : string;
    doctor_id : string;
    appointment_date : Z;
    time : string;
    type : string;
    note : option string;
    status : AppointmentStatus;
    reason : option string }.

Definition set_status (s : AppointmentStatus) (r : option string) (a : t) : t :=
    mk (id a) (patient_id a) (doctor_id a) (appointment_date a) (time a)
       (type a) (note a) s r.
End Appointment.

Module Payment.
Record t := mk {
    id : Z;
    appointment_id : Z;
    patient_id : string;
    bill_date : Z;
    payment_date : Z;
    discount : JS.number;
    total_amount : JS.number;
    amount_paid : JS.number;
    payment_method : string;
    status : string;
    finalized : bool }.

Definition set_total_amount (x : JS.number) (p : t) : t :=
    mk (id p) (appointment_id p) (patient_id p) (bill_date p) (payment_date p)
       (discount p) x (amount_paid p) (payment_method p) (status p)
       (finalized p).

Definition set_discount (x : JS.number) (p : t) : t :=
    mk (id p) (appointment_id p) (patient_id p) (bill_date p) (payment_date p)
       x (total_amount p) (amount_paid p) (payment_method p) (status p)
       (finalized p).

Definition set_bill_date (d : Z) (p : t) : t :=
    mk (id p) (appointment_id p) (patient_id p) d (payment_date p)
       (discount p) (total_amount p) (amount_paid p) (payment_method p)
       (status p) (finalized p).

Definition set_finalized (b : bool) (p : t) : t :=
    mk (id p) (appointment_id p) (patient_id p) (bill_date p) (payment_date p)
       (discount p) (total_amount p) (amount_paid p) (payment_method p)
       (status p) b.
End Payment.

Module PatientBills.
Record t := mk {
    id : Z;
    bill_id : Z;
    service_id : Z;
    service_date : Z;
    quantity : Z;
    unit_cost : JS.number;
    total_cost : JS.number }.
End PatientBills.

Module Services.
Record t := mk { id : Z; service_name : string; price : JS.number }.
End Services.

Module Notification.
Record t := mk {
    id : string;
    userId : string;
    title : string;
    message : string;
    link : option string;
    isRead : bool;
    createdAt : Z }.

Definition set_isRead (b : bool) (n : t) : t :=
    mk (id n) (userId n) (title n) (message n) (link n) b (createdAt n).
End Notification.

(** ** The real-time layer: [websocket.service.ts] *)

(** The wire payload ([interface NotificationPayload]). *)
Module NotificationPayload.
Record t := mk {
    id : string;
    title : string;
    message : string;
    link : option string;
    isRead : bool;
    createdAt : string }.
End NotificationPayload.

(** A Socket.IO socket: its id, the [userId] the authentication middleware
    attached (if any), and the rooms it joined. *)
Module Socket.
Record t := mk { id : string; userId : option string; rooms : list string }.

Definition join (room : string) (s : t) : t :=
    mk (id s) (userId s) (room :: rooms s).
End Socket.

Module WebSocketService.

  (** [io]'s open sockets and the private [connectedUsers] map
      (userId -> socketId). *)
Record t := mk {
    sockets : list Socket.t;
    connectedUsers : gmap string string }.

Definition init : t := mk [] ∅.

Definition user_room (userId : string) : string := "user_" +:+ userId.

  (** [io.on('connection', socket => ...)]: Socket.IO has the socket open;
      the handler returns at once for a socket without [userId], otherwise
      joins the user's room and stores the connection. *)
Definition on_connection (s : Socket.t) (ws : t) : t :=
    match Socket.userId s with
    | Some u =>
        if JS.truthy_string u then
          mk (Socket.join (user_room u) s :: sockets ws)
             (<[u := Socket.id s]> (connectedUsers ws))
        else mk (s :: sockets ws) (connectedUsers ws)
    | None => mk (s :: sockets ws) (connectedUsers ws)
    end.

  (** [socket.on('disconnect', ...)]: Socket.IO drops the socket; the
      handler, registered only for sockets that passed the [userId] test,
      deletes the entry of [socket.userId]. *)
Definition on_disconnect (s : Socket.t) (ws : t) : t :=
    let rest :=
      List.filter (fun x => negb (String.eqb (Socket.id x) (Socket.id s)))
        (sockets ws) in
    match Socket.userId s with
    | Some u =>
        if JS.truthy_string u then mk rest (delete u (connectedUsers ws))
        else mk rest (connectedUsers ws)
    | None => mk rest (connectedUsers ws)
    end.

Definition getConnectedUsersCount (ws : t) : nat := size (connectedUsers ws).

Definition isUserConnected (userId : string) (ws : t) : bool :=
    bool_decide (is_Some (connectedUsers ws !! userId)).

  (** The sockets [io.to(room)] reaches. *)
Definition in_room (room : string) (ws : t) : list string :=
    Socket.id <$>
      List.filter (fun x => existsb (String.eqb room) (Socket.rooms x))
        (sockets ws).

  (** Is the socket with this id open? *)
Definition is_open (sid : string) (ws : t) : bool :=
    existsb (fun x => String.eqb (Socket.id x) sid) (sockets ws).

End WebSocketService.

(** ** The world the services run in *)

Inductive error :=
| Error (message : string)
| PrismaRecordNotFound.

Inductive result (A : Type) :=
| Ok (a : A)
| Throw (e : error).
Arguments Ok {A} a.
Arguments Throw {A} e.

(** Observable effects, in the order they happen. *)
Inductive Effect :=
| DbCreateNotification (n : Notification.t)
| Emit (room event : string) (payload : NotificationPayload.t)
       (receivers : list string).

Record World := mkWorld {
  users : list User.t;
  patients : list Patient.t;
  doctors : list Doctor.t;
  services : list Services.t;
  appointments : list Appointment.t;
  payments : list Payment.t;
  patientBills : list PatientBills.t;
  notifications : list Notification.t;
  next_appointment_id : Z;
  next_payment_id : Z;
  next_bill_id : Z;
  next_notification_id : N;
  (** [let webSocketService: IWebSocketService | null] of
      [notification.service.ts] *)
  webSocketService : option WebSocketService.t;
  effects : list Effect }.

(** The runtime: the clock and the [Date] / [Intl] functions. *)
Record Env := mkEnv {
  now : Z;
  currentHour : Z;
  Date_parse : string -> Z;
  toLocaleDateString : Z -> string;
  toISOString : Z -> string }.

Definition with_appointments (l : list Appointment.t) (n : Z) (w : World) : World :=
  mkWorld (users w) (patients w) (doctors w) (services w) l (payments w)
    (patientBills w) (notifications w) n (next_payment_id w) (next_bill_id w)
    (next_notification_id w) (webSocketService w) (effects w).

Definition with_payments (l : list Payment.t) (n : Z) (w : World) : World :=
  mkWorld (users w) (patients w) (doctors w) (services w) (appointments w) l
    (patientBills w) (notifications w) (next_appointment_id w) n
    (next_bill_id w) (next_notification_id w) (webSocketService w) (effects w).

Definition with_patientBills (l : list PatientBills.t) (n : Z) (w : World) : World :=
  mkWorld (users w) (patients w) (doctors w) (services w) (appointments w)
    (payments w) l (notifications w) (next_appointment_id w)
    (next_payment_id w) n (next_notification_id w) (webSocketService w)
    (effects w).

Definition with_notifications (l : list Notification.t) (n : N) (w : World) : World :=
  mkWorld (users w) (patients w) (doctors w) (services w) (appointments w)
    (payments w) (patientBills w) l (next_appointment_id w)
    (next_payment_id w) (next_bill_id w) n (webSocketService w) (effects w).

Definition with_webSocketService (s : option WebSocketService.t) (w : World) : World :=
  mkWorld (users w) (patients w) (doctors w) (services w) (appointments w)
    (payments w) (patientBills w) (notifications w) (next_appointment_id w)
    (next_payment_id w) (next_bill_id w) (next_notification_id w) s (effects w).

Definition with_effects (l : list Effect) (w : World) : World :=
  mkWorld (users w) (patients w) (doctors w) (services w) (appointments w)
    (payments w) (patientBills w) (notifications w) (next_appointment_id w)
    (next_payment_id w) (next_bill_id w) (next_notification_id w)
    (webSocketService w) l.

(** ** The monad of [async] services *)

Definition M (A : Type) : Type := World -> result A * World.

Definition ret {A} (a : A) : M A := fun w => (Ok a, w).

Definition throw {A} (e : error) : M A := fun w => (Throw e, w).

Definition bind {A B} (m : M A) (k : A -> M B) : M B :=
  fun w =>
    match m w with
    | (Ok a, w') => k a w'
    | (Throw e, w') => (Throw e, w')
    end.

Definition gets {A} (f : World -> A) : M A := fun w => (Ok (f w), w).

Definition modify (f : World -> World) : M unit := fun w => (Ok tt, f w).

Notation "x <- m ;; k" := (bind m (fun x => k))
  (at level 100, m at next level, right associativity,
   format "'[v' x  <-  m  ;; '/' k ']'").
Notation "m ;;; k" := (bind m (fun _ => k))
  (at level 100, right associativity).

(** [try { await m } catch { }] *)
Definition try_catch (m : M unit) : M unit :=
  fun w =>
    match m w with
    | (Ok _, w') => (Ok tt, w')
    | (Throw _, w') => (Ok tt, w')
    end.

(** [for (const x of l) { await body(x) }] *)
Fixpoint for_of {A} (l : list A) (body : A -> M unit) : M unit :=
  match l with
  | [] => ret tt
  | x :: r => body x ;;; for_of r body
  end.

(** [if (c) { await m }] *)
Definition when (c : bool) (m : M unit) : M unit := if c then m else ret tt.

(** ** The Prisma client, one primitive per query the services issue *)

Module Prisma.

(** [update({ where, data })] on the rows of a table. *)
Definition update_where {A} (p : A -> bool) (f : A -> A) (l : list A) : list A :=
  map (fun r => if p r then f r else r) l.

(** The reads, as functions of the database. *)
Definition users_with_role (role : string) (w : World) : list User.t :=
  List.filter (fun u => String.eqb (User.role u) role) (users w).

Definition patient_of_user (userId : string) (w : World) : option Patient.t :=
  List.find (fun p => bool_decide (Patient.user_id p = Some userId)) (patients w).

Definition patient_by_id (id : string) (w : World) : option Patient.t :=
  List.find (fun p => String.eqb (Patient.id p) id) (patients w).

Definition doctor_of_user (userId : string) (w : World) : option Doctor.t :=
  List.find (fun d => bool_decide (Doctor.user_id d = Some userId)) (doctors w).

Definition doctor_by_id (id : string) (w : World) : option Doctor.t :=
  List.find (fun d => String.eqb (Doctor.id d) id) (doctors w).

Definition service_by_id (id : Z) (w : World) : option Services.t :=
  List.find (fun s => Z.eqb (Services.id s) id) (services w).

Definition has_id (id : Z) (a : Appointment.t) : bool := Z.eqb (Appointment.id a) id.

Definition appointment_by_id (id : Z) (w : World) : option Appointment.t :=
  List.find (has_id id) (appointments w).

Definition payment_of_appointment (appointmentId : Z) (w : World) : option Payment.t :=
  List.find (fun p => Z.eqb (Payment.appointment_id p) appointmentId) (payments w).

Definition payment_has_id (id : Z) (p : Payment.t) : bool := Z.eqb (Payment.id p) id.

Definition payment_by_id (id : Z) (w : World) : option Payment.t :=
  List.find (payment_has_id id) (payments w).

Definition bill_has_id (id : Z) (b : PatientBills.t) : bool := Z.eqb (PatientBills.id b) id.

Definition bill_by_id (id : Z) (w : World) : option PatientBills.t :=
  List.find (bill_has_id id) (patientBills w).

Definition notification_has_id (id : string) (n : Notification.t) : bool :=
  String.eqb (Notification.id n) id.

Definition notification_by_id (id : string) (w : World) : option Notification.t :=
  List.find (notification_has_id id) (notifications w).

Definition user_findMany_role (role : string) : M (list User.t) :=
  gets (users_with_role role).

Definition patient_find_user_id (userId : string) : M (option Patient.t) :=
  gets (patient_of_user userId).

Definition patient_find_id (id : string) : M (option Patient.t) :=
  gets (patient_by_id id).

Definition doctor_find_user_id (userId : string) : M (option Doctor.t) :=
  gets (doctor_of_user userId).

Definition doctor_find_id (id : string) : M (option Doctor.t) :=
  gets (doctor_by_id id).

Definition services_findUnique (id : Z) : M (option Services.t) :=
  gets (service_by_id id).

Definition appointment_findFirst (p : Appointment.t -> bool) : M (option Appointment.t) :=
  gets (fun w => List.find p (appointments w)).

Definition appointment_findUnique (id : Z) : M (option Appointment.t) :=
  gets (appointment_by_id id).

(** [appointment.create]: the row gets the next key. *)
Definition appointment_create (mk_row : Z -> Appointment.t) : M Appointment.t :=
  fun w =>
    let a := mk_row (next_appointment_id w) in
    (Ok a, with_appointments (appointments w ++ [a]) (next_appointment_id w + 1) w).

(** [appointment.update({ where: { id }, data: { status, reason } })]; an
    [undefined] reason leaves the column as it is.  Prisma throws when no
    row has the key. *)
Definition appointment_update (id : Z) (status : AppointmentStatus)
    (reason : option string) : M Appointment.t :=
  fun w =>
    match appointment_by_id id w with
    | Some a =>
        let f x := Appointment.set_status status (JS.nullish_opt reason (Appointment.reason x)) x in
        (Ok (f a),
         with_appointments (update_where (has_id id) f (appointments w))
           (next_appointment_id w) w)
    | None => (Throw PrismaRecordNotFound, w)
    end.

Definition payment_find_appointment_id (appointmentId : Z) : M (option Payment.t) :=
  gets (payment_of_appointment appointmentId).

Definition payment_findUnique (id : Z) : M (option Payment.t) :=
  gets (payment_by_id id).

(** The [bills] relation of a payment ([include: { bills: true }]). *)
Definition bills_of (paymentId : Z) (w : World) : list PatientBills.t :=
  List.filter (fun b => Z.eqb (PatientBills.bill_id b) paymentId) (patientBills w).

Definition payment_bills (p : Payment.t) : M (list PatientBills.t) :=
  gets (bills_of (Payment.id p)).

Definition payment_create (mk_row : Z -> Payment.t) : M Payment.t :=
  fun w =>
    let p := mk_row (next_payment_id w) in
    (Ok p, with_payments (payments w ++ [p]) (next_payment_id w + 1) w).

Definition payment_update (id : Z) (f : Payment.t -> Payment.t) : M Payment.t :=
  fun w =>
    match payment_by_id id w with
    | Some p =>
        (Ok (f p),
         with_payments (update_where (payment_has_id id) f (payments w))
           (next_payment_id w) w)
    | None => (Throw PrismaRecordNotFound, w)
    end.

Definition patientBills_findUnique (id : Z) : M (option PatientBills.t) :=
  gets (bill_by_id id).

Definition patientBills_create (mk_row : Z -> PatientBills.t) : M PatientBills.t :=
  fun w =>
    let b := mk_row (next_bill_id w) in
    (Ok b, with_patientBills (patientBills w ++ [b]) (next_bill_id w + 1) w).

Definition patientBills_update (id : Z) (f : PatientBills.t -> PatientBills.t)
    : M PatientBills.t :=
  fun w =>
    match bill_by_id id w with
    | Some b =>
        (Ok (f b),
         with_patientBills (update_where (bill_has_id id) f (patientBills w))
           (next_bill_id w) w)
    | None => (Throw PrismaRecordNotFound, w)
    end.

(** [patientBills.delete({ where: { id } })] *)
Definition patientBills_delete (id : Z) : M PatientBills.t :=
  fun w =>
    match bill_by_id id w with
    | Some b =>
        (Ok b,
         with_patientBills
           (List.filter (fun b => negb (bill_has_id id b)) (patientBills w))
           (next_bill_id w) w)
    | None => (Throw PrismaRecordNotFound, w)
    end.

(** [notification.create]: the row is appended and the write is logged. *)
Definition notification_create (mk_row : string -> Notification.t) : M Notification.t :=
  fun w =>
    let n := mk_row (pretty (next_notification_id w)) in
    (Ok n,
     with_effects (effects w ++ [DbCreateNotification n])
       (with_notifications (notifications w ++ [n])
          (next_notification_id w + 1)%N w)).

(** [notification.update({ where: { id }, data: { isRead: true } })] *)
Definition notification_update_isRead (id : string) : M Notification.t :=
  fun w =>
    match notification_by_id id w with
    | Some n =>
        (Ok (Notification.set_isRead true n),
         with_notifications
           (update_where (notification_has_id id) (Notification.set_isRead true)
              (notifications w))
           (next_notification_id w) w)
    | None => (Throw PrismaRecordNotFound, w)
    end.

(** [orderBy: { createdAt: 'desc' }] *)
Definition newest_first (a b : Notification.t) : Prop :=
  (Notification.createdAt b <= Notification.createdAt a)%Z.

Global Instance newest_first_dec : RelDecision newest_first.
Proof. intros a b. unfold newest_first. apply _. Defined.

(** [notification.findMany({ where, orderBy: { createdAt: 'desc' } })] *)
Definition notification_findMany (p : Notification.t -> bool) : M (list Notification.t) :=
  gets (fun w => merge_sort newest_first (List.filter p (notifications w))).

End Prisma.

(** ** [notification.service.ts] and the socket handlers *)

Module NotificationService.

Record CreateNotificationData := mkData {
  userId : string;
  title : string;
  message : string;
  link : option string }.

Definition setWebSocketService (service : WebSocketService.t) : M unit :=
  modify (with_webSocketService (Some service)).

Definition getNotifications (userId : string) (unread : bool) : M (list Notification.t) :=
  Prisma.notification_findMany
    (fun n =>
       if unread
       then (String.eqb (Notification.userId n) userId && negb (Notification.isRead n))%bool
       else String.eqb (Notification.userId n) userId).

Definition markNotificationRead (id : string) : M Notification.t :=
  Prisma.notification_update_isRead id.

(** [WebSocketService.sendNotificationToUser]:
    [this.io.to(`user_${userId}`).emit('new_notification', notification)]. *)
Definition sendNotificationToUser (ws : WebSocketService.t) (userId : string)
    (payload : NotificationPayload.t) : M unit :=
  modify (fun w =>
    with_effects
      (effects w ++
       [Emit (WebSocketService.user_room userId) "new_notification" payload
          (WebSocketService.in_room (WebSocketService.user_room userId) ws)]) w).

Definition createNotification (env : Env) (data : CreateNotificationData)
    : M Notification.t :=
  notification <- Prisma.notification_create (fun id =>
      Notification.mk id (userId data) (title data) (message data) (link data)
        false (now env)) ;;
  service <- gets webSocketService ;;
  match service with
  | Some ws =>
      sendNotificationToUser ws (userId data)
        (NotificationPayload.mk (Notification.id notification)
           (Notification.title notification) (Notification.message notification)
           (Notification.link notification) (Notification.isRead notification)
           (toISOString env (Notification.createdAt notification)))
  | None => ret tt
  end ;;;
  ret notification.

(** The socket events, acting on the service instance the module variable
    points to. *)
Definition socket_connection (s : Socket.t) : M unit :=
  modify (fun w =>
    with_webSocketService (WebSocketService.on_connection s <$> webSocketService w) w).

Definition socket_disconnect (s : Socket.t) : M unit :=
  modify (fun w =>
    with_webSocketService (WebSocketService.on_disconnect s <$> webSocketService w) w).

(** [socket.on('notification_read', async id => { try { update } catch {} })] *)
Definition socket_notification_read (notificationId : string) : M unit :=
  try_catch (Prisma.notification_update_isRead notificationId ;;; ret tt).

End NotificationService.

(** ** [appointment.service.ts]: the patient's side *)

Module AppointmentService.
Import NotificationService.

(** The output of [createAppointmentSchema] (the schema itself is in the
    validation layer; the controller has already run it, and the service
    runs it again on that output). *)
Record CreateAppointmentInput := mkCreate {
  doctor_id : string;
  appointment_date : string;
  time : string;
  type : string;
  note : option string }.

(** The output of [updateAppointmentSchema]. *)
Record UpdateAppointmentInput := mkUpdate {
  status : AppointmentStatus;
  reason : option string }.

Definition MS_PER_DAY : Z := 1000 * 3600 * 24.

(** [Math.ceil((appointmentDate.getTime() - today.getTime()) / (1000 * 3600 * 24))] *)
Definition daysDiff (appointmentDate today : Z) : Z :=
  JS.ceil_div (appointmentDate - today) MS_PER_DAY.

Definition is_urgent_type (type : string) : bool :=
  (JS.includes (JS.toLowerCase type) "urgent"
   || JS.includes (JS.toLowerCase type) "emergency")%bool.

(** The slot query of [createAppointmentService]:
    [{ doctor_id, appointment_date, time, status: { notIn: [CANCELLED] } }]. *)
Definition holds_slot (doctor_id : string) (date : Z) (time : string)
    (a : Appointment.t) : bool :=
  (String.eqb (Appointment.doctor_id a) doctor_id
   && Z.eqb (Appointment.appointment_date a) date
   && String.eqb (Appointment.time a) time
   && negb (bool_decide (Appointment.status a = CANCELLED)))%bool.

Definition createAppointmentService (env : Env) (userId : string)
    (body : CreateAppointmentInput) : M Appointment.t :=
  patient <- Prisma.patient_find_user_id userId ;;
  match patient with
  | None => throw (Error "Patient profile not found")
  | Some patient =>
  let validatedData := body in
  doctor <- Prisma.doctor_find_id (doctor_id validatedData) ;;
  match doctor with
  | None => throw (Error "Doctor not found")
  | Some doctor =>
  let appointmentDate := Date_parse env (appointment_date validatedData) in
  existingAppointment <- Prisma.appointment_findFirst
    (holds_slot (doctor_id validatedData) appointmentDate (time validatedData)) ;;
  match existingAppointment with
  | Some _ => throw (Error "This time slot is already booked for the selected doctor")
  | None =>
  appointment <- Prisma.appointment_create (fun id =>
    Appointment.mk id (Patient.id patient) (doctor_id validatedData)
      appointmentDate (time validatedData) (type validatedData)
      (note validatedData) PENDING None) ;;
  let appointmentDateStr := toLocaleDateString env appointmentDate in
  match Doctor.user_id doctor with
  | Some doctor_user =>
      when (JS.truthy_string doctor_user)
        (createNotification env (mkData doctor_user
           "🩺 New Appointment Request"
           (Patient.first_name patient +:+ " " +:+ Patient.last_name patient
            +:+ " has requested a " +:+ type validatedData
            +:+ " appointment on " +:+ appointmentDateStr +:+ " at "
            +:+ time validatedData +:+ ". Please review and approve.")
           (Some ("/doctor/appointments/" +:+ pretty (Appointment.id appointment))))
         ;;; ret tt)
  | None => ret tt
  end ;;;
  createNotification env (mkData userId
    "📅 Appointment Request Submitted"
    ("Your " +:+ type validatedData +:+ " appointment with Dr. "
     +:+ Doctor.name doctor +:+ " on " +:+ appointmentDateStr +:+ " at "
     +:+ time validatedData
     +:+ " has been submitted and is pending approval.")
    (Some ("/appointments/" +:+ pretty (Appointment.id appointment)))) ;;;
  when ((Z.leb 8 (currentHour env) && Z.leb (currentHour env) 17)
        || is_urgent_type (type validatedData))%bool
    (adminUsers <- Prisma.user_findMany_role "ADMIN" ;;
     for_of adminUsers (fun admin =>
       createNotification env (mkData (User.id admin)
         "📋 New Appointment Request"
         (Patient.first_name patient +:+ " " +:+ Patient.last_name patient
          +:+ " booked a " +:+ type validatedData +:+ " appointment with Dr. "
          +:+ Doctor.name doctor +:+ " for " +:+ appointmentDateStr +:+ " at "
          +:+ time validatedData +:+ ".")
         (Some "/admin/appointments")) ;;; ret tt)) ;;;
  ret appointment
  end end end.

(** The two notification texts of a patient's cancellation. *)
Definition cancelled_by_patient_note (env : Env) (patient : Patient.t)
    (doctor_user : string) (existing : Appointment.t) (reason : option string)
    : CreateNotificationData :=
  mkData doctor_user
    "🚫 Appointment Cancelled by Patient"
    (Patient.first_name patient +:+ " " +:+ Patient.last_name patient
     +:+ " has cancelled their appointment scheduled for "
     +:+ toLocaleDateString env (Appointment.appointment_date existing)
     +:+ " at " +:+ Appointment.time existing +:+ ". "
     +:+ (if JS.truthy_opt_string reason
          then "Reason: " +:+ JS.nullish reason "" else ""))
    (Some "/doctor/appointments").

Definition same_day_cancellation_alert (env : Env) (patient : Patient.t)
    (doctor : Doctor.t) (existing : Appointment.t) (admin : User.t)
    : CreateNotificationData :=
  mkData (User.id admin)
    "⚠️ Urgent: Same-Day Appointment Cancellation"
    ("Patient " +:+ Patient.first_name patient +:+ " " +:+ Patient.last_name patient
     +:+ " cancelled appointment with Dr. " +:+ Doctor.name doctor
     +:+ " scheduled for "
     +:+ toLocaleDateString env (Appointment.appointment_date existing)
     +:+ " at " +:+ Appointment.time existing
     +:+ ". Immediate attention may be required.")
    (Some "/admin/appointments").

Definition updateAppointmentStatusService (env : Env) (userId : string)
    (appointmentId : Z) (body : UpdateAppointmentInput) : M Appointment.t :=
  let validatedData := body in
  patient <- Prisma.patient_find_user_id userId ;;
  match patient with
  | None => throw (Error "Patient profile not found")
  | Some patient =>
  existingAppointment <- Prisma.appointment_findFirst (fun a =>
    (Prisma.has_id appointmentId a
     && String.eqb (Appointment.patient_id a) (Patient.id patient))%bool) ;;
  match existingAppointment with
  | None => throw (Error "Appointment not found")
  | Some existingAppointment =>
  (* include: { doctor: ... } *)
  existingDoctor <- Prisma.doctor_find_id (Appointment.doctor_id existingAppointment) ;;
  if (bool_decide (status validatedData = CANCELLED)
      && negb (bool_decide (Appointment.status existingAppointment = PENDING)))%bool
  then throw (Error "Only pending appointments can be cancelled")
  else
  updatedAppointment <- Prisma.appointment_update appointmentId
    (status validatedData) (reason validatedData) ;;
  (if bool_decide (status validatedData = CANCELLED) then
     match existingDoctor with
     | None => throw (Error "TypeError: Cannot read properties of null")
     | Some doctor =>
       match Doctor.user_id doctor with
       | Some doctor_user =>
         when (JS.truthy_string doctor_user)
           (createNotification env
              (cancelled_by_patient_note env patient doctor_user
                 existingAppointment (reason validatedData)) ;;;
            when (Z.leb (daysDiff (Appointment.appointment_date existingAppointment)
                           (now env)) 1)
              (adminUsers <- Prisma.user_findMany_role "ADMIN" ;;
               for_of adminUsers (fun admin =>
                 createNotification env
                   (same_day_cancellation_alert env patient doctor
                      existingAppointment admin) ;;; ret tt)))
       | None => ret tt
       end
     end
   else ret tt) ;;;
  ret updatedAppointment
  end end.

End AppointmentService.

(** ** [doctor.service.ts]: status changes by the doctor, and billing *)

Module DoctorService.
Import NotificationService.

(** The object [updateDoctorAppointmentStatus] returns: [{ error }] or
    [{ updated }]. *)
Inductive StatusResult :=
| error_ (error : string)
| updated_ (updated : Appointment.t).

Definition reason_or (reason : option string) (otherwise : string) : string :=
  if JS.truthy_opt_string reason then "Reason: " +:+ JS.nullish reason ""
  else otherwise.

Definition doctor_cancelled_alert (env : Env) (doctor : Doctor.t)
    (patient : Patient.t) (details : Appointment.t) (reason : option string)
    (admin : User.t) : CreateNotificationData :=
  mkData (User.id admin)
    "🚨 Doctor Cancelled Appointment"
    ("Dr. " +:+ Doctor.name doctor +:+ " cancelled appointment with "
     +:+ Patient.first_name patient +:+ " " +:+ Patient.last_name patient
     +:+ " on " +:+ toLocaleDateString env (Appointment.appointment_date details)
     +:+ " at " +:+ Appointment.time details +:+ ". "
     +:+ reason_or reason "No reason provided.")
    (Some "/admin/appointments").

(** What the [switch (status)] assigns to [emoji], [title] and [message]. *)
Definition status_note (doctor : Doctor.t) (status : AppointmentStatus)
    (reason : option string) (patient_user : string) : CreateNotificationData :=
  match status with
  | SCHEDULED =>
      mkData patient_user ("✅" +:+ " " +:+ "Appointment Approved!")
        ("Good news! Dr. " +:+ Doctor.name doctor
         +:+ " has approved your appointment. Your appointment is now confirmed.")
        (Some "/appointments")
  | COMPLETED =>
      mkData patient_user ("🏥" +:+ " " +:+ "Appointment Completed")
        ("Your appointment with Dr. " +:+ Doctor.name doctor
         +:+ " has been marked as completed. Thank you for visiting us!")
        (Some "/appointments")
  | CANCELLED =>
      mkData patient_user ("❌" +:+ " " +:+ "Appointment Cancelled")
        ("Unfortunately, your appointment with Dr. " +:+ Doctor.name doctor
         +:+ " has been cancelled. "
         +:+ reason_or reason "Please contact us for rescheduling.")
        (Some "/appointments")
  | PENDING =>
      mkData patient_user ("📋" +:+ " " +:+ "Appointment Status Updated")
        ("Your appointment status was changed to "
         +:+ AppointmentStatus_to_string PENDING +:+ ".")
        (Some "/appointments")
  end.

Definition reminder_note (env : Env) (doctor : Doctor.t) (details : Appointment.t)
    (patient_user : string) : CreateNotificationData :=
  mkData patient_user "⏰ Appointment Reminder"
    ("Don't forget! You have an appointment with Dr. " +:+ Doctor.name doctor
     +:+ " on " +:+ toLocaleDateString env (Appointment.appointment_date details)
     +:+ " at " +:+ Appointment.time details +:+ ".")
    (Some "/appointments").

Definition updateDoctorAppointmentStatus (env : Env) (userId : string)
    (appointmentId : Z) (status : string) (reason : option string)
    : M StatusResult :=
  match AppointmentStatus_of_string status with
  | None => ret (error_ "Invalid status value")
  | Some status =>
  doctor <- Prisma.doctor_find_user_id userId ;;
  match doctor with
  | None => ret (error_ "Doctor not found")
  | Some doctor =>
  appointment <- Prisma.appointment_findFirst (fun a =>
    (Prisma.has_id appointmentId a
     && String.eqb (Appointment.doctor_id a) (Doctor.id doctor))%bool) ;;
  match appointment with
  | None => ret (error_ "Appointment not found")
  | Some _ =>
  updated <- Prisma.appointment_update appointmentId status reason ;;
  patient <- Prisma.patient_find_id (Appointment.patient_id updated) ;;
  match patient with
  | Some patient =>
    match Patient.user_id patient with
    | Some patient_user =>
      when (JS.truthy_string patient_user)
        ((* the [case 'CANCELLED':] branch of the switch *)
         when (bool_decide (status = CANCELLED))
           (appointmentDetails <- Prisma.appointment_findUnique appointmentId ;;
            match appointmentDetails with
            | Some details =>
              when (Z.leb (AppointmentService.daysDiff
                             (Appointment.appointment_date details) (now env)) 2)
                (adminUsers <- Prisma.user_findMany_role "ADMIN" ;;
                 for_of adminUsers (fun admin =>
                   createNotification env
                     (doctor_cancelled_alert env doctor patient details reason admin)
                   ;;; ret tt))
            | None => ret tt
            end) ;;;
         (* after the switch *)
         createNotification env (status_note doctor status reason patient_user) ;;;
         when (bool_decide (status = SCHEDULED))
           (appointmentDetails <- Prisma.appointment_findUnique appointmentId ;;
            match appointmentDetails with
            | Some details =>
              createNotification env (reminder_note env doctor details patient_user)
              ;;; ret tt
            | None => ret tt
            end))
    | None => ret tt
    end
  | None => ret tt
  end ;;;
  ret (updated_ updated)
  end end end.

(** *** Billing *)

Record AddBillInput := mkAdd {
  add_service_id : Z;
  add_quantity : Z;
  add_service_date : string }.

Record EditBillInput := mkEdit {
  edit_service_id : option Z;
  edit_quantity : option Z;
  edit_service_date : option string }.

(** [let updateData: any = {}] of [editBillInAppointment]. *)
Record BillUpdateData := mkBillUpdate {
  u_service_id : option Z;
  u_unit_cost : option JS.number;
  u_total_cost : option JS.number;
  u_quantity : option Z;
  u_service_date : option Z }.

Definition apply_bill_update (u : BillUpdateData) (b : PatientBills.t) : PatientBills.t :=
  PatientBills.mk (PatientBills.id b) (PatientBills.bill_id b)
    (JS.nullish (u_service_id u) (PatientBills.service_id b))
    (JS.nullish (u_service_date u) (PatientBills.service_date b))
    (JS.nullish (u_quantity u) (PatientBills.quantity b))
    (JS.nullish (u_unit_cost u) (PatientBills.unit_cost b))
    (JS.nullish (u_total_cost u) (PatientBills.total_cost b)).

Record EditFinalBillInput := mkEditFinal {
  ef_discount : option JS.number;
  ef_bill_date : option string }.

Record PaymentSummary := mkSummary {
  total : JS.number;
  summary_discountAmount : JS.number;
  summary_payable : JS.number }.

(** [{ ...updated, bills: updated.bills, payable, discountAmount }] *)
Record FinalBill := mkFinalBill {
  updated : Payment.t;
  bills : list PatientBills.t;
  payable : JS.number;
  discountAmount : JS.number }.

(** [bills.reduce((sum, bill) => sum + bill.total_cost, 0)] *)
Definition sum_total_cost (bills : list PatientBills.t) : JS.number :=
  fold_left (fun sum bill => (sum + PatientBills.total_cost bill)%float) bills 0%float.

Definition recalculatePaymentSummary (paymentId : Z) : M (option PaymentSummary) :=
  payment <- Prisma.payment_findUnique paymentId ;;
  match payment with
  | None => ret None
  | Some payment =>
  bills <- Prisma.payment_bills payment ;;
  let total := sum_total_cost bills in
  let discountAmount :=
    (total * (if JS.truthy_number (Payment.discount payment)
              then Payment.discount payment else 0) / 100)%float in
  let payable := (total - discountAmount)%float in
  Prisma.payment_update paymentId (Payment.set_total_amount total) ;;;
  ret (Some (mkSummary total discountAmount payable))
  end.

Definition addBillToAppointment (env : Env) (appointmentId : Z)
    (input : AddBillInput) : M PatientBills.t :=
  billAppointment <- Prisma.appointment_findUnique appointmentId ;;
  match billAppointment with
  | None => throw (Error "Appointment not found")
  | Some billAppointment =>
  payment <- Prisma.payment_find_appointment_id appointmentId ;;
  payment <-
    match payment with
    | Some p => ret (Some p)
    | None =>
        Prisma.payment_create (fun id =>
          Payment.mk id appointmentId (Appointment.patient_id billAppointment)
            (now env) (now env) 0%float 0%float 0%float "CASH" "UNPAID" false) ;;;
        Prisma.payment_find_appointment_id appointmentId
    end ;;
  match payment with
  | None => throw (Error "Payment not found")
  | Some payment =>
  service <- Prisma.services_findUnique (add_service_id input) ;;
  match service with
  | None => throw (Error "Service not found")
  | Some service =>
  let total_cost := (Services.price service * JS.number_of_Z (add_quantity input))%float in
  bill <- Prisma.patientBills_create (fun id =>
    PatientBills.mk id (Payment.id payment) (add_service_id input)
      (Date_parse env (add_service_date input)) (add_quantity input)
      (Services.price service) total_cost) ;;
  recalculatePaymentSummary (Payment.id payment) ;;;
  patient <- Prisma.patient_find_id (Appointment.patient_id billAppointment) ;;
  match patient with
  | Some patient =>
    match Patient.user_id patient with
    | Some patient_user =>
      when (JS.truthy_string patient_user)
        (createNotification env (mkData patient_user "New Bill Generated"
           "A new bill has been generated for your appointment."
           (Some "/appointments")) ;;; ret tt)
    | None => ret tt
    end
  | None => ret tt
  end ;;;
  ret bill
  end end end.

Definition deleteBillFromAppointment (appointmentId billId : Z) : M bool :=
  payment <- Prisma.payment_find_appointment_id appointmentId ;;
  match payment with
  | None => throw (Error "Payment not found")
  | Some payment =>
  Prisma.patientBills_delete billId ;;;
  recalculatePaymentSummary (Payment.id payment) ;;;
  ret true
  end.

Definition editBillInAppointment (env : Env) (appointmentId billId : Z)
    (data : EditBillInput) : M PatientBills.t :=
  payment <- Prisma.payment_find_appointment_id appointmentId ;;
  match payment with
  | None => throw (Error "Payment not found")
  | Some payment =>
  bill <- Prisma.patientBills_findUnique billId ;;
  match bill with
  | None => throw (Error "Bill not found")
  | Some bill =>
  let updateData := mkBillUpdate None None None None None in
  (* if (data.service_id) *)
  updateData <-
    (if JS.truthy_opt_Z (edit_service_id data) then
       service <- Prisma.services_findUnique (JS.nullish (edit_service_id data) 0) ;;
       match service with
       | None => throw (Error "Service not found")
       | Some service =>
         ret (mkBillUpdate (edit_service_id data) (Some (Services.price service))
                (Some (Services.price service
                       * JS.number_of_Z (JS.nullish (edit_quantity data)
                                    (PatientBills.quantity bill)))%float)
                (u_quantity updateData) (u_service_date updateData))
       end
     else ret updateData) ;;
  (* if (data.quantity) *)
  let updateData :=
    if JS.truthy_opt_Z (edit_quantity data) then
      let quantity := JS.nullish (edit_quantity data) 0 in
      mkBillUpdate (u_service_id updateData) (u_unit_cost updateData)
        (Some (if JS.truthy_opt_number (u_unit_cost updateData)
               then (JS.nullish (u_unit_cost updateData) 0 * JS.number_of_Z quantity)%float
               else (PatientBills.unit_cost bill * JS.number_of_Z quantity)%float))
        (Some quantity) (u_service_date updateData)
    else updateData in
  (* if (data.service_date) *)
  let updateData :=
    if JS.truthy_opt_string (edit_service_date data) then
      mkBillUpdate (u_service_id updateData) (u_unit_cost updateData)
        (u_total_cost updateData) (u_quantity updateData)
        (Some (Date_parse env (JS.nullish (edit_service_date data) "")))
    else updateData in
  updatedBill <- Prisma.patientBills_update billId (apply_bill_update updateData) ;;
  recalculatePaymentSummary (Payment.id payment) ;;;
  ret updatedBill
  end end.

Definition editFinalBillSummary (env : Env) (appointmentId : Z)
    (data : EditFinalBillInput) : M (option (Payment.t * list PatientBills.t)) :=
  payment <- Prisma.payment_find_appointment_id appointmentId ;;
  match payment with
  | None => throw (Error "Payment not found")
  | Some payment =>
  let set_discount p :=
    match ef_discount data with
    | Some d => Payment.set_discount d p
    | None => p
    end in
  let set_bill_date p :=
    if JS.truthy_opt_string (ef_bill_date data)
    then Payment.set_bill_date (Date_parse env (JS.nullish (ef_bill_date data) "")) p
    else p in
  Prisma.payment_update (Payment.id payment) (fun p => set_bill_date (set_discount p)) ;;;
  recalculatePaymentSummary (Payment.id payment) ;;;
  updatedWithBills <- Prisma.payment_findUnique (Payment.id payment) ;;
  match updatedWithBills with
  | Some p => bills <- Prisma.payment_bills p ;; ret (Some (p, bills))
  | None => ret None
  end
  end.

Definition generateFinalBillForAppointment (env : Env) (appointmentId : Z)
    (discount : JS.number) (bill_date : string) : M FinalBill :=
  payment <- Prisma.payment_find_appointment_id appointmentId ;;
  match payment with
  | None => throw (Error "No bills to generate final bill")
  | Some payment =>
  bills <- Prisma.payment_bills payment ;;
  let total := sum_total_cost bills in
  let discountAmount := (total * discount / 100)%float in
  let payable := (total - discountAmount)%float in
  updated <- Prisma.payment_update (Payment.id payment) (fun p =>
    Payment.set_finalized true
      (Payment.set_bill_date (Date_parse env bill_date)
         (Payment.set_total_amount total (Payment.set_discount discount p)))) ;;
  updated_bills <- Prisma.payment_bills updated ;;
  ret (mkFinalBill updated updated_bills payable discountAmount)
  end.

End DoctorService.

(** ** Vocabulary of the properties *)

Module Ledger.

(** The cached total of an invoice agrees with its current lines. *)
Definition invoice_consistent (w : World) (p : Payment.t) : Prop :=
  Payment.total_amount p
  = DoctorService.sum_total_cost (Prisma.bills_of (Payment.id p) w).

(** ... for every invoice of the database. *)
Definition ledger_consistent (w : World) : Prop :=
  forall p, In p (payments w) -> invoice_consistent w p.

(** "The lines sum to [total]", in the words of the specification: the costs
    of the lines, added to 0 one after the other in the order of the table.
    (Addition of [number]s is not associative, so the order is part of the
    meaning.) *)
Inductive sums_to : list PatientBills.t -> JS.number -> Prop :=
| sums_to_nil : sums_to [] 0
| sums_to_snoc (l : list PatientBills.t) (b : PatientBills.t) (total : JS.number) :
    sums_to l total ->
    sums_to (l ++ [b]) (total + PatientBills.total_cost b).

(** The cached total of an invoice is what its lines sum to. *)
Definition invoice_adds_up (w : World) (p : Payment.t) : Prop :=
  sums_to (Prisma.bills_of (Payment.id p) w) (Payment.total_amount p).

Definition ledger_adds_up (w : World) : Prop :=
  forall p, In p (payments w) -> invoice_adds_up w p.

(** The database after [payment.update] on the rows with key [id]. *)
Definition payments_written (id : Z) (f : Payment.t -> Payment.t) (w : World)
    : World :=
  with_payments (Prisma.update_where (Prisma.payment_has_id id) f (payments w))
    (next_payment_id w) w.

(** The database with every [finalized] flag cleared: two databases with the
    same image differ at most in these flags. *)
Definition unfinalize (w : World) : World :=
  with_payments (map (Payment.set_finalized false) (payments w))
    (next_payment_id w) w.

Definition same_but_finalized (w1 w2 : World) : Prop :=
  unfinalize w1 = unfinalize w2.

Definition clear_flag (r : result (option Payment.t)) : result (option Payment.t) :=
  match r with
  | Ok o => Ok (Payment.set_finalized false <$> o)
  | Throw e => Throw e
  end.

(** A query for a payment row that does not depend on the flags: on the
    cleared database it returns the cleared row. *)
Definition finds_cleared (m : M (option Payment.t)) : Prop :=
  forall w, m (unfinalize w) = (clear_flag (fst (m w)), unfinalize (snd (m w))).

(** A service that neither reads nor writes the flags: run on the cleared
    database it has the same outcome and leaves the cleared image of what it
    leaves otherwise. *)
Definition ignores_finalized {A} (m : M A) : Prop :=
  forall w, m (unfinalize w) = (fst (m w), unfinalize (snd (m w))).

End Ledger.

Module Outbox.
Import NotificationService.

(** What was asked of [createNotification] for a stored row. *)
Definition data_of (n : Notification.t) : CreateNotificationData :=
  mkData (Notification.userId n) (Notification.title n)
    (Notification.message n) (Notification.link n).

(** The notifications of the database, oldest first, as they were
    requested. *)
Definition outbox (w : World) : list CreateNotificationData :=
  data_of <$> notifications w.

(** [x] was created before [y]. *)
Definition created_before (x y : CreateNotificationData)
    (l : list CreateNotificationData) : Prop :=
  exists i j : nat, l !! i = Some x /\ l !! j = Some y /\ (i < j)%nat.

(** The row [createNotification] stores, the live deliveries it attempts and
    the world it leaves. *)
Definition notification_row (env : Env) (data : CreateNotificationData)
    (w : World) : Notification.t :=
  Notification.mk (pretty (next_notification_id w)) (userId data) (title data)
    (message data) (link data) false (now env).

Definition deliveries (env : Env) (data : CreateNotificationData) (w : World)
    : list Effect :=
  match webSocketService w with
  | Some ws =>
      [Emit (WebSocketService.user_room (userId data)) "new_notification"
         (NotificationPayload.mk (pretty (next_notification_id w)) (title data)
            (message data) (link data) false (toISOString env (now env)))
         (WebSocketService.in_room (WebSocketService.user_room (userId data)) ws)]
  | None => []
  end.

Definition after_notification (env : Env) (w : World)
    (data : CreateNotificationData) : World :=
  with_effects
    ((effects w ++ [DbCreateNotification (notification_row env data w)])
     ++ deliveries env data w)
    (with_notifications (notifications w ++ [notification_row env data w])
       (next_notification_id w + 1)%N w).

(** ... and after a run of calls. *)
Definition notify (env : Env) (w : World) (l : list CreateNotificationData)
    : World :=
  fold_left (after_notification env) l w.

(** The notifications a patient's cancellation requests, in order: the note
    to the doctor, then the alerts to the administrators. *)
Definition patient_cancel_notes (env : Env) (patient : Patient.t)
    (doctor : Doctor.t) (existing : Appointment.t) (reason : option string)
    (admins : list User.t) : list CreateNotificationData :=
  match Doctor.user_id doctor with
  | Some doctor_user =>
      if JS.truthy_string doctor_user then
        AppointmentService.cancelled_by_patient_note env patient doctor_user
          existing reason
        :: (if Z.leb (AppointmentService.daysDiff
                        (Appointment.appointment_date existing) (now env)) 1
            then AppointmentService.same_day_cancellation_alert env patient
                   doctor existing <$> admins
            else [])
      else []
  | None => []
  end.

(** The notifications a doctor's status change requests, in order: the
    alerts to the administrators (cancellation only), the note to the
    patient, the reminder (approval only). *)
Definition doctor_status_notes (env : Env) (doctor : Doctor.t)
    (patient : Patient.t) (status : AppointmentStatus) (reason : option string)
    (details : Appointment.t) (admins : list User.t)
    : list CreateNotificationData :=
  match Patient.user_id patient with
  | Some patient_user =>
      if JS.truthy_string patient_user then
        (if bool_decide (status = CANCELLED) then
           if Z.leb (AppointmentService.daysDiff
                       (Appointment.appointment_date details) (now env)) 2
           then DoctorService.doctor_cancelled_alert env doctor patient details
                  reason <$> admins
           else []
         else [])
        ++ [DoctorService.status_note doctor status reason patient_user]
        ++ (if bool_decide (status = SCHEDULED)
            then [DoctorService.reminder_note env doctor details patient_user]
            else [])
      else []
  | None => []
  end.

(** The appointment is at most [n] days ahead of the clock (any date already
    past qualifies). *)
Definition at_most_days_ahead (n : Z) (env : Env) (appointment_date : Z) : Prop :=
  (appointment_date - now env <= n * AppointmentService.MS_PER_DAY)%Z.

(** The appointment is within [n] days of the clock, before or after. *)
Definition within_days_of_now (n : Z) (env : Env) (appointment_date : Z) : Prop :=
  (Z.abs (appointment_date - now env) <= n * AppointmentService.MS_PER_DAY)%Z.

(** The row a status update writes. *)
Definition with_status (status : AppointmentStatus) (reason : option string)
    (a : Appointment.t) : Appointment.t :=
  Appointment.set_status status (JS.nullish_opt reason (Appointment.reason a)) a.

Definition status_written (id : Z) (status : AppointmentStatus)
    (reason : option string) (w : World) : World :=
  with_appointments
    (Prisma.update_where (Prisma.has_id id) (with_status status reason)
       (appointments w))
    (next_appointment_id w) w.

Definition is_emit (e : Effect) : Prop :=
  match e with
  | Emit _ _ _ _ => True
  | DbCreateNotification _ => False
  end.

End Outbox.

(** ** A small hospital, for the examples *)

Module Sample.

(** 2023-11-14T22:13:20Z, and midnight of the 15th. *)
Definition t_now : Z := 1700000000000.
Definition t_nov15 : Z := 1700006400000.

Definition env : Env :=
  mkEnv t_now 10
    (fun s => if String.eqb s "2023-11-15" then t_nov15 else 0)
    (fun d => if Z.eqb d t_nov15 then "Wednesday, November 15, 2023" else pretty d)
    (fun d => pretty d).

Definition admin : User.t := User.mk "u-admin" "ADMIN".
Definition asha : Patient.t := Patient.mk "p1" (Some "u-asha") "Asha" "Rao".
Definition ben : Patient.t := Patient.mk "p2" (Some "u-ben") "Ben" "Iyer".
Definition mehta : Doctor.t := Doctor.mk "d1" (Some "u-mehta") "Mehta".
Definition consultation : Services.t := Services.mk 5 "Consultation" 100.

Definition appointment1 : Appointment.t :=
  Appointment.mk 1 "p1" "d1" t_nov15 "10:00" "checkup" None PENDING None.
Definition appointment2 : Appointment.t :=
  Appointment.mk 2 "p2" "d1" t_nov15 "11:00" "checkup" None SCHEDULED None.

Definition payment1 : Payment.t :=
  Payment.mk 1 1 "p1" t_now t_now 0 200 0 "CASH" "UNPAID" false.
Definition payment2 : Payment.t :=
  Payment.mk 2 2 "p2" t_now t_now 0 300 0 "CASH" "UNPAID" true.

Definition bill1 : PatientBills.t :=
  PatientBills.mk 1 1 5 t_nov15 2 100 200.
Definition bill2 : PatientBills.t :=
  PatientBills.mk 2 2 5 t_nov15 3 100 300.

Definition world : World :=
  mkWorld
    [admin; User.mk "u-asha" "PATIENT"; User.mk "u-ben" "PATIENT";
     User.mk "u-mehta" "DOCTOR"]
    [asha; ben] [mehta] [consultation]
    [appointment1; appointment2] [payment1; payment2] [bill1; bill2] []
    3 3 3 1 None [].

(** The same hospital with every invoice open, respectively closed. *)
Definition world_open : World :=
  with_payments (map (Payment.set_finalized false) (payments world)) 3 world.
Definition world_closed : World :=
  with_payments (map (Payment.set_finalized true) (payments world)) 3 world.

(** The hospital after one notification was stored for Asha. *)
Definition note1 : Notification.t :=
  Notification.mk "1" "u-asha" "New Bill Generated"
    "A new bill has been generated for your appointment."
    (Some "/appointments") false t_now.
Definition world_with_note : World := with_notifications [note1] 2 world.

(** The hospital when appointment 1 was due ten days ago. *)
Definition t_nov04 : Z := 1699136000000.
Definition overdue1 : Appointment.t :=
  Appointment.mk 1 "p1" "d1" t_nov04 "10:00" "checkup" None PENDING None.
Definition world_overdue : World :=
  with_appointments [overdue1; appointment2] 3 world.

(** Two sessions of the same user. *)
Definition s1 : Socket.t := Socket.mk "socket-1" (Some "u-asha") [].
Definition s2 : Socket.t := Socket.mk "socket-2" (Some "u-asha") [].

End Sample.

(** ** The steps of the billing services *)

Module Billing.
Import DoctorService NotificationService.

(** The payment row [addBillToAppointment] creates when the appointment has
    none. *)
Definition opened_invoice (env : Env) (appointmentId : Z) (ba : Appointment.t)
    (w : World) : Payment.t :=
  Payment.mk (next_payment_id w) appointmentId (Appointment.patient_id ba)
    (now env) (now env) 0%float 0%float 0%float "CASH" "UNPAID" false.

(** The database once the appointment has an invoice, and that invoice. *)
Definition with_invoice (env : Env) (appointmentId : Z) (ba : Appointment.t)
    (w : World) : World :=
  match Prisma.payment_of_appointment appointmentId w with
  | Some _ => w
  | None =>
      with_payments (payments w ++ [opened_invoice env appointmentId ba w])
        (next_payment_id w + 1) w
  end.

Definition invoice_for (env : Env) (appointmentId : Z) (ba : Appointment.t)
    (w : World) : Payment.t :=
  match Prisma.payment_of_appointment appointmentId w with
  | Some p => p
  | None => opened_invoice env appointmentId ba w
  end.

(** The line [addBillToAppointment] creates. *)
Definition new_line (env : Env) (input : AddBillInput) (p : Payment.t)
    (s : Services.t) (w : World) : PatientBills.t :=
  PatientBills.mk (next_bill_id w) (Payment.id p) (add_service_id input)
    (Date_parse env (add_service_date input)) (add_quantity input)
    (Services.price s) (Services.price s * JS.number_of_Z (add_quantity input))%float.

Definition line_added (b : PatientBills.t) (w : World) : World :=
  with_patientBills (patientBills w ++ [b]) (next_bill_id w + 1) w.

Definition line_updated (billId : Z) (f : PatientBills.t -> PatientBills.t)
    (w : World) : World :=
  with_patientBills (Prisma.update_where (Prisma.bill_has_id billId) f (patientBills w))
    (next_bill_id w) w.

Definition line_deleted (billId : Z) (w : World) : World :=
  with_patientBills
    (List.filter (fun b => negb (Prisma.bill_has_id billId b)) (patientBills w))
    (next_bill_id w) w.

(** The database after [recalculatePaymentSummary] found the payment. *)
Definition recomputed (paymentId : Z) (w : World) : World :=
  Ledger.payments_written paymentId
    (Payment.set_total_amount (sum_total_cost (Prisma.bills_of paymentId w))) w.

(** The notification of a new bill, if the patient can be told. *)
Definition bill_notes (patient : option Patient.t) : list CreateNotificationData :=
  match patient with
  | Some patient =>
      match Patient.user_id patient with
      | Some patient_user =>
          if JS.truthy_string patient_user
          then [mkData patient_user "New Bill Generated"
                  "A new bill has been generated for your appointment."
                  (Some "/appointments")]
          else []
      | None => []
      end
  | None => []
  end.

(** [updateData] of [editBillInAppointment], once the three [if]s have run;
    [price] is the price of the service named by a truthy [service_id]. *)
Definition edit_data (env : Env) (data : EditBillInput) (bill : PatientBills.t)
    (price : JS.number) : BillUpdateData :=
  let service := JS.truthy_opt_Z (edit_service_id data) in
  let quantity := JS.truthy_opt_Z (edit_quantity data) in
  mkBillUpdate
    (if service then edit_service_id data else None)
    (if service then Some price else None)
    (if quantity then
       Some ((if (service && JS.truthy_number price)%bool
              then price else PatientBills.unit_cost bill)
             * JS.number_of_Z (JS.nullish (edit_quantity data) 0%Z))%float
     else if service then
       Some (price * JS.number_of_Z (JS.nullish (edit_quantity data)
                                (PatientBills.quantity bill)))%float
     else None)
    (if quantity then Some (JS.nullish (edit_quantity data) 0) else None)
    (if JS.truthy_opt_string (edit_service_date data)
     then Some (Date_parse env (JS.nullish (edit_service_date data) ""))
     else None).

(** What the summary edit writes on the payment row. *)
Definition summary_edit (env : Env) (data : EditFinalBillInput) (p : Payment.t)
    : Payment.t :=
  let p1 := match ef_discount data with
            | Some d => Payment.set_discount d p
            | None => p
            end in
  if JS.truthy_opt_string (ef_bill_date data)
  then Payment.set_bill_date (Date_parse env (JS.nullish (ef_bill_date data) "")) p1
  else p1.

(** What [generateFinalBillForAppointment] writes on the payment row. *)
Definition finalized_with (env : Env) (discount : JS.number) (bill_date : string)
    (total : JS.number) (p : Payment.t) : Payment.t :=
  Payment.set_finalized true
    (Payment.set_bill_date (Date_parse env bill_date)
       (Payment.set_total_amount total (Payment.set_discount discount p))).

End Billing.

(** ** More sample data *)

Module Sample2.

(** The sample hospital with a second service, free of charge. *)
Definition free_checkup : Services.t := Services.mk 6 "Free check-up" 0%float.

Definition world_with_free_service : World :=
  mkWorld (users Sample.world) (patients Sample.world) (doctors Sample.world)
    [Sample.consultation; free_checkup]
    (appointments Sample.world) (payments Sample.world)
    (patientBills Sample.world) (notifications Sample.world)
    (next_appointment_id Sample.world) (next_payment_id Sample.world)
    (next_bill_id Sample.world) (next_notification_id Sample.world)
    (webSocketService Sample.world) (effects Sample.world).

End Sample2.

(** ** The steps of the appointment services *)

Module Bookings.
Import NotificationService AppointmentService.

(** The row [createAppointmentService] creates, and the database with it. *)
Definition requested (env : Env) (patient : Patient.t)
    (body : CreateAppointmentInput) (w : World) : Appointment.t :=
  Appointment.mk (next_appointment_id w) (Patient.id patient) (doctor_id body)
    (Date_parse env (appointment_date body)) (time body) (type body) (note body)
    PENDING None.

Definition booked (a : Appointment.t) (w : World) : World :=
  with_appointments (appointments w ++ [a]) (next_appointment_id w + 1) w.

(** The guard of the administrators' notification: business hours, or a type
    that says urgent or emergency. *)
Definition admins_watch (env : Env) (body : CreateAppointmentInput) : bool :=
  ((Z.leb 8 (currentHour env) && Z.leb (currentHour env) 17)
   || is_urgent_type (type body))%bool.

(** The accounts a booking notifies, in order. *)
Definition booking_recipients (env : Env) (userId : string) (doctor : Doctor.t)
    (body : CreateAppointmentInput) (admins : list User.t) : list string :=
  (match Doctor.user_id doctor with
   | Some doctor_user => if JS.truthy_string doctor_user then [doctor_user] else []
   | None => []
   end)
  ++ [userId]
  ++ (if admins_watch env body then User.id <$> admins else []).

(** The notifications a booking requests, in order. *)
Definition booking_notes (env : Env) (userId : string) (patient : Patient.t)
    (doctor : Doctor.t) (body : CreateAppointmentInput) (a : Appointment.t)
    (admins : list User.t) : list CreateNotificationData :=
  let appointmentDateStr :=
    toLocaleDateString env (Date_parse env (appointment_date body)) in
  (match Doctor.user_id doctor with
   | Some doctor_user =>
       if JS.truthy_string doctor_user then
         [mkData doctor_user
            "🩺 New Appointment Request"
            (Patient.first_name patient +:+ " " +:+ Patient.last_name patient
             +:+ " has requested a " +:+ type body
             +:+ " appointment on " +:+ appointmentDateStr +:+ " at "
             +:+ time body +:+ ". Please review and approve.")
            (Some ("/doctor/appointments/" +:+ pretty (Appointment.id a)))]
       else []
   | None => []
   end)
  ++ [mkData userId
        "📅 Appointment Request Submitted"
        ("Your " +:+ type body +:+ " appointment with Dr. "
         +:+ Doctor.name doctor +:+ " on " +:+ appointmentDateStr +:+ " at "
         +:+ time body
         +:+ " has been submitted and is pending approval.")
        (Some ("/appointments/" +:+ pretty (Appointment.id a)))]
  ++ (if admins_watch env body then
        (fun admin =>
           mkData (User.id admin)
             "📋 New Appointment Request"
             (Patient.first_name patient +:+ " " +:+ Patient.last_name patient
              +:+ " booked a " +:+ type body +:+ " appointment with Dr. "
              +:+ Doctor.name doctor +:+ " for " +:+ appointmentDateStr +:+ " at "
              +:+ time body +:+ ".")
             (Some "/admin/appointments")) <$> admins
      else []).

(** The slot of an appointment is free: no appointment that is not cancelled
    holds its doctor, date and time. *)
Definition slot_free (doctor_id : string) (date : Z) (time : string) (w : World)
    : Prop :=
  forall a, In a (appointments w) -> holds_slot doctor_id date time a = false.

(** The key the next appointment gets is not in use. *)
Definition fresh_appointment_key (w : World) : Prop :=
  forall a, In a (appointments w) -> Appointment.id a <> next_appointment_id w.

End Bookings.

Module Sample3.

(** The sample hospital after Asha's appointment was cancelled and Ben took
    the slot. *)
Definition cancelled1 : Appointment.t :=
  Appointment.mk 1 "p1" "d1" Sample.t_nov15 "10:00" "checkup" None CANCELLED None.
Definition appointment3 : Appointment.t :=
  Appointment.mk 3 "p2" "d1" Sample.t_nov15 "10:00" "checkup" None PENDING None.

Definition world_rebooked : World :=
  with_appointments [cancelled1; Sample.appointment2; appointment3] 4 Sample.world.

(** The same runtime at ten in the evening. *)
Definition night_env : Env :=
  mkEnv Sample.t_now 22 (Date_parse Sample.env) (toLocaleDateString Sample.env)
    (toISOString Sample.env).

End Sample3.

(** ** The states of the connection registry *)

Module Connections.
Import WebSocketService.

(** The states the service can be in: it starts empty; a socket connects
    under an id that is not in use, having joined no room yet; a socket that
    disconnects was open. *)
Inductive reachable : WebSocketService.t -> Prop :=
| reachable_init : reachable init
| reachable_connection (s : Socket.t) (ws : WebSocketService.t) :
    reachable ws ->
    is_open (Socket.id s) ws = false ->
    Socket.rooms s = [] ->
    reachable (on_connection s ws)
| reachable_disconnect (s : Socket.t) (ws : WebSocketService.t) :
    reachable ws ->
    In s (sockets ws) ->
    reachable (on_disconnect s ws).

(** The open sockets authenticated as [userId]. *)
Definition sessions_of (userId : string) (ws : WebSocketService.t) : list string :=
  Socket.id <$>
    List.filter (fun s => bool_decide (Socket.userId s = Some userId)) (sockets ws).

(** The rooms the connection handler puts a socket of this user in. *)
Definition rooms_for (userId : option string) : list string :=
  match userId with
  | Some u => if JS.truthy_string u then [user_room u] else []
  | None => []
  end.

(** What holds in every reachable state: socket ids are unique; each socket
    is in the room of its user and in no other; an entry of [connectedUsers]
    has a non-empty key and names an open socket of that user. *)
Definition registry_invariant (ws : WebSocketService.t) : Prop :=
  NoDup (Socket.id <$> sockets ws) /\
  (forall s, In s (sockets ws) -> Socket.rooms s = rooms_for (Socket.userId s)) /\
  (forall u sid, connectedUsers ws !! u = Some sid ->
     JS.truthy_string u = true /\
     exists s, In s (sockets ws) /\ Socket.id s = sid /\ Socket.userId s = Some u).

End Connections.

Module Sample4.
Import WebSocketService.

(** Asha with one session, and with a second session after the first one
    was closed. *)
Definition ws_one : WebSocketService.t := on_connection Sample.s1 init.
Definition ws_stale : WebSocketService.t :=
  on_disconnect Sample.s1 (on_connection Sample.s2 (on_connection Sample.s1 init)).

Definition world_stale : World := with_webSocketService (Some ws_stale) Sample.world.

End Sample4.

(** ** [appointment.service.ts]: what a patient reads *)

(** The rows are returned without the relations the queries [include]
    (doctor, patient, medical record). *)
Module AppointmentQueries.

(** [orderBy: { appointment_date: 'desc' }] *)
Definition latest_first (a b : Appointment.t) : Prop :=
  (Appointment.appointment_date b <= Appointment.appointment_date a)%Z.

Global Instance latest_first_dec : RelDecision latest_first.
Proof. intros a b. unfold latest_first. apply _. Defined.

(** [where: { patient_id: patient.id }] *)
Definition of_patient (patient : Patient.t) (a : Appointment.t) : bool :=
  String.eqb (Appointment.patient_id a) (Patient.id patient).

Definition getPatientAppointmentsService (userId : string) : M (list Appointment.t) :=
  patient <- Prisma.patient_find_user_id userId ;;
  match patient with
  | None => throw (Error "Patient profile not found")
  | Some patient =>
      gets (fun w =>
        merge_sort latest_first (List.filter (of_patient patient) (appointments w)))
  end.

Definition getAppointmentByIdService (userId : string) (appointmentId : Z)
    : M Appointment.t :=
  patient <- Prisma.patient_find_user_id userId ;;
  match patient with
  | None => throw (Error "Patient profile not found")
  | Some patient =>
  appointment <- Prisma.appointment_findFirst (fun a =>
    (Prisma.has_id appointmentId a && of_patient patient a)%bool) ;;
  match appointment with
  | None => throw (Error "Appointment not found")
  | Some appointment => ret appointment
  end
  end.

Definition getAppointmentCountService (userId : string) : M nat :=
  patient <- Prisma.patient_find_user_id userId ;;
  match patient with
  | None => throw (Error "Patient profile not found")
  | Some patient =>
      gets (fun w => length (List.filter (of_patient patient) (appointments w)))
  end.

End AppointmentQueries.

(** ** [admin-notification.service.ts]: the daily report *)

Module AdminNotificationService.
Import NotificationService.

(** [d.setDate(d.getDate() + 1)]: the same local time on the next day, which
    depends on the time zone of the runtime. *)
Record Calendar := mkCalendar { next_day : Z -> Z }.

(** [new Date(d.toISOString().split("T")[0] + "T00:00:00.000Z")]: midnight
    UTC of the day of [d]. *)
Definition utc_midnight (d : Z) : Z := d - d mod AppointmentService.MS_PER_DAY.

(** [appointment_date: { gte: from, lt: to }] *)
Definition on_day (from to : Z) (a : Appointment.t) : bool :=
  (Z.leb from (Appointment.appointment_date a)
   && Z.ltb (Appointment.appointment_date a) to)%bool.

Record Stats := mkStats {
  total : nat;
  pending : nat;
  scheduled : nat;
  completed : nat;
  cancelled : nat }.

(** [l.filter((a) => a.status === s).length] *)
Definition count_status (s : AppointmentStatus) (l : list Appointment.t) : nat :=
  length (List.filter (fun a => bool_decide (Appointment.status a = s)) l).

Definition daily_message (stats : Stats) (tomorrow : nat) : string :=
  "📊 **Daily Appointment Summary**
    
**Today's Stats:**
• Total: " +:+ pretty (total stats) +:+ " appointments
• Pending: " +:+ pretty (pending stats) +:+ " | Scheduled: "
  +:+ pretty (scheduled stats) +:+ "
• Completed: " +:+ pretty (completed stats) +:+ " | Cancelled: "
  +:+ pretty (cancelled stats) +:+ "

**Tomorrow:** " +:+ pretty tomorrow +:+ " scheduled appointments

" +:+ (if Nat.ltb 5 (cancelled stats)
       then "⚠️ High cancellation rate detected!" else "") +:+ "
" +:+ (if Nat.ltb 10 (pending stats) then "⚠️ Many pending approvals!" else "").

Definition daily_report (message : string) (admin : User.t) : CreateNotificationData :=
  mkData (User.id admin) "📊 Daily Appointment Report" message
    (Some "/admin/appointments").

Definition sendDailyAppointmentSummary (cal : Calendar) (env : Env) : M Stats :=
  let today := now env in
  let tomorrow := next_day cal today in
  todayAppointments <- gets (fun w =>
    List.filter (on_day (utc_midnight today) (utc_midnight tomorrow))
      (appointments w)) ;;
  let stats :=
    mkStats (length todayAppointments)
      (count_status PENDING todayAppointments)
      (count_status SCHEDULED todayAppointments)
      (count_status COMPLETED todayAppointments)
      (count_status CANCELLED todayAppointments) in
  let tomorrowDate := tomorrow in
  let dayAfterTomorrow := next_day cal tomorrowDate in
  tomorrowAppointments <- gets (fun w =>
    List.filter (fun a =>
      (on_day (utc_midnight tomorrowDate) (utc_midnight dayAfterTomorrow) a
       && bool_decide (Appointment.status a = SCHEDULED))%bool)
      (appointments w)) ;;
  let message := daily_message stats (length tomorrowAppointments) in
  adminUsers <- Prisma.user_findMany_role "ADMIN" ;;
  for_of adminUsers (fun admin =>
    createNotification env (daily_report message admin) ;;; ret tt) ;;;
  ret stats.

End AdminNotificationService.

(** ** A hospital with fractional prices *)

Module Sample5.

Definition dressing : Services.t := Services.mk 7 "Dressing" 0.1.
Definition injection : Services.t := Services.mk 8 "Injection" 0.2.
Definition scan : Services.t := Services.mk 9 "Scan" 33.

Definition appointment3 : Appointment.t :=
  Appointment.mk 3 "p1" "d1" Sample.t_nov15 "12:00" "checkup" None SCHEDULED None.

(** Three open invoices: 0.1 + 0.2 + 100, 33 + 66 and 100 + 200. *)
Definition payment1 : Payment.t :=
  Payment.mk 1 1 "p1" Sample.t_now Sample.t_now 0 100.3 0 "CASH" "UNPAID" false.
Definition payment2 : Payment.t :=
  Payment.mk 2 2 "p2" Sample.t_now Sample.t_now 0 99 0 "CASH" "UNPAID" false.
Definition payment3 : Payment.t :=
  Payment.mk 3 3 "p1" Sample.t_now Sample.t_now 0 300 0 "CASH" "UNPAID" false.

Definition line1 : PatientBills.t := PatientBills.mk 1 1 7 Sample.t_nov15 1 0.1 0.1.
Definition line2 : PatientBills.t := PatientBills.mk 2 1 8 Sample.t_nov15 1 0.2 0.2.
Definition line3 : PatientBills.t := PatientBills.mk 3 1 5 Sample.t_nov15 1 100 100.
Definition line4 : PatientBills.t := PatientBills.mk 4 2 9 Sample.t_nov15 1 33 33.
Definition line5 : PatientBills.t := PatientBills.mk 5 2 9 Sample.t_nov15 2 33 66.
Definition line6 : PatientBills.t := PatientBills.mk 6 3 5 Sample.t_nov15 1 100 100.
Definition line7 : PatientBills.t := PatientBills.mk 7 3 5 Sample.t_nov15 2 100 200.

Definition world : World :=
  mkWorld (users Sample.world) (patients Sample.world) (doctors Sample.world)
    [Sample.consultation; Sample2.free_checkup; dressing; injection; scan]
    [Sample.appointment1; Sample.appointment2; appointment3]
    [payment1; payment2; payment3]
    [line1; line2; line3; line4; line5; line6; line7] []
    4 4 8 1 None [].

End Sample5.

(** ** A patient without a user account *)

Module Sample6.

(** Asha without a user account. *)
Definition asha_offline : Patient.t := Patient.mk "p1" None "Asha" "Rao".

Definition world_no_account : World :=
  mkWorld (users Sample.world) [asha_offline; Sample.ben] (doctors Sample.world)
    (services Sample.world) (appointments Sample.world) (payments Sample.world)
    (patientBills Sample.world) (notifications Sample.world)
    (next_appointment_id Sample.world) (next_payment_id Sample.world)
    (next_bill_id Sample.world) (next_notification_id Sample.world)
    (webSocketService Sample.world) (effects Sample.world).

(** Dr. Mehta without a user account. *)
Definition mehta_offline : Doctor.t := Doctor.mk "d1" None "Mehta".

Definition world_no_doctor_account : World :=
  mkWorld (users Sample.world) (patients Sample.world) [mehta_offline]
    (services Sample.world) (appointments Sample.world) (payments Sample.world)
    (patientBills Sample.world) (notifications Sample.world)
    (next_appointment_id Sample.world) (next_payment_id Sample.world)
    (next_bill_id Sample.world) (next_notification_id Sample.world)
    (webSocketService Sample.world) (effects Sample.world).

End Sample6.

(** * Properties *)

(** ** Lists and tables *)

Section Tables.
Context {A : Type}.
Implicit Types (P Q : A -> bool) (f : A -> A) (l : list A).

Lemma find_update_where P Q f l :
  (forall r, P (f r) = P r) ->
  List.find P (Prisma.update_where Q f l)
  = (fun r => if Q r then f r else r) <$> List.find P l.
Proof.
  intros HP. induction l as [|x l IH]; [reflexivity|].
  cbn [Prisma.update_where map List.find].
  destruct (Q x) eqn:HQ.
  - rewrite HP. destruct (P x); [cbn; by rewrite HQ | exact IH].
  - destruct (P x); [cbn; by rewrite HQ | exact IH].
Qed.

Lemma find_and P Q l a :
  List.find P l = Some a -> Q a = true ->
  List.find (fun x => (P x && Q x)%bool) l = Some a.
Proof.
  induction l as [|x l IH]; [discriminate|]. cbn [List.find].
  destruct (P x) eqn:HP; cbn [andb].
  - intros [= ->] ->. reflexivity.
  - exact IH.
Qed.

Lemma find_is_Some P l a : In a l -> P a = true -> is_Some (List.find P l).
Proof.
  intros Hin HP. destruct (List.find P l) eqn:E; [by eexists|].
  pose proof (find_none _ _ E _ Hin). congruence.
Qed.

Lemma update_where_idemp P f l :
  (forall r, P (f r) = P r) -> (forall r, f (f r) = f r) ->
  Prisma.update_where P f (Prisma.update_where P f l) = Prisma.update_where P f l.
Proof.
  intros HP Hf. unfold Prisma.update_where.
  induction l as [|x l IH]; [reflexivity|].
  cbn [map]. rewrite IH. f_equal.
  destruct (P x) eqn:E; [by rewrite HP, E, Hf | by rewrite E].
Qed.

Lemma In_update_where P f l y :
  In y (Prisma.update_where P f l) ->
  exists x, In x l /\ y = if P x then f x else x.
Proof.
  unfold Prisma.update_where. rewrite in_map_iff. intros (x & <- & Hx). eauto.
Qed.

End Tables.

(** ** The monad *)

Lemma bind_Ok {A B} (m : M A) (k : A -> M B) w a w' :
  m w = (Ok a, w') -> bind m k w = k a w'.
Proof. unfold bind. by intros ->. Qed.

Lemma bind_gets {A B} (f : World -> A) (k : A -> M B) w :
  bind (gets f) k w = k (f w) w.
Proof. reflexivity. Qed.

Lemma bind_ret {A B} (a : A) (k : A -> M B) w : bind (ret a) k w = k a w.
Proof. reflexivity. Qed.

Lemma bind_throw {A B} e (k : A -> M B) w : bind (throw e) k w = (Throw e, w).
Proof. reflexivity. Qed.

Lemma bind_assoc {A B C} (m : M A) (k1 : A -> M B) (k2 : B -> M C) w :
  bind (bind m k1) k2 w = bind m (fun a => bind (k1 a) k2) w.
Proof. unfold bind. destruct (m w) as [[a|e] w']; reflexivity. Qed.

(** ** [createNotification] *)

Section CreateNotification.
Import NotificationService Outbox.
Variable env : Env.

Lemma createNotification_run data w :
  createNotification env data w
  = (Ok (notification_row env data w), after_notification env w data).
Proof.
  unfold createNotification, after_notification, deliveries, notification_row.
  unfold bind, gets, ret, Prisma.notification_create, sendNotificationToUser, modify.
  cbn. destruct (webSocketService w); cbn; [reflexivity|].
  by rewrite app_nil_r.
Qed.

Lemma notify_step {B} data w (k : Notification.t -> M B) :
  bind (createNotification env data) k w
  = k (notification_row env data w) (after_notification env w data).
Proof. apply bind_Ok, createNotification_run. Qed.

Lemma for_of_createNotification {A} (g : A -> CreateNotificationData) l w :
  for_of l (fun x => createNotification env (g x) ;;; ret tt) w
  = (Ok tt, notify env w (g <$> l)).
Proof.
  revert w. induction l as [|x l IH]; intros w; [reflexivity|].
  cbn [for_of]. unfold bind at 1. unfold bind at 1.
  rewrite createNotification_run. cbn [ret]. apply IH.
Qed.

Lemma bind_for_of_createNotification {A B} (g : A -> CreateNotificationData) l
    (k : unit -> M B) w :
  bind (for_of l (fun x => createNotification env (g x) ;;; ret tt)) k w
  = k tt (notify env w (g <$> l)).
Proof. apply bind_Ok, for_of_createNotification. Qed.

Lemma outbox_after w data :
  outbox (after_notification env w data) = outbox w ++ [data].
Proof.
  unfold outbox, after_notification. cbn.
  rewrite fmap_app. cbn. by destruct data.
Qed.

Lemma outbox_notify w l : outbox (notify env w l) = outbox w ++ l.
Proof.
  revert w. induction l as [|d l IH]; intros w; cbn.
  - by rewrite app_nil_r.
  - unfold notify in IH. rewrite IH, outbox_after, <- app_assoc. reflexivity.
Qed.

Lemma notify_app w l1 l2 : notify env w (l1 ++ l2) = notify env (notify env w l1) l2.
Proof. apply fold_left_app. Qed.

(** Notifications leave the other tables alone. *)
Lemma notify_frame w l :
  users (notify env w l) = users w /\
  patients (notify env w l) = patients w /\
  doctors (notify env w l) = doctors w /\
  services (notify env w l) = services w /\
  appointments (notify env w l) = appointments w /\
  payments (notify env w l) = payments w /\
  patientBills (notify env w l) = patientBills w /\
  next_payment_id (notify env w l) = next_payment_id w /\
  webSocketService (notify env w l) = webSocketService w.
Proof.
  revert w. induction l as [|d l IH]; intros w; [by repeat split|].
  cbn. specialize (IH (after_notification env w d)).
  unfold notify in IH. destruct IH as (-> & -> & -> & -> & -> & -> & -> & -> & ->).
  by repeat split.
Qed.

End CreateNotification.

(** Run a service symbolically, one statement at a time. *)
Ltac run_step :=
  first
    [ rewrite bind_assoc
    | rewrite notify_step
    | rewrite bind_for_of_createNotification
    | rewrite bind_gets
    | rewrite bind_ret
    | rewrite bind_throw
    | progress cbn [when]
    | progress cbv beta ].
Ltac run := repeat run_step.

(** ** Notification store and dispatcher *)

Section Dispatch.
Import NotificationService Outbox.

Lemma getNotifications_run userId unread w :
  exists l, getNotifications userId unread w = (Ok l, w) /\
    forall n, In n l <->
      In n (notifications w) /\ Notification.userId n = userId /\
      (unread = true -> Notification.isRead n = false).
Proof.
  eexists. split; [reflexivity|]. intros n.
  pose proof (merge_sort_Permutation Prisma.newest_first) as HP.
  split.
  - intros Hin. eapply Permutation_in in Hin; [|apply HP].
    apply filter_In in Hin as [Hin Hp]. split; [exact Hin|].
    destruct unread.
    + apply andb_true_iff in Hp as [Hu Hr]. apply String.eqb_eq in Hu.
      apply negb_true_iff in Hr. auto.
    + apply String.eqb_eq in Hp. split; [exact Hp | discriminate].
  - intros (Hin & Hu & Hr).
    eapply Permutation_in; [symmetry; apply HP|].
    apply filter_In. split; [exact Hin|].
    destruct unread.
    + rewrite Hr by reflexivity. subst userId. by rewrite String.eqb_refl.
    + subst userId. apply String.eqb_refl.
Qed.

(** C4.  [createNotification] never throws, whatever the state of the
    real-time layer (no service installed, or a service with or without a
    socket of the recipient).  It first stores the row, unread, and only then
    attempts the live delivery: the effect log grows by the database write
    followed by emissions only (none when no service is installed).  A
    [getNotifications] call for the recipient right after it, with or without
    the unread filter, returns the new row. *)
Theorem createNotification_persists_then_delivers env data w :
  exists n w',
    createNotification env data w = (Ok n, w') /\
    Notification.isRead n = false /\
    Notification.userId n = userId data /\
    notifications w' = notifications w ++ [n] /\
    (exists live,
        effects w' = effects w ++ DbCreateNotification n :: live /\
        Forall is_emit live /\
        (webSocketService w = None -> live = [])) /\
    forall unread, exists l,
      getNotifications (userId data) unread w' = (Ok l, w') /\ In n l.
Proof.
  exists (notification_row env data w), (after_notification env w data).
  split; [apply createNotification_run|].
  split; [reflexivity|]. split; [reflexivity|]. split; [reflexivity|].
  split.
  - exists (deliveries env data w). split.
    + unfold after_notification. cbn. by rewrite <- app_assoc.
    + unfold deliveries. destruct (webSocketService w); split;
        [by repeat constructor | discriminate | constructor | reflexivity].
  - intros unread.
    destruct (getNotifications_run (userId data) unread (after_notification env w data))
      as (l & Hrun & Hl).
    exists l. split; [exact Hrun|]. apply Hl. split.
    + unfold after_notification. cbn. apply in_or_app. right. by left.
    + split; reflexivity.
Qed.

(** C9.  For a stored notification, [markNotificationRead] succeeds and
    leaves it read; a second call succeeds as well, returns the same row and
    changes nothing.  The socket handler of [notification_read] does the same
    update and never throws. *)
Theorem markNotificationRead_idempotent id w n :
  Prisma.notification_by_id id w = Some n ->
  exists n' w',
    markNotificationRead id w = (Ok n', w') /\
    Notification.isRead n' = true /\
    Prisma.notification_by_id id w' = Some n' /\
    markNotificationRead id w' = (Ok n', w') /\
    socket_notification_read id w = (Ok tt, w') /\
    socket_notification_read id w' = (Ok tt, w').
Proof.
  intros Hn.
  assert (Hid : Prisma.notification_has_id id n = true).
  { unfold Prisma.notification_by_id in Hn. by apply find_some in Hn as [_ ?]. }
  set (f := Notification.set_isRead true).
  assert (Hkeep : forall r, Prisma.notification_has_id id (f r)
                            = Prisma.notification_has_id id r) by reflexivity.
  assert (Hff : forall r, f (f r) = f r) by reflexivity.
  set (w' := with_notifications
               (Prisma.update_where (Prisma.notification_has_id id) f (notifications w))
               (next_notification_id w) w).
  assert (Hfirst : markNotificationRead id w = (Ok (f n), w')).
  { unfold markNotificationRead, Prisma.notification_update_isRead. by rewrite Hn. }
  assert (Hn' : Prisma.notification_by_id id w' = Some (f n)).
  { unfold Prisma.notification_by_id, w'. cbn [notifications with_notifications].
    rewrite find_update_where by exact Hkeep.
    unfold Prisma.notification_by_id in Hn. rewrite Hn. cbn. by rewrite Hid. }
  assert (Hsecond : markNotificationRead id w' = (Ok (f n), w')).
  { unfold markNotificationRead, Prisma.notification_update_isRead.
    rewrite Hn'. rewrite Hff. f_equal.
    change (notifications w')
      with (Prisma.update_where (Prisma.notification_has_id id) f (notifications w)).
    by rewrite update_where_idemp. }
  exists (f n), w'. repeat split; try assumption.
  - unfold socket_notification_read, try_catch, bind.
    fold (markNotificationRead id). by rewrite Hfirst.
  - unfold socket_notification_read, try_catch, bind.
    fold (markNotificationRead id). by rewrite Hsecond.
Qed.

Lemma markNotificationRead_idempotent_witness :
  exists n' w',
    markNotificationRead "1" Sample.world_with_note = (Ok n', w') /\
    Notification.isRead n' = true /\
    Prisma.notification_by_id "1" w' = Some n' /\
    markNotificationRead "1" w' = (Ok n', w') /\
    socket_notification_read "1" Sample.world_with_note = (Ok tt, w') /\
    socket_notification_read "1" w' = (Ok tt, w').
Proof.
  apply (markNotificationRead_idempotent "1" Sample.world_with_note Sample.note1).
  reflexivity.
Defined.

End Dispatch.

(** ** Connection registry *)

Section Registry.
Import WebSocketService.

Lemma truthy_nonempty u : u <> "" -> JS.truthy_string u = true.
Proof.
  intros Hu. unfold JS.truthy_string. apply negb_true_iff.
  by apply String.eqb_neq.
Qed.

(** C10.  The registry is keyed by user id alone.  When a user opens a
    second session, its socket replaces the first in [connectedUsers]; when
    the first socket then disconnects, the handler deletes the user's entry:
    [isUserConnected] answers [false] although the second socket is still
    open. *)
Theorem stale_disconnect_drops_live_user ws u (s1 s2 : Socket.t) :
  Socket.userId s1 = Some u ->
  Socket.userId s2 = Some u ->
  u <> "" ->
  Socket.id s1 <> Socket.id s2 ->
  connectedUsers (on_connection s2 (on_connection s1 ws)) !! u
    = Some (Socket.id s2) /\
  isUserConnected u (on_disconnect s1 (on_connection s2 (on_connection s1 ws)))
    = false /\
  is_open (Socket.id s2)
    (on_disconnect s1 (on_connection s2 (on_connection s1 ws))) = true.
Proof.
  intros H1 H2 Hu Hne. apply truthy_nonempty in Hu.
  unfold on_disconnect, on_connection. rewrite H1, H2, Hu. cbn.
  split; [apply lookup_insert_eq|]. split.
  - unfold isUserConnected. cbn. rewrite lookup_delete_eq.
    apply bool_decide_eq_false. by intros [? ?].
  - unfold is_open. cbn.
    assert (String.eqb (Socket.id s2) (Socket.id s1) = false) as ->.
    { apply String.eqb_neq. congruence. }
    cbn. by rewrite String.eqb_refl.
Qed.

Lemma stale_disconnect_drops_live_user_witness :
  connectedUsers (on_connection Sample.s2 (on_connection Sample.s1 init)) !! "u-asha"
    = Some "socket-2" /\
  isUserConnected "u-asha"
    (on_disconnect Sample.s1 (on_connection Sample.s2 (on_connection Sample.s1 init)))
    = false /\
  is_open "socket-2"
    (on_disconnect Sample.s1 (on_connection Sample.s2 (on_connection Sample.s1 init)))
    = true.
Proof.
  apply (stale_disconnect_drops_live_user init "u-asha" Sample.s1 Sample.s2);
    [reflexivity | reflexivity | discriminate | discriminate].
Defined.

End Registry.

(** ** Appointment state machine *)

Section StatusChanges.
Import NotificationService Outbox.
Variable env : Env.

Lemma appointment_update_run id status reason w a :
  Prisma.appointment_by_id id w = Some a ->
  Prisma.appointment_update id status reason w
  = (Ok (with_status status reason a), status_written id status reason w).
Proof. intros H. unfold Prisma.appointment_update. by rewrite H. Qed.

Lemma appointment_by_id_written id status reason w a :
  Prisma.appointment_by_id id w = Some a ->
  Prisma.appointment_by_id id (status_written id status reason w)
  = Some (with_status status reason a).
Proof.
  intros H. unfold Prisma.appointment_by_id, status_written in *.
  cbn [appointments with_appointments].
  rewrite find_update_where by reflexivity. rewrite H. cbn.
  apply find_some in H as [_ ->]. reflexivity.
Qed.

(** A patient's cancellation of a pending appointment of theirs. *)
Lemma patient_cancel_run userId id reason w patient a doctor :
  Prisma.patient_of_user userId w = Some patient ->
  Prisma.appointment_by_id id w = Some a ->
  Appointment.patient_id a = Patient.id patient ->
  Prisma.doctor_by_id (Appointment.doctor_id a) w = Some doctor ->
  Appointment.status a = PENDING ->
  AppointmentService.updateAppointmentStatusService env userId id
    (AppointmentService.mkUpdate CANCELLED reason) w
  = (Ok (with_status CANCELLED reason a),
     notify env (status_written id CANCELLED reason w)
       (patient_cancel_notes env patient doctor a reason
          (Prisma.users_with_role "ADMIN" w))).
Proof.
  intros Hp Ha Hown Hd Hst.
  unfold AppointmentService.updateAppointmentStatusService.
  unfold Prisma.patient_find_user_id. rewrite bind_gets, Hp.
  unfold Prisma.appointment_findFirst. rewrite bind_gets.
  rewrite (find_and _ _ _ a Ha) by (rewrite Hown; apply String.eqb_refl).
  unfold Prisma.doctor_find_id. rewrite bind_gets, Hd.
  cbn [AppointmentService.status AppointmentService.reason].
  rewrite Hst. cbn [bool_decide decide_rel andb negb].
  rewrite (bool_decide_eq_true_2 (CANCELLED = CANCELLED)) by reflexivity.
  rewrite (bool_decide_eq_true_2 (PENDING = PENDING)) by reflexivity.
  cbn [andb negb].
  erewrite bind_Ok by (apply appointment_update_run; exact Ha).
  unfold patient_cancel_notes, Prisma.user_findMany_role.
  destruct (Doctor.user_id doctor) as [du|]; [|reflexivity].
  destruct (JS.truthy_string du); [|reflexivity].
  destruct (Z.leb _ 1); run; reflexivity.
Qed.

(** A doctor's status change on an appointment of theirs. *)
Lemma doctor_status_run userId id status st reason w doctor a patient :
  AppointmentStatus_of_string status = Some st ->
  Prisma.doctor_of_user userId w = Some doctor ->
  Prisma.appointment_by_id id w = Some a ->
  Appointment.doctor_id a = Doctor.id doctor ->
  Prisma.patient_by_id (Appointment.patient_id a) w = Some patient ->
  DoctorService.updateDoctorAppointmentStatus env userId id status reason w
  = (Ok (DoctorService.updated_ (with_status st reason a)),
     notify env (status_written id st reason w)
       (doctor_status_notes env doctor patient st reason
          (with_status st reason a) (Prisma.users_with_role "ADMIN" w))).
Proof.
  intros Hs Hd Ha Hown Hp.
  unfold DoctorService.updateDoctorAppointmentStatus. rewrite Hs.
  unfold Prisma.doctor_find_user_id. rewrite bind_gets, Hd.
  unfold Prisma.appointment_findFirst. rewrite bind_gets.
  rewrite (find_and _ _ _ a Ha) by (rewrite Hown; apply String.eqb_refl).
  erewrite bind_Ok by (apply appointment_update_run; exact Ha).
  unfold Prisma.patient_find_id. rewrite bind_gets.
  change (Prisma.patient_by_id (Appointment.patient_id (with_status st reason a))
            (status_written id st reason w))
    with (Prisma.patient_by_id (Appointment.patient_id a) w).
  rewrite Hp. unfold doctor_status_notes.
  destruct (Patient.user_id patient) as [pu|]; [|reflexivity].
  destruct (JS.truthy_string pu); [|reflexivity].
  cbn [when].
  pose proof (appointment_by_id_written id st reason w a Ha) as Hdet.
  unfold Prisma.appointment_findUnique, Prisma.user_findMany_role.
  destruct st.
  all: repeat match goal with
       | |- context [bool_decide (?x = ?y)] =>
           first [ rewrite (bool_decide_eq_true_2 (x = y)) by reflexivity
                 | rewrite (bool_decide_eq_false_2 (x = y)) by discriminate ]
       end.
  - (* PENDING *) run. reflexivity.
  - (* SCHEDULED *)
    run.
    change (Prisma.appointment_by_id id (after_notification env _ _))
      with (Prisma.appointment_by_id id (status_written id SCHEDULED reason w)).
    rewrite Hdet. run. reflexivity.
  - (* COMPLETED *) run. reflexivity.
  - (* CANCELLED *)
    run. rewrite Hdet.
    destruct (Z.leb _ 2); run; [rewrite notify_app|]; reflexivity.
Qed.

End StatusChanges.

Section Booking.
Import NotificationService Outbox AppointmentService.
Variable env : Env.

Lemma appointments_after w d :
  appointments (after_notification env w d) = appointments w.
Proof. reflexivity. Qed.

Lemma appointments_notify w l : appointments (notify env w l) = appointments w.
Proof. apply notify_frame. Qed.

Lemma holds_slot_true doctor_id date time a :
  holds_slot doctor_id date time a = true <->
  Appointment.doctor_id a = doctor_id /\
  Appointment.appointment_date a = date /\
  Appointment.time a = time /\
  Appointment.status a <> CANCELLED.
Proof.
  unfold holds_slot. rewrite !andb_true_iff, negb_true_iff.
  rewrite !String.eqb_eq, Z.eqb_eq, bool_decide_eq_false. tauto.
Qed.

(** C3.  A booking by a registered patient with an existing doctor.  If an
    appointment that is not cancelled holds the doctor, date and time asked
    for, the request is refused with the slot-conflict error and the database
    is left as it was.  If every appointment on that doctor, date and time is
    cancelled (or there is none), the booking succeeds and appends one
    appointment, of this patient with this doctor at this date and time, with
    status PENDING. *)
Theorem createAppointmentService_slot userId body w patient doctor :
  Prisma.patient_of_user userId w = Some patient ->
  Prisma.doctor_by_id (doctor_id body) w = Some doctor ->
  ((exists a, In a (appointments w) /\
      Appointment.doctor_id a = doctor_id body /\
      Appointment.appointment_date a = Date_parse env (appointment_date body) /\
      Appointment.time a = time body /\
      Appointment.status a <> CANCELLED) ->
   createAppointmentService env userId body w
   = (Throw (Error "This time slot is already booked for the selected doctor"), w))
  /\
  ((forall a, In a (appointments w) ->
      Appointment.doctor_id a = doctor_id body ->
      Appointment.appointment_date a = Date_parse env (appointment_date body) ->
      Appointment.time a = time body ->
      Appointment.status a = CANCELLED) ->
   exists a w',
     createAppointmentService env userId body w = (Ok a, w') /\
     Appointment.status a = PENDING /\
     Appointment.patient_id a = Patient.id patient /\
     Appointment.doctor_id a = doctor_id body /\
     Appointment.appointment_date a = Date_parse env (appointment_date body) /\
     Appointment.time a = time body /\
     appointments w' = appointments w ++ [a]).
Proof.
  intros Hp Hd.
  unfold createAppointmentService.
  unfold Prisma.patient_find_user_id, Prisma.doctor_find_id,
    Prisma.appointment_findFirst, Prisma.user_findMany_role.
  rewrite bind_gets, Hp, bind_gets, Hd, bind_gets.
  split.
  - intros (a & Hin & Hslot).
    apply holds_slot_true in Hslot.
    destruct (find_is_Some _ _ _ Hin Hslot) as [x ->]. reflexivity.
  - intros Hfree.
    destruct (List.find _ (appointments w)) as [x|] eqn:Hfind.
    { apply find_some in Hfind as [Hin Hslot].
      apply holds_slot_true in Hslot as (H1 & H2 & H3 & H4).
      destruct H4. by apply Hfree. }
    erewrite bind_Ok by reflexivity.
    destruct (Doctor.user_id doctor) as [du|];
      [destruct (JS.truthy_string du)|];
      (destruct (_ || _)%bool); run;
      (eexists _, _; split; [reflexivity|]);
      rewrite ?appointments_notify, ?appointments_after; by repeat split.
Qed.

End Booking.

Lemma createAppointmentService_slot_witness :
  AppointmentService.createAppointmentService Sample.env "u-ben"
    (AppointmentService.mkCreate "d1" "2023-11-15" "10:00" "checkup" None)
    Sample.world
  = (Throw (Error "This time slot is already booked for the selected doctor"),
     Sample.world)
  /\
  exists a w',
    AppointmentService.createAppointmentService Sample.env "u-ben"
      (AppointmentService.mkCreate "d1" "2023-11-15" "12:00" "checkup" None)
      Sample.world = (Ok a, w') /\
    Appointment.status a = PENDING /\
    Appointment.patient_id a = "p2" /\
    Appointment.doctor_id a = "d1" /\
    Appointment.appointment_date a = Sample.t_nov15 /\
    Appointment.time a = "12:00" /\
    appointments w' = appointments Sample.world ++ [a].
Proof.
  split.
  - apply (proj1 (createAppointmentService_slot Sample.env "u-ben"
                    (AppointmentService.mkCreate "d1" "2023-11-15" "10:00" "checkup" None)
                    Sample.world Sample.ben Sample.mehta eq_refl eq_refl)).
    exists Sample.appointment1. cbn. repeat split; [by left | discriminate].
  - apply (proj2 (createAppointmentService_slot Sample.env "u-ben"
                    (AppointmentService.mkCreate "d1" "2023-11-15" "12:00" "checkup" None)
                    Sample.world Sample.ben Sample.mehta eq_refl eq_refl)).
    cbn. intros a [<-|[<-|[]]] _ _; discriminate.
Defined.

Section PatientCancel.
Import NotificationService Outbox AppointmentService.
Variable env : Env.

(** C6.  A patient asks to cancel an appointment of theirs.  If the
    appointment is not PENDING the service throws "Only pending appointments
    can be cancelled" and writes nothing, so the status stays as it was; if
    it is PENDING the service succeeds and the stored status becomes
    CANCELLED.  Hence a successful cancellation implies the status was
    PENDING. *)
Theorem patient_cancel_only_from_pending userId id reason w patient a doctor :
  Prisma.patient_of_user userId w = Some patient ->
  Prisma.appointment_by_id id w = Some a ->
  Appointment.patient_id a = Patient.id patient ->
  Prisma.doctor_by_id (Appointment.doctor_id a) w = Some doctor ->
  (Appointment.status a <> PENDING ->
   updateAppointmentStatusService env userId id (mkUpdate CANCELLED reason) w
   = (Throw (Error "Only pending appointments can be cancelled"), w))
  /\
  (Appointment.status a = PENDING ->
   exists a' w',
     updateAppointmentStatusService env userId id (mkUpdate CANCELLED reason) w
     = (Ok a', w') /\
     Appointment.status a' = CANCELLED /\
     Prisma.appointment_by_id id w' = Some a')
  /\
  (forall a' w',
     updateAppointmentStatusService env userId id (mkUpdate CANCELLED reason) w
     = (Ok a', w') ->
     Appointment.status a = PENDING).
Proof.
  intros Hp Ha Hown Hd.
  assert (Hfail : Appointment.status a <> PENDING ->
    updateAppointmentStatusService env userId id (mkUpdate CANCELLED reason) w
    = (Throw (Error "Only pending appointments can be cancelled"), w)).
  { intros Hst. unfold updateAppointmentStatusService.
    unfold Prisma.patient_find_user_id, Prisma.appointment_findFirst,
      Prisma.doctor_find_id.
    rewrite bind_gets, Hp, bind_gets.
    rewrite (find_and _ _ _ a Ha) by (rewrite Hown; apply String.eqb_refl).
    rewrite bind_gets. cbn [status].
    rewrite (bool_decide_eq_true_2 (CANCELLED = CANCELLED)) by reflexivity.
    rewrite (bool_decide_eq_false_2 _ Hst). reflexivity. }
  split; [exact Hfail|]. split.
  - intros Hst. eexists _, _. split.
    + by apply patient_cancel_run with (doctor := doctor).
    + split; [reflexivity|].
      unfold Prisma.appointment_by_id. rewrite appointments_notify.
      by apply appointment_by_id_written.
  - intros a' w' Hrun.
    destruct (decide (Appointment.status a = PENDING)) as [|Hst]; [assumption|].
    rewrite (Hfail Hst) in Hrun. discriminate.
Qed.

End PatientCancel.

Lemma patient_cancel_only_from_pending_witness :
  AppointmentService.updateAppointmentStatusService Sample.env "u-ben" 2
    (AppointmentService.mkUpdate CANCELLED None) Sample.world
  = (Throw (Error "Only pending appointments can be cancelled"), Sample.world)
  /\
  exists a' w',
    AppointmentService.updateAppointmentStatusService Sample.env "u-asha" 1
      (AppointmentService.mkUpdate CANCELLED None) Sample.world = (Ok a', w') /\
    Appointment.status a' = CANCELLED /\
    Prisma.appointment_by_id 1 w' = Some a'.
Proof.
  split.
  - apply (proj1 (patient_cancel_only_from_pending Sample.env "u-ben" 2 None
                    Sample.world Sample.ben Sample.appointment2 Sample.mehta
                    eq_refl eq_refl eq_refl eq_refl)).
    discriminate.
  - apply (proj1 (proj2 (patient_cancel_only_from_pending Sample.env "u-asha" 1
                    None Sample.world Sample.asha Sample.appointment1
                    Sample.mehta eq_refl eq_refl eq_refl eq_refl))).
    reflexivity.
Defined.

(** ** Who is told what, and in which order *)

Section Strings.

Lemma prefix_refl s : String.prefix s s = true.
Proof.
  induction s as [|c s IH]; [reflexivity|]. cbn.
  destruct (ascii_dec c c); [exact IH | congruence].
Qed.

Lemma includes_refl s : JS.includes s s = true.
Proof. destruct s; cbn [JS.includes]; by rewrite prefix_refl. Qed.

Lemma includes_append_r x y sub :
  JS.includes y sub = true -> JS.includes (x +:+ y) sub = true.
Proof.
  intros H. induction x as [|c x IH]; [exact H|].
  change (String c x +:+ y) with (String c (x +:+ y)).
  cbn [JS.includes]. rewrite IH. by destruct (String.prefix sub _).
Qed.

End Strings.

Section Urgency.
Import AppointmentService Outbox.

Lemma ceil_div_le a b n : 0 < b -> JS.ceil_div a b <= n <-> a <= n * b.
Proof.
  intros Hb. unfold JS.ceil_div.
  pose proof (Z.div_mod (- a) b ltac:(lia)).
  pose proof (Z.mod_pos_bound (- a) b Hb). nia.
Qed.

(** The test the services write, [daysDiff <= n], says that the appointment
    is at most [n] days ahead of the clock. *)
Lemma daysDiff_within n env date :
  Z.leb (daysDiff date (now env)) n = true <-> at_most_days_ahead n env date.
Proof.
  rewrite Z.leb_le. unfold daysDiff, at_most_days_ahead.
  apply ceil_div_le. reflexivity.
Qed.

Lemma daysDiff_not_within n env date :
  Z.leb (daysDiff date (now env)) n = false <-> ~ at_most_days_ahead n env date.
Proof.
  rewrite <- daysDiff_within. by destruct (Z.leb _ n).
Qed.

End Urgency.

Section Cancellation.
Import NotificationService Outbox.
Variable env : Env.

Lemma In_fmap {A B} (f : A -> B) l x : In x l -> In (f x) (f <$> l).
Proof.
  intros H. apply list_elem_of_In, list_elem_of_fmap.
  exists x. split; [reflexivity | by apply list_elem_of_In].
Qed.

Lemma In_admins w admin :
  In admin (users w) -> User.role admin = "ADMIN" ->
  In admin (Prisma.users_with_role "ADMIN" w).
Proof.
  intros Hin Hrole. apply filter_In. split; [exact Hin|].
  by apply String.eqb_eq.
Qed.

Lemma reason_or_includes r otherwise :
  r <> "" -> JS.includes (DoctorService.reason_or (Some r) otherwise) r = true.
Proof.
  intros Hr. unfold DoctorService.reason_or, JS.truthy_opt_string.
  rewrite (truthy_nonempty r Hr). apply includes_append_r, includes_refl.
Qed.

(** What a cancellation sends when the party to notify has a user account
    (without one the code sends nothing at all, the alerts included: both
    loops over the administrators sit inside the test of the account).
    Doctor-initiated cancellation (of an appointment of this doctor whose
    patient has a user account): the patient is sent the cancellation note,
    whose text contains the reason when one is given; every administrator is
    sent the urgent alert if the appointment date is
    at most 2 days ahead of the clock, any date already past included, and no
    such alert is sent otherwise.  Patient-initiated cancellation (of a
    pending appointment of this patient whose doctor has a user account): the
    doctor is sent the cancellation note; every administrator is sent the
    urgent alert if the appointment date is at most 1 day ahead of the clock,
    any date already past included, and no such alert is sent otherwise. *)
Theorem cancellation_notifications w :
  (forall uid id reason doctor a patient pu,
     Prisma.doctor_of_user uid w = Some doctor ->
     Prisma.appointment_by_id id w = Some a ->
     Appointment.doctor_id a = Doctor.id doctor ->
     Prisma.patient_by_id (Appointment.patient_id a) w = Some patient ->
     Patient.user_id patient = Some pu ->
     pu <> "" ->
     exists r w' sent,
       DoctorService.updateDoctorAppointmentStatus env uid id "CANCELLED" reason w
       = (Ok r, w') /\
       outbox w' = outbox w ++ sent /\
       (exists note, In note sent /\ userId note = pu /\
          title note = "❌ Appointment Cancelled" /\
          forall text, reason = Some text -> text <> "" ->
            JS.includes (message note) text = true) /\
       (at_most_days_ahead 2 env (Appointment.appointment_date a) ->
        forall admin, In admin (users w) -> User.role admin = "ADMIN" ->
          exists alert, In alert sent /\ userId alert = User.id admin /\
            title alert = "🚨 Doctor Cancelled Appointment") /\
       (~ at_most_days_ahead 2 env (Appointment.appointment_date a) ->
        forall n, In n sent -> title n <> "🚨 Doctor Cancelled Appointment"))
  /\
  (forall uid id reason patient a doctor du,
     Prisma.patient_of_user uid w = Some patient ->
     Prisma.appointment_by_id id w = Some a ->
     Appointment.patient_id a = Patient.id patient ->
     Appointment.status a = PENDING ->
     Prisma.doctor_by_id (Appointment.doctor_id a) w = Some doctor ->
     Doctor.user_id doctor = Some du ->
     du <> "" ->
     exists a' w' sent,
       AppointmentService.updateAppointmentStatusService env uid id
         (AppointmentService.mkUpdate CANCELLED reason) w = (Ok a', w') /\
       outbox w' = outbox w ++ sent /\
       (exists note, In note sent /\ userId note = du /\
          title note = "🚫 Appointment Cancelled by Patient") /\
       (at_most_days_ahead 1 env (Appointment.appointment_date a) ->
        forall admin, In admin (users w) -> User.role admin = "ADMIN" ->
          exists alert, In alert sent /\ userId alert = User.id admin /\
            title alert = "⚠️ Urgent: Same-Day Appointment Cancellation") /\
       (~ at_most_days_ahead 1 env (Appointment.appointment_date a) ->
        forall n, In n sent ->
          title n <> "⚠️ Urgent: Same-Day Appointment Cancellation")).
Proof.
  split.
  - intros uid id reason doctor a patient pu Hd Ha Hown Hp Hpu Hne.
    eexists _, _, _. split.
    { by apply (doctor_status_run env uid id "CANCELLED" CANCELLED reason w
                  doctor a patient). }
    split; [by rewrite outbox_notify|].
    unfold doctor_status_notes. rewrite Hpu, (truthy_nonempty pu Hne).
    rewrite (bool_decide_eq_true_2 (CANCELLED = CANCELLED)) by reflexivity.
    rewrite (bool_decide_eq_false_2 (CANCELLED = SCHEDULED)) by discriminate.
    change (Appointment.appointment_date (with_status CANCELLED reason a))
      with (Appointment.appointment_date a).
    split; [|split].
    + eexists. split; [apply in_or_app; right; by left|].
      split; [reflexivity|]. split; [reflexivity|].
      intros text -> Htext. cbn [message DoctorService.status_note].
      do 3 apply includes_append_r. by apply reason_or_includes.
    + intros Hin admin Hadmin Hrole.
      apply daysDiff_within in Hin. rewrite Hin.
      exists (DoctorService.doctor_cancelled_alert env doctor patient
                (with_status CANCELLED reason a) reason admin).
      split; [|split; reflexivity].
      apply in_or_app. left.
      apply (In_fmap (DoctorService.doctor_cancelled_alert env doctor patient
                        (with_status CANCELLED reason a) reason)).
      by apply In_admins.
    + intros Hout n Hn. apply daysDiff_not_within in Hout. rewrite Hout in Hn.
      destruct Hn as [<-|[]]. cbn. discriminate.
  - intros uid id reason patient a doctor du Hp Ha Hown Hst Hd Hdu Hne.
    eexists _, _, _. split.
    { by apply (patient_cancel_run env uid id reason w patient a doctor). }
    split; [by rewrite outbox_notify|].
    unfold patient_cancel_notes. rewrite Hdu, (truthy_nonempty du Hne).
    split; [|split].
    + eexists. split; [by left|]. split; reflexivity.
    + intros Hin admin Hadmin Hrole.
      apply daysDiff_within in Hin. rewrite Hin.
      exists (AppointmentService.same_day_cancellation_alert env patient
                doctor a admin).
      split; [|split; reflexivity].
      right.
      apply (In_fmap (AppointmentService.same_day_cancellation_alert env patient
                        doctor a)).
      by apply In_admins.
    + intros Hout n Hn. apply daysDiff_not_within in Hout. rewrite Hout in Hn.
      destruct Hn as [<-|[]]. cbn. discriminate.
Qed.

End Cancellation.

Lemma cancellation_notifications_witness :
  (exists r w' sent,
     DoctorService.updateDoctorAppointmentStatus Sample.env "u-mehta" 1
       "CANCELLED" (Some "emergency") Sample.world = (Ok r, w') /\
     Outbox.outbox w' = Outbox.outbox Sample.world ++ sent /\
     (exists note, In note sent /\ NotificationService.userId note = "u-asha" /\
        NotificationService.title note = "❌ Appointment Cancelled" /\
        JS.includes (NotificationService.message note) "emergency" = true) /\
     (exists alert, In alert sent /\ NotificationService.userId alert = "u-admin" /\
        NotificationService.title alert = "🚨 Doctor Cancelled Appointment"))
  /\
  (exists a' w' sent,
     AppointmentService.updateAppointmentStatusService Sample.env "u-asha" 1
       (AppointmentService.mkUpdate CANCELLED None) Sample.world = (Ok a', w') /\
     Outbox.outbox w' = Outbox.outbox Sample.world ++ sent /\
     (exists note, In note sent /\ NotificationService.userId note = "u-mehta" /\
        NotificationService.title note = "🚫 Appointment Cancelled by Patient") /\
     (exists alert, In alert sent /\ NotificationService.userId alert = "u-admin" /\
        NotificationService.title alert
        = "⚠️ Urgent: Same-Day Appointment Cancellation")).
Proof.
  split.
  - destruct (proj1 (cancellation_notifications Sample.env Sample.world)
                "u-mehta" 1 (Some "emergency") Sample.mehta Sample.appointment1
                Sample.asha "u-asha" eq_refl eq_refl eq_refl eq_refl eq_refl
                ltac:(discriminate))
      as (r & w' & sent & Hrun & Hout & (note & Hn1 & Hn2 & Hn3 & Hn4) & Hin & _).
    exists r, w', sent. split; [exact Hrun|]. split; [exact Hout|]. split.
    + exists note. repeat split; try assumption.
      apply Hn4; [reflexivity | discriminate].
    + apply (Hin ltac:(by vm_compute) Sample.admin); [by left | reflexivity].
  - destruct (proj2 (cancellation_notifications Sample.env Sample.world)
                "u-asha" 1 None Sample.asha Sample.appointment1 Sample.mehta
                "u-mehta" eq_refl eq_refl eq_refl eq_refl eq_refl eq_refl
                ltac:(discriminate))
      as (r & w' & sent & Hrun & Hout & Hnote & Hin & _).
    exists r, w', sent. split; [exact Hrun|]. split; [exact Hout|].
    split; [exact Hnote|].
    apply (Hin ltac:(by vm_compute) Sample.admin); [by left | reflexivity].
Defined.

(** C7.  The code departs from the stated rule.  The test [daysDiff <= 2],
    which the code comments as "Within 2 days", bounds the appointment date
    from above only: Dr. Mehta cancels appointment 1 ten days after its
    date, which is not within 2 days of the clock, and the administrator is
    sent the urgent alert all the same. *)
Lemma overdue_cancellation_alerts_admins :
  exists r w' sent alert,
    DoctorService.updateDoctorAppointmentStatus Sample.env "u-mehta" 1
      "CANCELLED" None Sample.world_overdue = (Ok r, w') /\
    Outbox.outbox w' = Outbox.outbox Sample.world_overdue ++ sent /\
    In alert sent /\
    NotificationService.userId alert = "u-admin" /\
    NotificationService.title alert = "🚨 Doctor Cancelled Appointment" /\
    Prisma.appointment_by_id 1 Sample.world_overdue = Some Sample.overdue1 /\
    ~ Outbox.within_days_of_now 2 Sample.env
        (Appointment.appointment_date Sample.overdue1).
Proof.
  eexists _, _,
    [DoctorService.doctor_cancelled_alert Sample.env Sample.mehta Sample.asha
       Sample.overdue1 None Sample.admin;
     DoctorService.status_note Sample.mehta CANCELLED None "u-asha"],
    _.
  split; [reflexivity|]. split; [reflexivity|].
  split; [by left|]. split; [reflexivity|]. split; [reflexivity|].
  split; [reflexivity|].
  unfold Outbox.within_days_of_now. vm_compute. intros H. by apply H.
Qed.

(** The alerts depend on the account of the notified party.  Asha has no
    user account; Dr. Mehta cancels her appointment 1, which is due
    tomorrow: the status is written and nothing is sent, the alert to the
    administrator included.  Likewise when a patient cancels an appointment
    with a doctor who has no account. *)
Lemma cancellation_without_account_alerts_nobody :
  (exists r w',
     DoctorService.updateDoctorAppointmentStatus Sample.env "u-mehta" 1
       "CANCELLED" (Some "emergency") Sample6.world_no_account = (Ok r, w') /\
     (exists a', Prisma.appointment_by_id 1 w' = Some a' /\
        Appointment.status a' = CANCELLED) /\
     Prisma.appointment_by_id 1 Sample6.world_no_account
     = Some Sample.appointment1 /\
     Outbox.within_days_of_now 2 Sample.env
       (Appointment.appointment_date Sample.appointment1) /\
     In Sample.admin (Prisma.users_with_role "ADMIN" Sample6.world_no_account) /\
     Outbox.outbox w' = Outbox.outbox Sample6.world_no_account)
  /\
  (exists a' w',
     AppointmentService.updateAppointmentStatusService Sample.env "u-asha" 1
       (AppointmentService.mkUpdate CANCELLED None) Sample6.world_no_doctor_account
     = (Ok a', w') /\
     Appointment.status a' = CANCELLED /\
     Outbox.within_days_of_now 1 Sample.env
       (Appointment.appointment_date Sample.appointment1) /\
     In Sample.admin
       (Prisma.users_with_role "ADMIN" Sample6.world_no_doctor_account) /\
     Outbox.outbox w' = Outbox.outbox Sample6.world_no_doctor_account).
Proof.
  split.
  - eexists _, _. split; [reflexivity|].
    split; [eexists; split; reflexivity|].
    split; [reflexivity|].
    split; [unfold Outbox.within_days_of_now; vm_compute; discriminate|].
    split; [by left | reflexivity].
  - eexists _, _. split; [reflexivity|].
    split; [reflexivity|].
    split; [unfold Outbox.within_days_of_now; vm_compute; discriminate|].
    split; [by left | reflexivity].
Qed.

Section EmissionOrder.
Import NotificationService Outbox.
Variable env : Env.

(** The order the code has.  The notifications of a status change are a
    function of the request and the database, in a fixed order.  A doctor's
    change creates first the alerts to the administrators (only on a
    cancellation that passes the 2-day test), then the note to the patient,
    then the reminder (only on an approval).  A patient's cancellation
    creates first the note to the doctor, then the alerts to the
    administrators (only when it passes the 1-day test). *)
Theorem status_notification_order w :
  (forall uid id status st reason doctor a patient pu,
     AppointmentStatus_of_string status = Some st ->
     Prisma.doctor_of_user uid w = Some doctor ->
     Prisma.appointment_by_id id w = Some a ->
     Appointment.doctor_id a = Doctor.id doctor ->
     Prisma.patient_by_id (Appointment.patient_id a) w = Some patient ->
     Patient.user_id patient = Some pu ->
     pu <> "" ->
     exists r w',
       DoctorService.updateDoctorAppointmentStatus env uid id status reason w
       = (Ok r, w') /\
       outbox w' =
         outbox w
         ++ (if bool_decide (st = CANCELLED) then
               if Z.leb (AppointmentService.daysDiff
                           (Appointment.appointment_date a) (now env)) 2
               then DoctorService.doctor_cancelled_alert env doctor patient
                      (with_status st reason a) reason
                    <$> Prisma.users_with_role "ADMIN" w
               else []
             else [])
         ++ [DoctorService.status_note doctor st reason pu]
         ++ (if bool_decide (st = SCHEDULED)
             then [DoctorService.reminder_note env doctor
                     (with_status st reason a) pu]
             else []))
  /\
  (forall uid id reason patient a doctor du,
     Prisma.patient_of_user uid w = Some patient ->
     Prisma.appointment_by_id id w = Some a ->
     Appointment.patient_id a = Patient.id patient ->
     Appointment.status a = PENDING ->
     Prisma.doctor_by_id (Appointment.doctor_id a) w = Some doctor ->
     Doctor.user_id doctor = Some du ->
     du <> "" ->
     exists a' w',
       AppointmentService.updateAppointmentStatusService env uid id
         (AppointmentService.mkUpdate CANCELLED reason) w = (Ok a', w') /\
       outbox w' =
         outbox w
         ++ AppointmentService.cancelled_by_patient_note env patient du a reason
            :: (if Z.leb (AppointmentService.daysDiff
                            (Appointment.appointment_date a) (now env)) 1
                then AppointmentService.same_day_cancellation_alert env patient
                       doctor a
                     <$> Prisma.users_with_role "ADMIN" w
                else [])).
Proof.
  split.
  - intros uid id status st reason doctor a patient pu Hs Hd Ha Hown Hp Hpu Hne.
    eexists _, _. split.
    { by apply (doctor_status_run env uid id status st reason w doctor a patient). }
    rewrite outbox_notify. unfold doctor_status_notes.
    by rewrite Hpu, (truthy_nonempty pu Hne).
  - intros uid id reason patient a doctor du Hp Ha Hown Hst Hd Hdu Hne.
    eexists _, _. split.
    { by apply (patient_cancel_run env uid id reason w patient a doctor). }
    rewrite outbox_notify. unfold patient_cancel_notes.
    by rewrite Hdu, (truthy_nonempty du Hne).
Qed.

End EmissionOrder.

Lemma status_notification_order_witness :
  exists r w',
    DoctorService.updateDoctorAppointmentStatus Sample.env "u-mehta" 1
      "CANCELLED" (Some "emergency") Sample.world = (Ok r, w') /\
    Outbox.outbox w' =
      [DoctorService.doctor_cancelled_alert Sample.env Sample.mehta Sample.asha
         Sample.appointment1 (Some "emergency") Sample.admin;
       DoctorService.status_note Sample.mehta CANCELLED (Some "emergency") "u-asha"].
Proof.
  destruct (proj1 (status_notification_order Sample.env Sample.world)
              "u-mehta" 1 "CANCELLED" CANCELLED (Some "emergency") Sample.mehta
              Sample.appointment1 Sample.asha "u-asha" eq_refl eq_refl eq_refl
              eq_refl eq_refl eq_refl ltac:(discriminate))
    as (r & w' & Hrun & Hout).
  exists r, w'. split; [exact Hrun|]. rewrite Hout. reflexivity.
Defined.

(** C5.  The code departs from the stated order.  In
    [updateDoctorAppointmentStatus] the loop over the administrators is
    placed inside [case 'CANCELLED'] of the switch that composes the
    patient's message, and the patient's [createNotification] comes after
    the switch: when Dr. Mehta cancels appointment 1 (tomorrow, reason
    "emergency"), the administrator's alert is created first and the
    patient's note second; the note is not created before the alert. *)
Lemma doctor_cancel_alerts_admin_first :
  exists r w' alert note,
    DoctorService.updateDoctorAppointmentStatus Sample.env "u-mehta" 1
      "CANCELLED" (Some "emergency") Sample.world = (Ok r, w') /\
    NotificationService.userId alert = "u-admin" /\
    NotificationService.title alert = "🚨 Doctor Cancelled Appointment" /\
    NotificationService.userId note = "u-asha" /\
    NotificationService.title note = "❌ Appointment Cancelled" /\
    Outbox.outbox Sample.world = [] /\
    Outbox.outbox w' = [alert; note] /\
    ~ Outbox.created_before note alert (Outbox.outbox w').
Proof.
  eexists _, _,
    (DoctorService.doctor_cancelled_alert Sample.env Sample.mehta Sample.asha
       Sample.appointment1 (Some "emergency") Sample.admin),
    (DoctorService.status_note Sample.mehta CANCELLED (Some "emergency") "u-asha").
  split; [reflexivity|].
  split; [reflexivity|]. split; [reflexivity|].
  split; [reflexivity|]. split; [reflexivity|].
  split; [reflexivity|]. split; [reflexivity|].
  intros (i & j & Hi & Hj & Hlt).
  vm_compute in Hi, Hj.
  destruct i as [|[|i]]; try discriminate Hi;
    destruct j as [|[|j]]; try discriminate Hj; lia.
Qed.

(** ** Ledger engine *)

Section LedgerRuns.
Import DoctorService Ledger.

Lemma payment_update_run id f w q :
  Prisma.payment_by_id id w = Some q ->
  Prisma.payment_update id f w = (Ok (f q), payments_written id f w).
Proof. intros H. unfold Prisma.payment_update. by rewrite H. Qed.

Lemma payment_by_id_key id w q :
  Prisma.payment_by_id id w = Some q -> Payment.id q = id.
Proof.
  intros H. apply find_some in H as [_ H]. by apply Z.eqb_eq in H.
Qed.

(** The invoice of an appointment can be reached by its own key. *)
Lemma payment_by_own_id appointmentId w p :
  Prisma.payment_of_appointment appointmentId w = Some p ->
  exists q, Prisma.payment_by_id (Payment.id p) w = Some q.
Proof.
  intros H. apply find_some in H as [Hin _].
  apply (find_is_Some _ _ p Hin). apply Z.eqb_refl.
Qed.

Lemma payment_of_appointment_written appointmentId id f w :
  (forall r, Payment.appointment_id (f r) = Payment.appointment_id r) ->
  Prisma.payment_of_appointment appointmentId (payments_written id f w)
  = (fun r => if Prisma.payment_has_id id r then f r else r)
      <$> Prisma.payment_of_appointment appointmentId w.
Proof.
  intros Hf. unfold Prisma.payment_of_appointment, payments_written.
  cbn [payments with_payments]. apply find_update_where.
  intros r. by rewrite Hf.
Qed.

Lemma payment_by_id_written id id' f w :
  (forall r, Payment.id (f r) = Payment.id r) ->
  Prisma.payment_by_id id (payments_written id' f w)
  = (fun r => if Prisma.payment_has_id id' r then f r else r)
      <$> Prisma.payment_by_id id w.
Proof.
  intros Hf. unfold Prisma.payment_by_id, payments_written.
  cbn [payments with_payments]. apply find_update_where.
  intros r. unfold Prisma.payment_has_id. by rewrite Hf.
Qed.

Lemma recalculatePaymentSummary_run paymentId w q :
  Prisma.payment_by_id paymentId w = Some q ->
  exists summary,
    recalculatePaymentSummary paymentId w
    = (Ok (Some summary),
       payments_written paymentId
         (Payment.set_total_amount (sum_total_cost (Prisma.bills_of paymentId w))) w)
    /\ total summary = sum_total_cost (Prisma.bills_of paymentId w).
Proof.
  intros Hq. unfold recalculatePaymentSummary.
  unfold Prisma.payment_findUnique, Prisma.payment_bills.
  rewrite bind_gets, Hq, bind_gets.
  rewrite (payment_by_id_key _ _ _ Hq).
  erewrite bind_Ok by (apply payment_update_run; exact Hq).
  eexists. split; reflexivity.
Qed.

Lemma recalculatePaymentSummary_missing paymentId w :
  Prisma.payment_by_id paymentId w = None ->
  recalculatePaymentSummary paymentId w = (Ok None, w).
Proof.
  intros Hq. unfold recalculatePaymentSummary, Prisma.payment_findUnique.
  by rewrite bind_gets, Hq.
Qed.

Lemma sum_total_cost_snoc l b :
  sum_total_cost (l ++ [b]) = (sum_total_cost l + PatientBills.total_cost b)%float.
Proof. unfold sum_total_cost. by rewrite fold_left_app. Qed.

(** The [reduce] of the code computes what the lines sum to. *)
Lemma sums_to_iff l total : sums_to l total <-> sum_total_cost l = total.
Proof.
  split.
  - induction 1 as [|l b total _ IH]; [reflexivity|].
    by rewrite sum_total_cost_snoc, IH.
  - revert total. induction l as [|b l IH] using rev_ind; intros total <-.
    + apply sums_to_nil.
    + rewrite sum_total_cost_snoc. by apply sums_to_snoc, IH.
Qed.

Lemma adds_up_iff w p : invoice_adds_up w p <-> invoice_consistent w p.
Proof.
  unfold invoice_adds_up, invoice_consistent. rewrite sums_to_iff.
  split; intros H; by rewrite H.
Qed.

Lemma ledger_adds_up_iff w : ledger_adds_up w <-> ledger_consistent w.
Proof.
  unfold ledger_adds_up, ledger_consistent.
  split; intros H p Hp; apply adds_up_iff; by apply H.
Qed.

(** C2.  [generateFinalBillForAppointment].  When no payment row belongs to
    the appointment it throws "No bills to generate final bill" and writes
    nothing.  When the appointment has an invoice whose lines sum to [total],
    it succeeds, returns [discountAmount = total * discount / 100] and
    [payable = total - total * discount / 100] (the product, the quotient
    and the difference of binary64 numbers, in this order), and leaves the
    invoice finalized, with [total_amount = total] and the given discount and
    bill date; the lines are untouched. *)
Theorem generateFinalBillForAppointment_spec env appointmentId discount bill_date w :
  ((forall p, In p (payments w) -> Payment.appointment_id p <> appointmentId) ->
   generateFinalBillForAppointment env appointmentId discount bill_date w
   = (Throw (Error "No bills to generate final bill"), w))
  /\
  (forall p total,
     Prisma.payment_of_appointment appointmentId w = Some p ->
     sums_to (Prisma.bills_of (Payment.id p) w) total ->
     exists fb w' p',
       generateFinalBillForAppointment env appointmentId discount bill_date w
       = (Ok fb, w') /\
       discountAmount fb = (total * discount / 100)%float /\
       payable fb = (total - total * discount / 100)%float /\
       Payment.finalized (updated fb) = true /\
       Payment.total_amount (updated fb) = total /\
       Prisma.payment_of_appointment appointmentId w' = Some p' /\
       Payment.finalized p' = true /\
       Payment.total_amount p' = total /\
       Payment.discount p' = discount /\
       Payment.bill_date p' = Date_parse env bill_date /\
       patientBills w' = patientBills w).
Proof.
  unfold generateFinalBillForAppointment, Prisma.payment_find_appointment_id,
    Prisma.payment_bills.
  split.
  - intros Hnone. rewrite bind_gets.
    destruct (Prisma.payment_of_appointment appointmentId w) as [p|] eqn:E;
      [|reflexivity].
    apply find_some in E as [Hin Hp]. apply Z.eqb_eq in Hp.
    by destruct (Hnone p Hin).
  - intros p total Hp Htotal. apply sums_to_iff in Htotal.
    rewrite bind_gets, Hp, bind_gets.
    destruct (payment_by_own_id _ _ _ Hp) as [q Hq].
    erewrite bind_Ok by (apply payment_update_run; exact Hq).
    rewrite bind_gets, Htotal.
    eexists _, _, _. split; [reflexivity|].
    cbn [discountAmount payable updated].
    split; [reflexivity|]. split; [reflexivity|].
    split; [reflexivity|]. split; [reflexivity|]. split.
    { rewrite payment_of_appointment_written by reflexivity.
      rewrite Hp. cbn. unfold Prisma.payment_has_id.
      rewrite Z.eqb_refl. reflexivity. }
    by repeat split.
Qed.

End LedgerRuns.

(** Two open invoices of two lines each.  Lines of 33 and 66 with a discount
    of 21: the total is 99, the discount 20.79 and the payable amount
    78.21000000000001.  The scenario of the specification, lines of 100 and
    200 with a discount of 10: 300, 30 and 270. *)
Lemma generateFinalBillForAppointment_spec_witness :
  (Prisma.payment_of_appointment 2 Sample5.world = Some Sample5.payment2 /\
   Payment.finalized Sample5.payment2 = false /\
   Prisma.bills_of 2 Sample5.world = [Sample5.line4; Sample5.line5] /\
   exists fb w' p',
     DoctorService.generateFinalBillForAppointment Sample.env 2 21
       "2023-11-15" Sample5.world = (Ok fb, w') /\
     DoctorService.discountAmount fb = 20.79%float /\
     DoctorService.payable fb = 78.21000000000001%float /\
     Prisma.payment_of_appointment 2 w' = Some p' /\
     Payment.finalized p' = true /\
     Payment.total_amount p' = 99%float)
  /\
  (exists fb w' p',
     DoctorService.generateFinalBillForAppointment Sample.env 3 10
       "2023-11-15" Sample5.world = (Ok fb, w') /\
     DoctorService.discountAmount fb = 30%float /\
     DoctorService.payable fb = 270%float /\
     Prisma.payment_of_appointment 3 w' = Some p' /\
     Payment.finalized p' = true /\
     Payment.total_amount p' = 300%float).
Proof.
  split.
  - split; [reflexivity|]. split; [reflexivity|]. split; [reflexivity|].
    destruct (proj2 (generateFinalBillForAppointment_spec Sample.env 2 21
                       "2023-11-15" Sample5.world) Sample5.payment2 99%float eq_refl)
      as (fb & w' & p' & Hrun & Hd & Hpay & _ & _ & Hp' & Hfin & Htot & _).
    { apply (Ledger.sums_to_snoc [Sample5.line4] Sample5.line5 33%float).
      apply (Ledger.sums_to_snoc [] Sample5.line4 0%float), Ledger.sums_to_nil. }
    exists fb, w', p'. by repeat split.
  - destruct (proj2 (generateFinalBillForAppointment_spec Sample.env 3 10
                       "2023-11-15" Sample5.world) Sample5.payment3 300%float eq_refl)
      as (fb & w' & p' & Hrun & Hd & Hpay & _ & _ & Hp' & Hfin & Htot & _).
    { apply (Ledger.sums_to_snoc [Sample5.line6] Sample5.line7 100%float).
      apply (Ledger.sums_to_snoc [] Sample5.line6 0%float), Ledger.sums_to_nil. }
    exists fb, w', p'. by repeat split.
Defined.

(** ** The finalized flag locks nothing *)

Section Finalized.
Import DoctorService Ledger NotificationService Outbox.

Abbreviation clear := (Payment.set_finalized false).

Lemma ignores_ret {A} (a : A) : ignores_finalized (ret a).
Proof. intros w. reflexivity. Qed.

Lemma ignores_throw {A} e : ignores_finalized (@throw A e).
Proof. intros w. reflexivity. Qed.

Lemma ignores_bind {A B} (m : M A) (k : A -> M B) :
  ignores_finalized m -> (forall a, ignores_finalized (k a)) ->
  ignores_finalized (bind m k).
Proof.
  intros Hm Hk w. unfold bind. rewrite Hm.
  destruct (m w) as [[a|e] w']; cbn [fst snd]; [apply Hk | reflexivity].
Qed.

Lemma ignores_when c (m : M unit) :
  ignores_finalized m -> ignores_finalized (when c m).
Proof. destruct c; [done | intros _; apply ignores_ret]. Qed.

Lemma ignores_for_of {A} (l : list A) (body : A -> M unit) :
  (forall x, ignores_finalized (body x)) -> ignores_finalized (for_of l body).
Proof.
  intros Hb. induction l as [|x l IH]; [apply ignores_ret|].
  cbn [for_of]. apply ignores_bind; [apply Hb | intros _; exact IH].
Qed.

Lemma ignores_createNotification env data :
  ignores_finalized (createNotification env data).
Proof. intros w. rewrite !createNotification_run. reflexivity. Qed.

(** Reads of the other tables. *)
Lemma ignores_appointment_findUnique id :
  ignores_finalized (Prisma.appointment_findUnique id).
Proof. intros w. reflexivity. Qed.

Lemma ignores_services_findUnique id :
  ignores_finalized (Prisma.services_findUnique id).
Proof. intros w. reflexivity. Qed.

Lemma ignores_patient_find_id id : ignores_finalized (Prisma.patient_find_id id).
Proof. intros w. reflexivity. Qed.

Lemma ignores_patientBills_findUnique id :
  ignores_finalized (Prisma.patientBills_findUnique id).
Proof. intros w. reflexivity. Qed.

Lemma ignores_payment_bills p : ignores_finalized (Prisma.payment_bills p).
Proof. intros w. reflexivity. Qed.

(** Writes of the lines. *)
Lemma ignores_patientBills_create mk_row :
  ignores_finalized (Prisma.patientBills_create mk_row).
Proof. intros w. reflexivity. Qed.

Lemma ignores_patientBills_update id f :
  ignores_finalized (Prisma.patientBills_update id f).
Proof.
  intros w. unfold Prisma.patientBills_update.
  change (Prisma.bill_by_id id (unfinalize w)) with (Prisma.bill_by_id id w).
  destruct (Prisma.bill_by_id id w); reflexivity.
Qed.

Lemma ignores_patientBills_delete id :
  ignores_finalized (Prisma.patientBills_delete id).
Proof.
  intros w. unfold Prisma.patientBills_delete.
  change (Prisma.bill_by_id id (unfinalize w)) with (Prisma.bill_by_id id w).
  destruct (Prisma.bill_by_id id w); reflexivity.
Qed.

(** Payment rows. *)
Lemma find_cleared (P : Payment.t -> bool) l :
  (forall r, P (clear r) = P r) ->
  List.find P (map clear l) = clear <$> List.find P l.
Proof.
  intros HP. induction l as [|x l IH]; [reflexivity|].
  cbn [map List.find]. rewrite HP. destruct (P x); [reflexivity | exact IH].
Qed.

Lemma update_where_cleared (P : Payment.t -> bool) f l :
  (forall r, P (clear r) = P r) -> (forall r, f (clear r) = clear (f r)) ->
  Prisma.update_where P f (map clear l) = map clear (Prisma.update_where P f l).
Proof.
  intros HP Hf. unfold Prisma.update_where. rewrite !map_map.
  apply map_ext. intros r. rewrite HP. destruct (P r); [apply Hf | reflexivity].
Qed.

Lemma finds_payment_of_appointment id :
  finds_cleared (Prisma.payment_find_appointment_id id).
Proof.
  intros w. unfold Prisma.payment_find_appointment_id, gets, clear_flag.
  cbn [fst snd]. f_equal. f_equal. by apply find_cleared.
Qed.

Lemma finds_payment_by_id id : finds_cleared (Prisma.payment_findUnique id).
Proof.
  intros w. unfold Prisma.payment_findUnique, gets, clear_flag.
  cbn [fst snd]. f_equal. f_equal. by apply find_cleared.
Qed.

Lemma finds_bind {A} (m : M A) (k : A -> M (option Payment.t)) :
  ignores_finalized m -> (forall a, finds_cleared (k a)) ->
  finds_cleared (bind m k).
Proof.
  intros Hm Hk w. unfold bind. rewrite Hm.
  destruct (m w) as [[a|e] w']; cbn [fst snd]; [apply Hk | reflexivity].
Qed.

(** A continuation that uses the payment row it is given only up to the
    flag can be bound to such a query. *)
Lemma ignores_bind_payment {B} (m : M (option Payment.t))
    (k : option Payment.t -> M B) :
  finds_cleared m ->
  (forall o, ignores_finalized (k o)) ->
  (forall o, k (clear <$> o) = k o) ->
  ignores_finalized (bind m k).
Proof.
  intros Hm Hk Hsame w. unfold bind. rewrite Hm.
  destruct (m w) as [[o|e] w']; cbn [fst snd clear_flag];
    [rewrite Hsame; apply Hk | reflexivity].
Qed.

Lemma ignores_payment_create mk_row :
  (forall id, clear (mk_row id) = mk_row id) ->
  ignores_finalized (Prisma.payment_create mk_row).
Proof.
  intros Hmk w. unfold Prisma.payment_create, unfinalize. cbn.
  rewrite map_app. cbn [map]. by rewrite Hmk.
Qed.

(** [payment.update] followed by code that drops the returned row. *)
Lemma ignores_payment_update {B} id f (k : M B) :
  (forall r, f (clear r) = clear (f r)) ->
  ignores_finalized k ->
  ignores_finalized (bind (Prisma.payment_update id f) (fun _ => k)).
Proof.
  intros Hf Hk w. unfold bind, Prisma.payment_update.
  unfold Prisma.payment_by_id at 1. unfold unfinalize at 1.
  cbn [payments with_payments].
  rewrite find_cleared by reflexivity.
  fold (Prisma.payment_by_id id w).
  destruct (Prisma.payment_by_id id w) as [q|]; cbn [fmap option_fmap option_map];
    [|reflexivity].
  unfold unfinalize at 1. cbn [payments with_payments next_payment_id].
  rewrite update_where_cleared by (reflexivity || exact Hf).
  apply (Hk (payments_written id f w)).
Qed.

Lemma ignores_recalculatePaymentSummary paymentId :
  ignores_finalized (recalculatePaymentSummary paymentId).
Proof.
  unfold recalculatePaymentSummary.
  apply ignores_bind_payment; [apply finds_payment_by_id | | by intros [p|]].
  intros [p|]; [|apply ignores_ret].
  apply ignores_bind; [apply ignores_payment_bills|]. intros bills.
  apply ignores_payment_update; [reflexivity | apply ignores_ret].
Qed.

Ltac ignores_step :=
  first
    [ apply ignores_ret | apply ignores_throw
    | apply ignores_createNotification
    | apply ignores_recalculatePaymentSummary
    | apply ignores_appointment_findUnique
    | apply ignores_services_findUnique
    | apply ignores_patient_find_id
    | apply ignores_patientBills_findUnique
    | apply ignores_patientBills_create
    | apply ignores_patientBills_update
    | apply ignores_patientBills_delete
    | apply ignores_when | apply ignores_for_of
    | apply ignores_bind_payment;
        [ first [ apply finds_payment_of_appointment | apply finds_payment_by_id ]
        | | by intros [?|] ]
    | apply ignores_bind
    | match goal with |- forall _, _ => intro end
    | progress cbv zeta
    | match goal with
      | |- ignores_finalized (match ?x with _ => _ end) => destruct x
      end ].

Lemma ignores_addBillToAppointment env appointmentId input :
  ignores_finalized (addBillToAppointment env appointmentId input).
Proof.
  unfold addBillToAppointment.
  apply ignores_bind; [apply ignores_appointment_findUnique|].
  intros [billAppointment|]; [|apply ignores_throw].
  apply ignores_bind_payment;
    [apply finds_payment_of_appointment | | by intros [?|]].
  intros [p|].
  - repeat ignores_step.
  - apply ignores_bind_payment; [ | repeat ignores_step | by intros [?|]].
    apply finds_bind; [by apply ignores_payment_create|].
    intros _. apply finds_payment_of_appointment.
Qed.

Lemma ignores_deleteBillFromAppointment appointmentId billId :
  ignores_finalized (deleteBillFromAppointment appointmentId billId).
Proof. unfold deleteBillFromAppointment. repeat ignores_step. Qed.

Lemma ignores_editBillInAppointment env appointmentId billId data :
  ignores_finalized (editBillInAppointment env appointmentId billId data).
Proof. unfold editBillInAppointment. repeat ignores_step. Qed.

Lemma ignores_outcome {A} (m : M A) w1 w2 :
  ignores_finalized m -> same_but_finalized w1 w2 ->
  fst (m w1) = fst (m w2) /\ same_but_finalized (snd (m w1)) (snd (m w2)).
Proof.
  intros Hm Hw. unfold same_but_finalized in *.
  pose proof (Hm w1) as H1. pose proof (Hm w2) as H2. rewrite Hw in H1.
  rewrite H1 in H2.
  split; [exact (f_equal fst H2) | exact (f_equal snd H2)].
Qed.

(** C8.  No bill-line mutation looks at the finalized flag.  On two
    databases that differ at most in the finalized flags of their invoices,
    [addBillToAppointment], [editBillInAppointment] and
    [deleteBillFromAppointment] have the same outcome (the same value
    returned or the same error thrown) and leave databases that again differ
    at most in those flags. *)
Theorem bill_mutations_ignore_finalized env appointmentId billId input data w1 w2 :
  same_but_finalized w1 w2 ->
  (fst (addBillToAppointment env appointmentId input w1)
   = fst (addBillToAppointment env appointmentId input w2) /\
   same_but_finalized (snd (addBillToAppointment env appointmentId input w1))
     (snd (addBillToAppointment env appointmentId input w2)))
  /\
  (fst (editBillInAppointment env appointmentId billId data w1)
   = fst (editBillInAppointment env appointmentId billId data w2) /\
   same_but_finalized (snd (editBillInAppointment env appointmentId billId data w1))
     (snd (editBillInAppointment env appointmentId billId data w2)))
  /\
  (fst (deleteBillFromAppointment appointmentId billId w1)
   = fst (deleteBillFromAppointment appointmentId billId w2) /\
   same_but_finalized (snd (deleteBillFromAppointment appointmentId billId w1))
     (snd (deleteBillFromAppointment appointmentId billId w2))).
Proof.
  intros Hw. split; [|split]; apply ignores_outcome; try exact Hw.
  - apply ignores_addBillToAppointment.
  - apply ignores_editBillInAppointment.
  - apply ignores_deleteBillFromAppointment.
Qed.

End Finalized.

Lemma bill_mutations_ignore_finalized_witness :
  (fst (DoctorService.addBillToAppointment Sample.env 2
          (DoctorService.mkAdd 5 1 "2023-11-15") Sample.world_open)
   = fst (DoctorService.addBillToAppointment Sample.env 2
            (DoctorService.mkAdd 5 1 "2023-11-15") Sample.world_closed))
  /\
  (fst (DoctorService.editBillInAppointment Sample.env 2 2
          (DoctorService.mkEdit None (Some 4) None) Sample.world_open)
   = fst (DoctorService.editBillInAppointment Sample.env 2 2
            (DoctorService.mkEdit None (Some 4) None) Sample.world_closed))
  /\
  (fst (DoctorService.deleteBillFromAppointment 2 2 Sample.world_open)
   = fst (DoctorService.deleteBillFromAppointment 2 2 Sample.world_closed)).
Proof.
  destruct (bill_mutations_ignore_finalized Sample.env 2 2
              (DoctorService.mkAdd 5 1 "2023-11-15")
              (DoctorService.mkEdit None (Some 4) None)
              Sample.world_open Sample.world_closed eq_refl)
    as ((Ha & _) & (He & _) & (Hd & _)).
  by repeat split.
Defined.

(** ** The cached total *)

Ltac run_in H :=
  repeat first
    [ rewrite bind_assoc in H
    | rewrite notify_step in H
    | rewrite bind_gets in H
    | rewrite bind_ret in H
    | rewrite bind_throw in H
    | progress cbn [when] in H
    | progress cbv beta in H ].

Section CachedTotal.
Import DoctorService Ledger Outbox.

Lemma find_app_None {A} (P : A -> bool) l l' :
  List.find P l = None -> List.find P (l ++ l') = List.find P l'.
Proof.
  induction l as [|x l IH]; [reflexivity|]. cbn.
  destruct (P x); [discriminate | exact IH].
Qed.

Lemma filter_filter_absorb {A} (P Q : A -> bool) l :
  (forall x, In x l -> P x = true -> Q x = true) ->
  List.filter P (List.filter Q l) = List.filter P l.
Proof.
  induction l as [|x l IH]; intros H; [reflexivity|]. cbn.
  assert (IH' := IH (fun y Hy => H y (or_intror Hy))).
  destruct (P x) eqn:HP.
  - rewrite (H x (or_introl eq_refl) HP). cbn. by rewrite HP, IH'.
  - destruct (Q x); cbn; [by rewrite HP, IH' | exact IH'].
Qed.

Lemma filter_map_fixed {A} (P : A -> bool) (g : A -> A) l :
  (forall x, In x l -> P (g x) = P x /\ (P x = true -> g x = x)) ->
  List.filter P (map g l) = List.filter P l.
Proof.
  induction l as [|x l IH]; intros H; [reflexivity|]. cbn.
  destruct (H x (or_introl eq_refl)) as [H1 H2]. rewrite H1.
  rewrite (IH (fun y Hy => H y (or_intror Hy))).
  destruct (P x); [by rewrite H2 | reflexivity].
Qed.

(** The consistency of the ledger depends on the two billing tables only. *)
Lemma ledger_frame w w' :
  payments w' = payments w -> patientBills w' = patientBills w ->
  ledger_consistent w -> ledger_consistent w'.
Proof.
  intros Hp Hb Hinv p Hin. rewrite Hp in Hin.
  unfold invoice_consistent, Prisma.bills_of. rewrite Hb. by apply Hinv.
Qed.

(** X14.  The recompute step never throws and writes [total_amount], on the
    rows of the payment, and nothing else: every row keeps its discount and
    its finalized flag, and the lines are untouched. *)
Lemma recalculatePaymentSummary_writes_total_only paymentId w :
  exists r w',
    recalculatePaymentSummary paymentId w = (Ok r, w') /\
    Forall2 (fun p p' => exists t, p' = Payment.set_total_amount t p)
      (payments w) (payments w') /\
    map Payment.discount (payments w') = map Payment.discount (payments w) /\
    map Payment.finalized (payments w') = map Payment.finalized (payments w) /\
    patientBills w' = patientBills w.
Proof.
  destruct (Prisma.payment_by_id paymentId w) as [q|] eqn:Hq.
  - destruct (recalculatePaymentSummary_run _ _ _ Hq) as (summary & Hrun & _).
    eexists _, _. split; [exact Hrun|].
    unfold payments_written, Prisma.update_where. cbn [payments with_payments].
    split; [|split; [|split]]; [| | |reflexivity].
    + induction (payments w) as [|x l IH]; constructor; [|exact IH].
      destruct (Prisma.payment_has_id paymentId x); [by eexists|].
      exists (Payment.total_amount x). by destruct x.
    + rewrite map_map. apply map_ext. intros x. by destruct (Prisma.payment_has_id _ x).
    + rewrite map_map. apply map_ext. intros x. by destruct (Prisma.payment_has_id _ x).
  - rewrite (recalculatePaymentSummary_missing _ _ Hq).
    eexists _, _. split; [reflexivity|].
    split; [|by repeat split].
    induction (payments w) as [|x l IH]; constructor; [|exact IH].
    exists (Payment.total_amount x). by destruct x.
Qed.

(** After the recompute step the rows of the payment agree with its lines;
    if every other invoice was consistent, the whole ledger is. *)
Lemma recalculatePaymentSummary_restores paymentId w q :
  Prisma.payment_by_id paymentId w = Some q ->
  (forall p, In p (payments w) -> Payment.id p <> paymentId ->
             invoice_consistent w p) ->
  ledger_consistent (snd (recalculatePaymentSummary paymentId w)).
Proof.
  intros Hq Hothers.
  destruct (recalculatePaymentSummary_run _ _ _ Hq) as (summary & -> & _).
  cbn [snd]. intros y Hy.
  unfold payments_written in Hy. cbn [payments with_payments] in Hy.
  apply In_update_where in Hy as (x & Hx & ->).
  unfold invoice_consistent.
  change (Prisma.bills_of ?i (payments_written _ _ w)) with (Prisma.bills_of i w).
  unfold Prisma.payment_has_id. destruct (Z.eqb_spec (Payment.id x) paymentId) as [E|E].
  - cbn. by rewrite E.
  - by apply Hothers.
Qed.

End CachedTotal.

Section LedgerInvariant.
Import DoctorService Ledger Outbox NotificationService.
Variable env : Env.

Lemma bills_of_appended id w b n :
  PatientBills.bill_id b <> id ->
  Prisma.bills_of id (with_patientBills (patientBills w ++ [b]) n w)
  = Prisma.bills_of id w.
Proof.
  intros Hne. unfold Prisma.bills_of. cbn [patientBills with_patientBills].
  rewrite List.filter_app. cbn.
  destruct (Z.eqb_spec (PatientBills.bill_id b) id); [done | apply app_nil_r].
Qed.

(** Adding a line keeps the ledger consistent. *)
Lemma addBillToAppointment_keeps_ledger appointmentId input w bill w' :
  ledger_consistent w ->
  addBillToAppointment env appointmentId input w = (Ok bill, w') ->
  ledger_consistent w'.
Proof.
  intros Hinv Hrun. unfold addBillToAppointment in Hrun.
  unfold Prisma.appointment_findUnique, Prisma.payment_find_appointment_id,
    Prisma.services_findUnique, Prisma.patient_find_id in Hrun.
  rewrite bind_gets in Hrun.
  destruct (Prisma.appointment_by_id appointmentId w) as [ba|]; [|discriminate].
  rewrite bind_gets in Hrun.
  (* the world once the invoice exists, and the invoice *)
  assert (exists w1 p,
    (forall x, In x (payments w1) -> Payment.id x <> Payment.id p ->
               In x (payments w)) /\
    patientBills w1 = patientBills w /\
    Prisma.payment_of_appointment appointmentId w1 = Some p /\
    exists k,
      k (Some p) w1 = (Ok bill, w') /\
      k = (fun payment =>
        match payment with
        | Some payment =>
          service <- gets (Prisma.service_by_id (add_service_id input)) ;;
          match service with
          | Some service =>
            bill <- Prisma.patientBills_create (fun id =>
              PatientBills.mk id (Payment.id payment) (add_service_id input)
                (Date_parse env (add_service_date input)) (add_quantity input)
                (Services.price service)
                (Services.price service * JS.number_of_Z (add_quantity input))%float) ;;
            recalculatePaymentSummary (Payment.id payment) ;;;
            patient <- gets (Prisma.patient_by_id (Appointment.patient_id ba)) ;;
            match patient with
            | Some patient =>
              match Patient.user_id patient with
              | Some patient_user =>
                when (JS.truthy_string patient_user)
                  (createNotification env (mkData patient_user "New Bill Generated"
                     "A new bill has been generated for your appointment."
                     (Some "/appointments")) ;;; ret tt)
              | None => ret tt
              end
            | None => ret tt
            end ;;;
            ret bill
          | None => throw (Error "Service not found")
          end
        | None => throw (Error "Payment not found")
        end)) as (w1 & p & Hsub & Hbills & Hp & k & Hk & ->).
  { destruct (Prisma.payment_of_appointment appointmentId w) as [p|] eqn:Hp.
    - rewrite bind_ret in Hrun. exists w, p.
      split; [by intros x Hx _|]. split; [reflexivity|]. split; [exact Hp|].
      eexists. split; [|reflexivity]. exact Hrun.
    - rewrite bind_assoc in Hrun. unfold bind at 1 in Hrun.
      cbn [Prisma.payment_create] in Hrun. rewrite bind_gets in Hrun.
      match type of Hrun with
      | context [Prisma.payment_of_appointment _ ?w1] =>
          destruct (Prisma.payment_of_appointment appointmentId w1) as [p|] eqn:Hp1;
            [exists w1, p | discriminate]
      end.
      split; [|split; [reflexivity|split; [exact Hp1|]]];
        [|eexists; split; [|reflexivity]; exact Hrun].
      intros x Hx Hne. cbn [payments with_payments] in Hx.
      apply in_app_or in Hx as [Hx|[<-|[]]]; [exact Hx|].
      unfold Prisma.payment_of_appointment in Hp1, Hp.
      cbn [payments with_payments] in Hp1.
      rewrite (find_app_None _ _ _ Hp) in Hp1. cbn in Hp1.
      destruct (Z.eqb appointmentId appointmentId); [|discriminate].
      by injection Hp1 as <-. }
  rewrite bind_gets in Hk.
  destruct (Prisma.service_by_id (add_service_id input) w1) as [s|]; [|discriminate].
  unfold bind at 1 in Hk. cbn [Prisma.patientBills_create] in Hk.
  set (b := PatientBills.mk (next_bill_id w1) (Payment.id p) (add_service_id input)
              (Date_parse env (add_service_date input)) (add_quantity input)
              (Services.price s)
              (Services.price s * JS.number_of_Z (add_quantity input))%float) in *.
  set (w2 := with_patientBills (patientBills w1 ++ [b]) (next_bill_id w1 + 1) w1) in *.
  destruct (payment_by_own_id _ _ _ Hp) as [q Hq].
  assert (Hw3 : ledger_consistent (snd (recalculatePaymentSummary (Payment.id p) w2))).
  { apply (recalculatePaymentSummary_restores _ w2 q Hq).
    intros x Hx Hne. unfold invoice_consistent, w2.
    rewrite bills_of_appended by (cbn; congruence).
    unfold Prisma.bills_of. rewrite Hbills. by apply Hinv, Hsub. }
  destruct (recalculatePaymentSummary_run _ w2 q Hq) as (summary & Hr & _).
  rewrite Hr in Hw3. cbn [snd] in Hw3.
  erewrite bind_Ok in Hk by exact Hr.
  rewrite bind_gets in Hk.
  match type of Hk with
  | context [Prisma.patient_by_id ?i ?w] => destruct (Prisma.patient_by_id i w) as [pt|]
  end.
  2: { run_in Hk. injection Hk as _ <-. exact Hw3. }
  destruct (Patient.user_id pt) as [pu|].
  2: { run_in Hk. injection Hk as _ <-. exact Hw3. }
  destruct (JS.truthy_string pu); run_in Hk; injection Hk as _ <-;
    [|exact Hw3].
  revert Hw3. by apply ledger_frame.
Qed.

(** Deleting a line keeps the ledger consistent, provided the line belongs
    to the invoice of the appointment named in the request. *)
Lemma deleteBillFromAppointment_keeps_ledger appointmentId billId w p r w' :
  Prisma.payment_of_appointment appointmentId w = Some p ->
  (forall b, In b (patientBills w) -> PatientBills.id b = billId ->
             PatientBills.bill_id b = Payment.id p) ->
  ledger_consistent w ->
  deleteBillFromAppointment appointmentId billId w = (Ok r, w') ->
  ledger_consistent w'.
Proof.
  intros Hp Hown Hinv Hrun. unfold deleteBillFromAppointment in Hrun.
  unfold Prisma.payment_find_appointment_id in Hrun.
  rewrite bind_gets, Hp in Hrun.
  unfold bind at 1 in Hrun. unfold Prisma.patientBills_delete in Hrun.
  destruct (Prisma.bill_by_id billId w) as [b0|]; [|discriminate].
  set (w2 := with_patientBills _ _ w) in Hrun.
  destruct (payment_by_own_id _ _ _ Hp) as [q Hq].
  assert (Hw3 : ledger_consistent (snd (recalculatePaymentSummary (Payment.id p) w2))).
  { apply (recalculatePaymentSummary_restores _ w2 q Hq).
    intros x Hx Hne. unfold invoice_consistent, Prisma.bills_of, w2.
    cbn [patientBills with_patientBills].
    rewrite filter_filter_absorb; [by apply Hinv|].
    intros b Hb Hbill. apply Z.eqb_eq in Hbill.
    unfold Prisma.bill_has_id. apply negb_true_iff, Z.eqb_neq.
    intros Hid. apply Hne. rewrite <- Hbill. by apply Hown. }
  destruct (recalculatePaymentSummary_run _ w2 q Hq) as (summary & Hr & _).
  rewrite Hr in Hw3. erewrite bind_Ok in Hrun by exact Hr.
  cbv beta delta [ret] in Hrun. by injection Hrun as _ <-.
Qed.

(** Editing a line keeps the ledger consistent, under the same proviso. *)
Lemma editBillInAppointment_keeps_ledger appointmentId billId data w p r w' :
  Prisma.payment_of_appointment appointmentId w = Some p ->
  (forall b, In b (patientBills w) -> PatientBills.id b = billId ->
             PatientBills.bill_id b = Payment.id p) ->
  ledger_consistent w ->
  editBillInAppointment env appointmentId billId data w = (Ok r, w') ->
  ledger_consistent w'.
Proof.
  intros Hp Hown Hinv Hrun. unfold editBillInAppointment in Hrun.
  unfold Prisma.payment_find_appointment_id, Prisma.patientBills_findUnique,
    Prisma.services_findUnique in Hrun.
  rewrite bind_gets, Hp, bind_gets in Hrun.
  destruct (Prisma.bill_by_id billId w) as [b0|] eqn:Hb0; [|discriminate].
  (* whatever [updateData] is, the update keeps the line on its invoice *)
  assert (exists u : BillUpdateData,
    (updatedBill <- Prisma.patientBills_update billId (apply_bill_update u) ;;
     recalculatePaymentSummary (Payment.id p) ;;; ret updatedBill) w
    = (Ok r, w')) as (u & Hu).
  { destruct (JS.truthy_opt_Z (edit_service_id data)).
    - rewrite bind_assoc, bind_gets in Hrun.
      destruct (Prisma.service_by_id _ w) as [s|]; [|discriminate].
      rewrite bind_ret in Hrun. eexists. exact Hrun.
    - rewrite bind_ret in Hrun. eexists. exact Hrun. }
  clear Hrun. unfold bind at 1 in Hu. unfold Prisma.patientBills_update in Hu.
  rewrite Hb0 in Hu.
  set (w2 := with_patientBills _ _ w) in Hu.
  destruct (payment_by_own_id _ _ _ Hp) as [q Hq].
  assert (Hw3 : ledger_consistent (snd (recalculatePaymentSummary (Payment.id p) w2))).
  { apply (recalculatePaymentSummary_restores _ w2 q Hq).
    intros x Hx Hne. unfold invoice_consistent, Prisma.bills_of, w2.
    cbn [patientBills with_patientBills]. unfold Prisma.update_where.
    rewrite filter_map_fixed; [by apply Hinv|].
    intros b Hb. split; [by destruct (Prisma.bill_has_id billId b)|].
    intros Hbill. apply Z.eqb_eq in Hbill.
    unfold Prisma.bill_has_id.
    destruct (Z.eqb_spec (PatientBills.id b) billId) as [Hid|]; [|reflexivity].
    destruct Hne. rewrite <- Hbill. by apply Hown. }
  destruct (recalculatePaymentSummary_run _ w2 q Hq) as (summary & Hr & _).
  rewrite Hr in Hw3. erewrite bind_Ok in Hu by exact Hr.
  cbv beta delta [ret] in Hu. by injection Hu as _ <-.
Qed.

(** Editing the summary of an invoice keeps the ledger consistent. *)
Lemma editFinalBillSummary_keeps_ledger appointmentId data w r w' :
  ledger_consistent w ->
  editFinalBillSummary env appointmentId data w = (Ok r, w') ->
  ledger_consistent w'.
Proof.
  intros Hinv Hrun. unfold editFinalBillSummary in Hrun.
  unfold Prisma.payment_find_appointment_id, Prisma.payment_findUnique,
    Prisma.payment_bills in Hrun.
  rewrite bind_gets in Hrun.
  destruct (Prisma.payment_of_appointment appointmentId w) as [p|] eqn:Hp;
    [|discriminate].
  destruct (payment_by_own_id _ _ _ Hp) as [q Hq].
  erewrite bind_Ok in Hrun by (apply payment_update_run; exact Hq).
  set (f := fun p0 : Payment.t => _) in Hrun.
  assert (Hid : forall x, Payment.id (f x) = Payment.id x).
  { intros x. unfold f. destruct (ef_discount data), (JS.truthy_opt_string _);
      reflexivity. }
  set (w2 := payments_written (Payment.id p) f w) in Hrun.
  assert (Hq2 : exists q2, Prisma.payment_by_id (Payment.id p) w2 = Some q2).
  { unfold w2. rewrite payment_by_id_written by exact Hid. rewrite Hq. by eexists. }
  destruct Hq2 as [q2 Hq2].
  assert (Hw3 : ledger_consistent (snd (recalculatePaymentSummary (Payment.id p) w2))).
  { apply (recalculatePaymentSummary_restores _ w2 q2 Hq2).
    intros x Hx Hne. unfold w2, payments_written in Hx.
    cbn [payments with_payments] in Hx.
    apply In_update_where in Hx as (x0 & Hx0 & ->).
    unfold Prisma.payment_has_id in *.
    destruct (Z.eqb_spec (Payment.id x0) (Payment.id p)) as [E|E].
    - destruct Hne. by rewrite Hid.
    - by apply Hinv. }
  destruct (recalculatePaymentSummary_run _ w2 q2 Hq2) as (summary & Hr & _).
  rewrite Hr in Hw3. erewrite bind_Ok in Hrun by exact Hr.
  rewrite bind_gets in Hrun.
  match type of Hrun with
  | context [match ?o with Some _ => _ | None => _ end] => destruct o
  end; run_in Hrun; cbv beta delta [ret] in Hrun; by injection Hrun as _ <-.
Qed.

End LedgerInvariant.

(** C1, evaluated.  In the sample hospital every invoice is consistent.  The
    request [PATCH /doctor/appointments/1/bills/2] with [{ quantity: 5 }]
    names appointment 1 and line 2, which is a line of the invoice of
    appointment 2.  [editBillInAppointment] succeeds, rewrites the line
    (total cost 500) and recomputes the invoice of appointment 1 only: the
    invoice of appointment 2 keeps [total_amount = 300] while its lines now
    sum to 500, and the ledger is no longer consistent. *)
Theorem editBill_of_another_invoice_leaves_stale_total :
  Ledger.ledger_consistent Sample.world /\
  exists bill w' p2,
    DoctorService.editBillInAppointment Sample.env 1 2
      (DoctorService.mkEdit None (Some 5) None) Sample.world = (Ok bill, w') /\
    PatientBills.bill_id bill = 2 /\
    Prisma.payment_by_id 2 w' = Some p2 /\
    Payment.total_amount p2 = 300%float /\
    DoctorService.sum_total_cost (Prisma.bills_of 2 w') = 500%float /\
    ~ Ledger.ledger_consistent w'.
Proof.
  split.
  - intros p [<-|[<-|[]]]; reflexivity.
  - eexists _, _, _. split; [lazy; reflexivity|].
    split; [reflexivity|]. split; [reflexivity|]. split; [reflexivity|].
    split; [reflexivity|].
    intros Hinv.
    specialize (Hinv Sample.payment2 ltac:(right; by left)).
    apply (f_equal (fun x => PrimFloat.eqb x 300)) in Hinv.
    vm_compute in Hinv. discriminate.
Qed.

(** * Further properties of the services *)

(** ** Billing: what each service does to the database *)

Section BillingRuns.
Import DoctorService Ledger Outbox NotificationService Billing.
Variable env : Env.

Lemma payment_of_appointment_with_invoice appointmentId ba w :
  Prisma.payment_of_appointment appointmentId (with_invoice env appointmentId ba w)
  = Some (invoice_for env appointmentId ba w).
Proof.
  unfold with_invoice, invoice_for.
  destruct (Prisma.payment_of_appointment appointmentId w) as [p|] eqn:Hp;
    [exact Hp|].
  unfold Prisma.payment_of_appointment in *. cbn [payments with_payments].
  rewrite (find_app_None _ _ _ Hp). cbn. by rewrite Z.eqb_refl.
Qed.

Lemma recalculate_bind {B} paymentId w q (k : option PaymentSummary -> M B) :
  Prisma.payment_by_id paymentId w = Some q ->
  exists summary,
    bind (recalculatePaymentSummary paymentId) k w
    = k (Some summary) (recomputed paymentId w).
Proof.
  intros Hq. destruct (recalculatePaymentSummary_run _ _ _ Hq) as (summary & Hr & _).
  exists summary. by apply bind_Ok.
Qed.

(** The three ways [addBillToAppointment] can end. *)
Lemma addBill_no_appointment appointmentId input w :
  Prisma.appointment_by_id appointmentId w = None ->
  addBillToAppointment env appointmentId input w
  = (Throw (Error "Appointment not found"), w).
Proof.
  intros H. unfold addBillToAppointment, Prisma.appointment_findUnique.
  by rewrite bind_gets, H.
Qed.

Lemma addBill_invoice_step {B} appointmentId ba w
    (k : option Payment.t -> M B) :
  (payment <- Prisma.payment_find_appointment_id appointmentId ;;
   payment <-
     match payment with
     | Some p => ret (Some p)
     | None =>
         Prisma.payment_create (fun id =>
           Payment.mk id appointmentId (Appointment.patient_id ba)
             (now env) (now env) 0%float 0%float 0%float "CASH" "UNPAID" false) ;;;
         Prisma.payment_find_appointment_id appointmentId
     end ;;
   k payment) w
  = k (Some (invoice_for env appointmentId ba w))
      (with_invoice env appointmentId ba w).
Proof.
  pose proof (payment_of_appointment_with_invoice appointmentId ba w) as Hinv.
  unfold Prisma.payment_find_appointment_id in *.
  rewrite bind_gets.
  unfold with_invoice, invoice_for in *.
  destruct (Prisma.payment_of_appointment appointmentId w) as [p|] eqn:Hp.
  - by rewrite bind_ret.
  - rewrite bind_assoc. unfold bind at 1. cbn [Prisma.payment_create].
    rewrite bind_gets. unfold opened_invoice in Hinv. by rewrite Hinv.
Qed.

Lemma addBill_no_service appointmentId input w ba :
  Prisma.appointment_by_id appointmentId w = Some ba ->
  Prisma.service_by_id (add_service_id input) w = None ->
  addBillToAppointment env appointmentId input w
  = (Throw (Error "Service not found"), with_invoice env appointmentId ba w).
Proof.
  intros Ha Hs. unfold addBillToAppointment, Prisma.appointment_findUnique.
  rewrite bind_gets, Ha. rewrite addBill_invoice_step.
  unfold Prisma.services_findUnique. rewrite bind_gets.
  replace (Prisma.service_by_id (add_service_id input)
             (with_invoice env appointmentId ba w)) with (@None Services.t);
    [reflexivity|].
  rewrite <- Hs. unfold with_invoice.
  by destruct (Prisma.payment_of_appointment appointmentId w).
Qed.

Lemma addBill_run appointmentId input w ba s :
  Prisma.appointment_by_id appointmentId w = Some ba ->
  Prisma.service_by_id (add_service_id input) w = Some s ->
  let w1 := with_invoice env appointmentId ba w in
  let p := invoice_for env appointmentId ba w in
  let line := new_line env input p s w1 in
  addBillToAppointment env appointmentId input w
  = (Ok line,
     notify env (recomputed (Payment.id p) (line_added line w1))
       (bill_notes (Prisma.patient_by_id (Appointment.patient_id ba) w))).
Proof.
  intros Ha Hs w1 p line.
  unfold addBillToAppointment, Prisma.appointment_findUnique.
  rewrite bind_gets, Ha. rewrite addBill_invoice_step.
  fold w1 p. unfold Prisma.services_findUnique. rewrite bind_gets.
  assert (Hs1 : Prisma.service_by_id (add_service_id input) w1 = Some s).
  { rewrite <- Hs. unfold w1, with_invoice.
    by destruct (Prisma.payment_of_appointment appointmentId w). }
  rewrite Hs1. unfold bind at 1. cbn [Prisma.patientBills_create].
  fold (new_line env input p s w1). fold line. fold (line_added line w1).
  destruct (payment_by_own_id _ _ _
              (payment_of_appointment_with_invoice appointmentId ba w)) as [q Hq].
  fold w1 p in Hq.
  destruct (recalculate_bind (Payment.id p) (line_added line w1) q
              (fun _ =>
                 patient <- Prisma.patient_find_id (Appointment.patient_id ba) ;;
                 match patient with
                 | Some patient =>
                   match Patient.user_id patient with
                   | Some patient_user =>
                     when (JS.truthy_string patient_user)
                       (createNotification env (mkData patient_user "New Bill Generated"
                          "A new bill has been generated for your appointment."
                          (Some "/appointments")) ;;; ret tt)
                   | None => ret tt
                   end
                 | None => ret tt
                 end ;;;
                 ret line) Hq) as (summary & ->).
  unfold Prisma.patient_find_id. rewrite bind_gets.
  replace (Prisma.patient_by_id (Appointment.patient_id ba)
             (recomputed (Payment.id p) (line_added line w1)))
    with (Prisma.patient_by_id (Appointment.patient_id ba) w).
  2: { unfold w1, with_invoice.
       by destruct (Prisma.payment_of_appointment appointmentId w). }
  unfold bill_notes.
  destruct (Prisma.patient_by_id (Appointment.patient_id ba) w) as [pt|];
    [|run; reflexivity].
  destruct (Patient.user_id pt) as [pu|]; [|run; reflexivity].
  destruct (JS.truthy_string pu); run; reflexivity.
Qed.

(** The ways [editBillInAppointment] can end. *)
Lemma editBill_no_payment appointmentId billId data w :
  Prisma.payment_of_appointment appointmentId w = None ->
  editBillInAppointment env appointmentId billId data w
  = (Throw (Error "Payment not found"), w).
Proof.
  intros H. unfold editBillInAppointment, Prisma.payment_find_appointment_id.
  by rewrite bind_gets, H.
Qed.

Lemma editBill_no_bill appointmentId billId data w p :
  Prisma.payment_of_appointment appointmentId w = Some p ->
  Prisma.bill_by_id billId w = None ->
  editBillInAppointment env appointmentId billId data w
  = (Throw (Error "Bill not found"), w).
Proof.
  intros Hp Hb. unfold editBillInAppointment, Prisma.payment_find_appointment_id,
    Prisma.patientBills_findUnique.
  by rewrite bind_gets, Hp, bind_gets, Hb.
Qed.

Lemma editBill_no_service appointmentId billId data w p b0 :
  Prisma.payment_of_appointment appointmentId w = Some p ->
  Prisma.bill_by_id billId w = Some b0 ->
  JS.truthy_opt_Z (edit_service_id data) = true ->
  Prisma.service_by_id (JS.nullish (edit_service_id data) 0) w = None ->
  editBillInAppointment env appointmentId billId data w
  = (Throw (Error "Service not found"), w).
Proof.
  intros Hp Hb Ht Hs. unfold editBillInAppointment,
    Prisma.payment_find_appointment_id, Prisma.patientBills_findUnique,
    Prisma.services_findUnique.
  rewrite bind_gets, Hp, bind_gets, Hb, Ht.
  by rewrite bind_assoc, bind_gets, Hs.
Qed.

Lemma editBill_run appointmentId billId data w p b0 price :
  Prisma.payment_of_appointment appointmentId w = Some p ->
  Prisma.bill_by_id billId w = Some b0 ->
  (JS.truthy_opt_Z (edit_service_id data) = true ->
   exists s, Prisma.service_by_id (JS.nullish (edit_service_id data) 0) w = Some s
             /\ Services.price s = price) ->
  editBillInAppointment env appointmentId billId data w
  = (Ok (apply_bill_update (edit_data env data b0 price) b0),
     recomputed (Payment.id p)
       (line_updated billId (apply_bill_update (edit_data env data b0 price)) w)).
Proof.
  intros Hp Hb Hs. unfold editBillInAppointment,
    Prisma.payment_find_appointment_id, Prisma.patientBills_findUnique,
    Prisma.services_findUnique.
  rewrite bind_gets, Hp, bind_gets, Hb.
  destruct (payment_by_own_id _ _ _ Hp) as [q Hq].
  assert (Hfin : forall u,
    (updatedBill <- Prisma.patientBills_update billId (apply_bill_update u) ;;
     recalculatePaymentSummary (Payment.id p) ;;; ret updatedBill) w
    = (Ok (apply_bill_update u b0),
       recomputed (Payment.id p) (line_updated billId (apply_bill_update u) w))).
  { intros u. unfold bind at 1. unfold Prisma.patientBills_update. rewrite Hb.
    fold (line_updated billId (apply_bill_update u) w).
    destruct (recalculate_bind (Payment.id p)
                (line_updated billId (apply_bill_update u) w) q
                (fun _ => ret (apply_bill_update u b0)) Hq) as (summary & ->).
    reflexivity. }
  unfold edit_data.
  destruct (JS.truthy_opt_Z (edit_service_id data)) eqn:Hsid.
  - destruct (Hs eq_refl) as (s & Hfound & <-).
    rewrite bind_assoc, bind_gets, Hfound, bind_ret. cbv zeta.
    cbn [u_service_id u_unit_cost u_total_cost u_quantity u_service_date
         JS.truthy_opt_number andb].
    destruct (JS.truthy_opt_Z (edit_quantity data)),
      (JS.truthy_opt_string (edit_service_date data)),
      (JS.truthy_number (Services.price s)); apply Hfin.
  - rewrite bind_ret. cbv zeta.
    cbn [u_service_id u_unit_cost u_total_cost u_quantity u_service_date
         JS.truthy_opt_number andb].
    destruct (JS.truthy_opt_Z (edit_quantity data)),
      (JS.truthy_opt_string (edit_service_date data)); apply Hfin.
Qed.

(** The ways [deleteBillFromAppointment] can end. *)
Lemma deleteBill_no_payment appointmentId billId w :
  Prisma.payment_of_appointment appointmentId w = None ->
  deleteBillFromAppointment appointmentId billId w
  = (Throw (Error "Payment not found"), w).
Proof.
  intros H. unfold deleteBillFromAppointment, Prisma.payment_find_appointment_id.
  by rewrite bind_gets, H.
Qed.

Lemma deleteBill_no_bill appointmentId billId w p :
  Prisma.payment_of_appointment appointmentId w = Some p ->
  Prisma.bill_by_id billId w = None ->
  deleteBillFromAppointment appointmentId billId w
  = (Throw PrismaRecordNotFound, w).
Proof.
  intros Hp Hb. unfold deleteBillFromAppointment,
    Prisma.payment_find_appointment_id.
  rewrite bind_gets, Hp. unfold bind at 1, Prisma.patientBills_delete.
  by rewrite Hb.
Qed.

Lemma deleteBill_run appointmentId billId w p b0 :
  Prisma.payment_of_appointment appointmentId w = Some p ->
  Prisma.bill_by_id billId w = Some b0 ->
  deleteBillFromAppointment appointmentId billId w
  = (Ok true, recomputed (Payment.id p) (line_deleted billId w)).
Proof.
  intros Hp Hb. unfold deleteBillFromAppointment,
    Prisma.payment_find_appointment_id.
  rewrite bind_gets, Hp. unfold bind at 1, Prisma.patientBills_delete.
  rewrite Hb. fold (line_deleted billId w).
  destruct (payment_by_own_id _ _ _ Hp) as [q Hq].
  destruct (recalculate_bind (Payment.id p) (line_deleted billId w) q
              (fun _ => ret true) Hq) as (summary & ->).
  reflexivity.
Qed.

(** [editFinalBillSummary] on an appointment with an invoice. *)
Lemma editFinalBillSummary_run appointmentId data w p :
  Prisma.payment_of_appointment appointmentId w = Some p ->
  let w' := recomputed (Payment.id p)
              (payments_written (Payment.id p) (summary_edit env data) w) in
  editFinalBillSummary env appointmentId data w
  = (Ok (option_map (fun p' => (p', Prisma.bills_of (Payment.id p') w'))
           (Prisma.payment_by_id (Payment.id p) w')),
     w').
Proof.
  intros Hp w'. unfold editFinalBillSummary, Prisma.payment_find_appointment_id,
    Prisma.payment_findUnique, Prisma.payment_bills.
  rewrite bind_gets, Hp.
  destruct (payment_by_own_id _ _ _ Hp) as [q Hq].
  erewrite bind_Ok by (apply payment_update_run; exact Hq).
  fold (summary_edit env data).
  change (fun p0 : Payment.t => summary_edit env data p0) with (summary_edit env data).
  assert (Hq2 : exists q2,
    Prisma.payment_by_id (Payment.id p)
      (payments_written (Payment.id p) (summary_edit env data) w) = Some q2).
  { rewrite payment_by_id_written.
    - rewrite Hq. by eexists.
    - intros r. unfold summary_edit.
      by destruct (ef_discount data), (JS.truthy_opt_string _). }
  destruct Hq2 as [q2 Hq2].
  match goal with
  | |- bind (recalculatePaymentSummary _) ?k _ = _ =>
      destruct (recalculate_bind (Payment.id p) _ q2 k Hq2) as (summary & ->)
  end.
  fold w'. rewrite bind_gets.
  destruct (Prisma.payment_by_id (Payment.id p) w'); [|reflexivity].
  by rewrite bind_gets.
Qed.

(** What a recompute leaves of the invoice of an appointment. *)
Lemma invoice_after_recompute appointmentId w p :
  Prisma.payment_of_appointment appointmentId w = Some p ->
  Prisma.payment_of_appointment appointmentId (recomputed (Payment.id p) w)
  = Some (Payment.set_total_amount
            (sum_total_cost (Prisma.bills_of (Payment.id p) w)) p)
  /\ invoice_consistent (recomputed (Payment.id p) w)
       (Payment.set_total_amount
          (sum_total_cost (Prisma.bills_of (Payment.id p) w)) p).
Proof.
  intros Hp. split.
  - unfold recomputed. rewrite payment_of_appointment_written by reflexivity.
    rewrite Hp. cbn. unfold Prisma.payment_has_id. by rewrite Z.eqb_refl.
  - reflexivity.
Qed.

End BillingRuns.

Section BillingProperties.
Import DoctorService Ledger Outbox NotificationService Billing.
Variable env : Env.

Lemma map_update_where {A B} (g : A -> B) (P : A -> bool) (f : A -> A) l :
  (forall r, g (f r) = g r) ->
  map g (Prisma.update_where P f l) = map g l.
Proof.
  intros H. unfold Prisma.update_where. rewrite map_map. apply map_ext.
  intros r. destruct (P r); [apply H | reflexivity].
Qed.

Lemma bills_of_line_added b w :
  Prisma.bills_of (PatientBills.bill_id b) (line_added b w)
  = Prisma.bills_of (PatientBills.bill_id b) w ++ [b].
Proof.
  unfold Prisma.bills_of, line_added. cbn [patientBills with_patientBills].
  rewrite List.filter_app. cbn. by rewrite Z.eqb_refl.
Qed.

Lemma with_invoice_frame appointmentId ba w :
  patientBills (with_invoice env appointmentId ba w) = patientBills w /\
  next_bill_id (with_invoice env appointmentId ba w) = next_bill_id w /\
  appointments (with_invoice env appointmentId ba w) = appointments w /\
  notifications (with_invoice env appointmentId ba w) = notifications w.
Proof.
  unfold with_invoice.
  by destruct (Prisma.payment_of_appointment appointmentId w).
Qed.

Lemma notify_invoice w l appointmentId :
  Prisma.payment_of_appointment appointmentId (notify env w l)
  = Prisma.payment_of_appointment appointmentId w.
Proof.
  unfold Prisma.payment_of_appointment.
  by destruct (notify_frame env w l) as (_ & _ & _ & _ & _ & -> & _).
Qed.

Lemma notify_consistent w l p :
  invoice_consistent w p -> invoice_consistent (notify env w l) p.
Proof.
  unfold invoice_consistent, Prisma.bills_of.
  by destruct (notify_frame env w l) as (_ & _ & _ & _ & _ & _ & -> & _).
Qed.

(** X1.  A successful [addBillToAppointment] appends exactly one line.  The
    line copies the price of the service as its unit cost, costs the product
    of that price and the quantity, and belongs to the invoice of the
    appointment, whose cached total is afterwards what its lines sum to. *)
Theorem addBillToAppointment_adds_line appointmentId input w ba s :
  Prisma.appointment_by_id appointmentId w = Some ba ->
  Prisma.service_by_id (add_service_id input) w = Some s ->
  exists bill w' p',
    addBillToAppointment env appointmentId input w = (Ok bill, w') /\
    PatientBills.service_id bill = add_service_id input /\
    PatientBills.quantity bill = add_quantity input /\
    PatientBills.unit_cost bill = Services.price s /\
    PatientBills.total_cost bill
    = (Services.price s * JS.number_of_Z (add_quantity input))%float /\
    patientBills w' = patientBills w ++ [bill] /\
    Prisma.payment_of_appointment appointmentId w' = Some p' /\
    PatientBills.bill_id bill = Payment.id p' /\
    invoice_adds_up w' p'.
Proof.
  intros Ha Hs. pose proof (addBill_run env appointmentId input w ba s Ha Hs) as Hrun.
  cbv zeta in Hrun.
  set (w1 := with_invoice env appointmentId ba w) in *.
  set (p := invoice_for env appointmentId ba w) in *.
  set (line := new_line env input p s w1) in *.
  destruct (invoice_after_recompute appointmentId (line_added line w1) p
              (payment_of_appointment_with_invoice env appointmentId ba w))
    as [Hp' Hcons].
  eexists _, _, _. split; [exact Hrun|].
  do 4 (split; [reflexivity|]). split.
  { destruct (notify_frame env (recomputed (Payment.id p) (line_added line w1))
                (bill_notes (Prisma.patient_by_id (Appointment.patient_id ba) w)))
      as (_ & _ & _ & _ & _ & _ & -> & _).
    cbn. unfold w1.
    by destruct (with_invoice_frame appointmentId ba w) as (-> & _). }
  split; [rewrite notify_invoice; exact Hp'|].
  split; [reflexivity|]. apply adds_up_iff. by apply notify_consistent.
Qed.

(** X2.  [addBillToAppointment] creates the invoice lazily: when the
    appointment has none, a successful call appends one payment row for the
    appointment, with discount 0 and not finalized; when it has one, no row
    is added.  In both cases the rows that were there keep their appointment,
    discount and finalized flag. *)
Theorem addBillToAppointment_opens_invoice_once appointmentId input w ba s :
  Prisma.appointment_by_id appointmentId w = Some ba ->
  Prisma.service_by_id (add_service_id input) w = Some s ->
  exists bill w',
    addBillToAppointment env appointmentId input w = (Ok bill, w') /\
    (Prisma.payment_of_appointment appointmentId w = None ->
     map Payment.appointment_id (payments w')
     = map Payment.appointment_id (payments w) ++ [appointmentId] /\
     map Payment.finalized (payments w')
     = map Payment.finalized (payments w) ++ [false] /\
     map Payment.discount (payments w')
     = map Payment.discount (payments w) ++ [0%float]) /\
    (forall p, Prisma.payment_of_appointment appointmentId w = Some p ->
     map Payment.appointment_id (payments w')
     = map Payment.appointment_id (payments w) /\
     map Payment.finalized (payments w') = map Payment.finalized (payments w) /\
     map Payment.discount (payments w') = map Payment.discount (payments w)).
Proof.
  intros Ha Hs. pose proof (addBill_run env appointmentId input w ba s Ha Hs) as Hrun.
  cbv zeta in Hrun. eexists _, _. split; [exact Hrun|].
  match goal with
  | |- context [payments (notify env ?W ?l)] =>
      destruct (notify_frame env W l) as (_ & _ & _ & _ & _ & -> & _)
  end.
  unfold recomputed, payments_written. cbn [payments with_payments line_added
    with_patientBills].
  rewrite !map_update_where by reflexivity.
  unfold with_invoice. split.
  - intros ->. cbn [payments with_payments]. rewrite !map_app. by repeat split.
  - intros p ->. by repeat split.
Qed.

(** X3.  How [addBillToAppointment] fails.  Without the appointment it throws
    "Appointment not found" and writes nothing.  With the appointment but
    without the service it throws "Service not found" and adds no line; yet
    if the appointment had no invoice, the empty invoice created on the way
    stays in the database. *)
Theorem addBillToAppointment_failures appointmentId input w :
  (Prisma.appointment_by_id appointmentId w = None ->
   addBillToAppointment env appointmentId input w
   = (Throw (Error "Appointment not found"), w))
  /\
  (forall ba,
     Prisma.appointment_by_id appointmentId w = Some ba ->
     Prisma.service_by_id (add_service_id input) w = None ->
     exists w',
       addBillToAppointment env appointmentId input w
       = (Throw (Error "Service not found"), w') /\
       patientBills w' = patientBills w /\
       (forall p, Prisma.payment_of_appointment appointmentId w = Some p -> w' = w) /\
       (Prisma.payment_of_appointment appointmentId w = None ->
        payments w'
        = payments w
          ++ [Payment.mk (next_payment_id w) appointmentId
                (Appointment.patient_id ba) (now env) (now env) 0%float 0%float 0%float
                "CASH" "UNPAID" false])).
Proof.
  split; [apply addBill_no_appointment|].
  intros ba Ha Hs. eexists. split; [by apply addBill_no_service|].
  unfold with_invoice.
  destruct (Prisma.payment_of_appointment appointmentId w) as [p|].
  - by repeat split.
  - split; [reflexivity|]. split; [discriminate | reflexivity].
Qed.

(** X4.  On an appointment whose invoice adds up, a successful
    [addBillToAppointment] makes the invoice total the old total plus the
    product of the price and the quantity, and leaves its discount and
    finalized flag alone. *)
Theorem addBillToAppointment_raises_total appointmentId input w ba s p :
  Prisma.appointment_by_id appointmentId w = Some ba ->
  Prisma.service_by_id (add_service_id input) w = Some s ->
  Prisma.payment_of_appointment appointmentId w = Some p ->
  invoice_adds_up w p ->
  exists bill w' p',
    addBillToAppointment env appointmentId input w = (Ok bill, w') /\
    Prisma.payment_of_appointment appointmentId w' = Some p' /\
    Payment.total_amount p'
    = (Payment.total_amount p
       + Services.price s * JS.number_of_Z (add_quantity input))%float /\
    Payment.discount p' = Payment.discount p /\
    Payment.finalized p' = Payment.finalized p.
Proof.
  intros Ha Hs Hp Hcons. apply adds_up_iff in Hcons.
  pose proof (addBill_run env appointmentId input w ba s Ha Hs) as Hrun.
  cbv zeta in Hrun.
  pose proof (payment_of_appointment_with_invoice env appointmentId ba w) as Hp1.
  revert Hrun Hp1. unfold with_invoice, invoice_for. rewrite Hp. intros Hrun Hp1.
  set (line := new_line env input p s w) in *.
  destruct (invoice_after_recompute appointmentId (line_added line w) p Hp1)
    as [Hp' _].
  eexists _, _, _. split; [exact Hrun|].
  split; [rewrite notify_invoice; exact Hp'|].
  split; [|by split].
  cbn [Payment.total_amount Payment.set_total_amount].
  change (Payment.id p) with (PatientBills.bill_id line).
  rewrite bills_of_line_added, sum_total_cost_snoc.
  by rewrite Hcons.
Qed.

End BillingProperties.

(** The sample hospital with fractional prices adds up, by the definition of
    a sum. *)
Lemma Sample5_ledger_adds_up : Ledger.ledger_adds_up Sample5.world.
Proof.
  intros p [<-|[<-|[<-|[]]]].
  - apply (Ledger.sums_to_snoc [Sample5.line1; Sample5.line2] Sample5.line3
             0.30000000000000004%float).
    apply (Ledger.sums_to_snoc [Sample5.line1] Sample5.line2 0.1%float).
    apply (Ledger.sums_to_snoc [] Sample5.line1 0%float), Ledger.sums_to_nil.
  - apply (Ledger.sums_to_snoc [Sample5.line4] Sample5.line5 33%float).
    apply (Ledger.sums_to_snoc [] Sample5.line4 0%float), Ledger.sums_to_nil.
  - apply (Ledger.sums_to_snoc [Sample5.line6] Sample5.line7 100%float).
    apply (Ledger.sums_to_snoc [] Sample5.line6 0%float), Ledger.sums_to_nil.
Qed.

(** Identify the outcome a theorem speaks of with the outcome of the run. *)
Ltac same_run Hthm Hrun :=
  rewrite Hrun in Hthm;
  let Hw := fresh "Hw" in
  let Hr := fresh "Hr" in
  pose proof (f_equal snd Hthm) as Hw;
  pose proof (f_equal fst Hthm) as Hr;
  cbn [fst snd] in Hw, Hr;
  subst;
  injection Hr as <-.

(** Three dressings at 0.1 are added to the invoice of 0.1 + 0.2 + 100: the
    line costs 0.30000000000000004 and the four lines sum to 100.6. *)
Lemma addBillToAppointment_adds_line_witness :
  exists bill w' p',
    DoctorService.addBillToAppointment Sample.env 1
      (DoctorService.mkAdd 7 3 "2023-11-15") Sample5.world = (Ok bill, w') /\
    PatientBills.unit_cost bill = 0.1%float /\
    PatientBills.total_cost bill = 0.30000000000000004%float /\
    patientBills w' = patientBills Sample5.world ++ [bill] /\
    Prisma.payment_of_appointment 1 w' = Some p' /\
    Prisma.bills_of (Payment.id p') w'
    = [Sample5.line1; Sample5.line2; Sample5.line3; bill] /\
    Payment.total_amount p' = 100.6%float /\
    Ledger.invoice_adds_up w' p'.
Proof.
  destruct (addBillToAppointment_adds_line Sample.env 1
              (DoctorService.mkAdd 7 3 "2023-11-15") Sample5.world
              Sample.appointment1 Sample5.dressing eq_refl eq_refl)
    as (bill & w' & p' & Hrun & _ & _ & Hu & Ht & Hb & Hp & Hid & Hc).
  pose proof (addBill_run Sample.env 1 (DoctorService.mkAdd 7 3 "2023-11-15")
                Sample5.world Sample.appointment1 Sample5.dressing eq_refl eq_refl)
    as Hrun2.
  cbv zeta in Hrun2. same_run Hrun Hrun2.
  vm_compute in Hp. injection Hp as <-.
  eexists _, _, _. split; [exact Hrun2|].
  split; [reflexivity|]. split; [reflexivity|]. split; [exact Hb|].
  split; [reflexivity|]. split; [reflexivity|]. split; [reflexivity|].
  exact Hc.
Defined.

Lemma addBillToAppointment_opens_invoice_once_witness :
  exists bill w',
    DoctorService.addBillToAppointment Sample.env 1
      (DoctorService.mkAdd 5 2 "2023-11-15") Sample.world = (Ok bill, w') /\
    map Payment.finalized (payments w') = [false; true].
Proof.
  destruct (addBillToAppointment_opens_invoice_once Sample.env 1
              (DoctorService.mkAdd 5 2 "2023-11-15") Sample.world
              Sample.appointment1 Sample.consultation eq_refl eq_refl)
    as (bill & w' & Hrun & _ & Hsome).
  exists bill, w'. split; [exact Hrun|].
  by destruct (Hsome Sample.payment1 eq_refl) as (_ & -> & _).
Defined.

Lemma addBillToAppointment_failures_witness :
  exists w',
    DoctorService.addBillToAppointment Sample.env 1
      (DoctorService.mkAdd 9 2 "2023-11-15") Sample.world
    = (Throw (Error "Service not found"), w') /\
    patientBills w' = patientBills Sample.world.
Proof.
  destruct (proj2 (addBillToAppointment_failures Sample.env 1
                     (DoctorService.mkAdd 9 2 "2023-11-15") Sample.world)
              Sample.appointment1 eq_refl eq_refl)
    as (w' & Hrun & Hb & _).
  by exists w'.
Defined.

Lemma addBillToAppointment_raises_total_witness :
  exists bill w' p',
    DoctorService.addBillToAppointment Sample.env 1
      (DoctorService.mkAdd 7 3 "2023-11-15") Sample5.world = (Ok bill, w') /\
    Prisma.payment_of_appointment 1 w' = Some p' /\
    Payment.total_amount Sample5.payment1 = 100.3%float /\
    Payment.total_amount p' = 100.6%float.
Proof.
  destruct (addBillToAppointment_raises_total Sample.env 1
              (DoctorService.mkAdd 7 3 "2023-11-15") Sample5.world
              Sample.appointment1 Sample5.dressing Sample5.payment1
              eq_refl eq_refl eq_refl
              (Sample5_ledger_adds_up Sample5.payment1 (or_introl eq_refl)))
    as (bill & w' & p' & Hrun & Hp & Ht & _).
  exists bill, w', p'. split; [exact Hrun|]. split; [exact Hp|].
  split; [reflexivity|]. rewrite Ht. reflexivity.
Defined.

Section EditAndDelete.
Import DoctorService Ledger Outbox NotificationService Billing.
Variable env : Env.

Lemma truthy_opt_Z_Some q : q <> 0 -> JS.truthy_opt_Z (Some q) = true.
Proof. intros H. cbn. unfold JS.truthy_Z. by apply negb_true_iff, Z.eqb_neq. Qed.

Lemma truthy_opt_Z_absent o :
  o = None \/ o = Some 0 -> JS.truthy_opt_Z o = false.
Proof. by intros [-> | ->]. Qed.

Lemma bill_by_id_line_updated billId f w b0 :
  Prisma.bill_by_id billId w = Some b0 ->
  (forall r, PatientBills.id (f r) = PatientBills.id r) ->
  Prisma.bill_by_id billId (line_updated billId f w) = Some (f b0).
Proof.
  intros Hb Hf. unfold Prisma.bill_by_id, line_updated in *.
  cbn [patientBills with_patientBills].
  rewrite find_update_where by (intros r; unfold Prisma.bill_has_id; by rewrite Hf).
  rewrite Hb. cbn. by apply find_some in Hb as [_ ->].
Qed.

(** What every successful edit has in common. *)
Lemma editBill_common appointmentId billId data w p b0 price :
  Prisma.payment_of_appointment appointmentId w = Some p ->
  Prisma.bill_by_id billId w = Some b0 ->
  (JS.truthy_opt_Z (edit_service_id data) = true ->
   exists s, Prisma.service_by_id (JS.nullish (edit_service_id data) 0) w = Some s
             /\ Services.price s = price) ->
  exists w' p',
    editBillInAppointment env appointmentId billId data w
    = (Ok (apply_bill_update (edit_data env data b0 price) b0), w') /\
    Prisma.bill_by_id billId w'
    = Some (apply_bill_update (edit_data env data b0 price) b0) /\
    Prisma.payment_of_appointment appointmentId w' = Some p' /\
    invoice_adds_up w' p' /\
    map Payment.finalized (payments w') = map Payment.finalized (payments w) /\
    map Payment.discount (payments w') = map Payment.discount (payments w).
Proof.
  intros Hp Hb Hs.
  destruct (invoice_after_recompute appointmentId
              (line_updated billId
                 (apply_bill_update (edit_data env data b0 price)) w) p Hp)
    as [Hp' Hcons].
  eexists _, _. split; [by apply editBill_run|].
  split; [by apply (bill_by_id_line_updated billId _ w b0)|].
  split; [exact Hp'|]. split; [by apply adds_up_iff|].
  unfold recomputed, payments_written, line_updated.
  cbn [payments with_payments with_patientBills].
  by rewrite !map_update_where.
Qed.

(** X5.  Editing the quantity alone (no service, or service id 0): the line
    gets the new quantity and costs the product of its old unit cost and the
    new quantity; unit cost, service and invoice of the line stay; the
    invoice of the appointment is recomputed, and adds up afterwards. *)
Theorem editBillInAppointment_quantity appointmentId billId data w p b0 q :
  Prisma.payment_of_appointment appointmentId w = Some p ->
  Prisma.bill_by_id billId w = Some b0 ->
  edit_service_id data = None \/ edit_service_id data = Some 0 ->
  edit_quantity data = Some q ->
  q <> 0 ->
  exists b' w' p',
    editBillInAppointment env appointmentId billId data w = (Ok b', w') /\
    PatientBills.quantity b' = q /\
    PatientBills.unit_cost b' = PatientBills.unit_cost b0 /\
    PatientBills.total_cost b' = (PatientBills.unit_cost b0 * JS.number_of_Z q)%float /\
    PatientBills.service_id b' = PatientBills.service_id b0 /\
    PatientBills.bill_id b' = PatientBills.bill_id b0 /\
    Prisma.bill_by_id billId w' = Some b' /\
    Prisma.payment_of_appointment appointmentId w' = Some p' /\
    invoice_adds_up w' p'.
Proof.
  intros Hp Hb Hs Hq Hq0. apply truthy_opt_Z_absent in Hs.
  destruct (editBill_common appointmentId billId data w p b0 0%float Hp Hb)
    as (w' & p' & Hrun & Hb' & Hp' & Hc & _).
  { rewrite Hs. discriminate. }
  eexists _, w', p'. split; [exact Hrun|].
  unfold edit_data. rewrite Hs, Hq, (truthy_opt_Z_Some q Hq0).
  cbn [andb apply_bill_update JS.nullish u_service_id u_unit_cost u_total_cost
       u_quantity u_service_date PatientBills.quantity PatientBills.unit_cost
       PatientBills.total_cost PatientBills.service_id PatientBills.bill_id].
  do 5 (split; [reflexivity|]).
  split; [|by split].
  revert Hb'. unfold edit_data. by rewrite Hs, Hq, (truthy_opt_Z_Some q Hq0).
Qed.

(** X6.  Editing service and quantity together: the line takes the new
    service, its price as unit cost, and the new quantity.  Its total cost is
    the product price times quantity when the price is truthy; when the new
    service is free (price 0, a falsy number), the total cost is the product
    of the OLD unit cost and the quantity, so it is not the new unit cost
    times the quantity. *)
Theorem editBillInAppointment_service_and_quantity
    appointmentId billId data w p b0 sid s q :
  Prisma.payment_of_appointment appointmentId w = Some p ->
  Prisma.bill_by_id billId w = Some b0 ->
  edit_service_id data = Some sid ->
  sid <> 0 ->
  Prisma.service_by_id sid w = Some s ->
  edit_quantity data = Some q ->
  q <> 0 ->
  exists b' w',
    editBillInAppointment env appointmentId billId data w = (Ok b', w') /\
    PatientBills.service_id b' = sid /\
    PatientBills.unit_cost b' = Services.price s /\
    PatientBills.quantity b' = q /\
    (JS.truthy_number (Services.price s) = true ->
     PatientBills.total_cost b' = (Services.price s * JS.number_of_Z q)%float) /\
    (JS.truthy_number (Services.price s) = false ->
     PatientBills.total_cost b' = (PatientBills.unit_cost b0 * JS.number_of_Z q)%float).
Proof.
  intros Hp Hb Hsid Hsid0 Hs Hq Hq0.
  destruct (editBill_common appointmentId billId data w p b0 (Services.price s) Hp Hb)
    as (w' & p' & Hrun & _).
  { intros _. exists s. by rewrite Hsid. }
  eexists _, w'. split; [exact Hrun|].
  unfold edit_data.
  rewrite Hsid, Hq, (truthy_opt_Z_Some sid Hsid0), (truthy_opt_Z_Some q Hq0).
  cbn [andb apply_bill_update JS.nullish u_service_id u_unit_cost u_total_cost
       u_quantity u_service_date PatientBills.quantity PatientBills.unit_cost
       PatientBills.total_cost PatientBills.service_id].
  do 3 (split; [reflexivity|]). split.
  - intros ->. reflexivity.
  - intros ->. reflexivity.
Qed.

(** X7.  Editing the service alone: the line takes the new service and its
    price, keeps its quantity, and costs the new price times that quantity.
    With a quantity of 0 in the request the quantity is kept as well, but the
    total cost is written as price times 0. *)
Theorem editBillInAppointment_service_only appointmentId billId data w p b0 sid s :
  Prisma.payment_of_appointment appointmentId w = Some p ->
  Prisma.bill_by_id billId w = Some b0 ->
  edit_service_id data = Some sid ->
  sid <> 0 ->
  Prisma.service_by_id sid w = Some s ->
  exists b' w',
    editBillInAppointment env appointmentId billId data w = (Ok b', w') /\
    (edit_quantity data = None \/ edit_quantity data = Some 0 ->
     PatientBills.service_id b' = sid /\
     PatientBills.unit_cost b' = Services.price s /\
     PatientBills.quantity b' = PatientBills.quantity b0) /\
    (edit_quantity data = None ->
     PatientBills.total_cost b'
     = (Services.price s * JS.number_of_Z (PatientBills.quantity b0))%float) /\
    (edit_quantity data = Some 0 ->
     PatientBills.total_cost b' = (Services.price s * JS.number_of_Z 0)%float).
Proof.
  intros Hp Hb Hsid Hsid0 Hs.
  destruct (editBill_common appointmentId billId data w p b0 (Services.price s) Hp Hb)
    as (w' & p' & Hrun & _).
  { intros _. exists s. by rewrite Hsid. }
  eexists _, w'. split; [exact Hrun|].
  unfold edit_data. rewrite Hsid, (truthy_opt_Z_Some sid Hsid0).
  split; [|split].
  - intros Hq. rewrite (truthy_opt_Z_absent _ Hq). by repeat split.
  - intros ->. reflexivity.
  - intros ->. reflexivity.
Qed.

(** X8.  Falsy fields are ignored: a request whose service id is absent or
    0, whose quantity is absent or 0 and whose date is absent or empty
    succeeds and leaves every line exactly as it was. *)
Theorem editBillInAppointment_ignores_falsy appointmentId billId data w p b0 :
  Prisma.payment_of_appointment appointmentId w = Some p ->
  Prisma.bill_by_id billId w = Some b0 ->
  edit_service_id data = None \/ edit_service_id data = Some 0 ->
  edit_quantity data = None \/ edit_quantity data = Some 0 ->
  edit_service_date data = None \/ edit_service_date data = Some "" ->
  exists w',
    editBillInAppointment env appointmentId billId data w = (Ok b0, w') /\
    patientBills w' = patientBills w.
Proof.
  intros Hp Hb Hs Hq Hd.
  apply truthy_opt_Z_absent in Hs. apply truthy_opt_Z_absent in Hq.
  assert (Hd' : JS.truthy_opt_string (edit_service_date data) = false)
    by (by destruct Hd as [-> | ->]).
  pose proof (editBill_run env appointmentId billId data w p b0 0%float Hp Hb) as Hrun.
  rewrite Hs in Hrun. specialize (Hrun ltac:(discriminate)).
  unfold edit_data in Hrun. rewrite Hs, Hq, Hd' in Hrun.
  assert (Hid : forall b, apply_bill_update (mkBillUpdate None None None None None) b = b)
    by (by intros []).
  rewrite Hid in Hrun. eexists. split; [exact Hrun|].
  unfold recomputed, payments_written, line_updated, Prisma.update_where.
  cbn [patientBills with_payments with_patientBills].
  rewrite <- (map_id (patientBills w)) at 2. apply map_ext.
  intros b. destruct (Prisma.bill_has_id billId b); [apply Hid | reflexivity].
Qed.

(** X9.  How [editBillInAppointment] fails: without an invoice for the
    appointment "Payment not found", without the line "Bill not found", with
    a service id that names no service "Service not found"; nothing is
    written in any of the three cases. *)
Theorem editBillInAppointment_failures appointmentId billId data w :
  (Prisma.payment_of_appointment appointmentId w = None ->
   editBillInAppointment env appointmentId billId data w
   = (Throw (Error "Payment not found"), w))
  /\
  (forall p,
     Prisma.payment_of_appointment appointmentId w = Some p ->
     Prisma.bill_by_id billId w = None ->
     editBillInAppointment env appointmentId billId data w
     = (Throw (Error "Bill not found"), w))
  /\
  (forall p b0 sid,
     Prisma.payment_of_appointment appointmentId w = Some p ->
     Prisma.bill_by_id billId w = Some b0 ->
     edit_service_id data = Some sid ->
     sid <> 0 ->
     Prisma.service_by_id sid w = None ->
     editBillInAppointment env appointmentId billId data w
     = (Throw (Error "Service not found"), w)).
Proof.
  split; [apply editBill_no_payment|].
  split; [apply editBill_no_bill|].
  intros p b0 sid Hp Hb Hsid Hsid0 Hs.
  apply (editBill_no_service env appointmentId billId data w p b0 Hp Hb).
  - rewrite Hsid. by apply truthy_opt_Z_Some.
  - by rewrite Hsid.
Qed.

Lemma find_filter_other {A} (P Q : A -> bool) l :
  (forall x, P x = true -> Q x = true) ->
  List.find P (List.filter Q l) = List.find P l.
Proof.
  intros H. induction l as [|x l IH]; [reflexivity|]. cbn.
  destruct (P x) eqn:HP.
  - rewrite (H x HP). cbn. by rewrite HP.
  - destruct (Q x); cbn; [by rewrite HP|exact IH].
Qed.

(** X10.  A successful [deleteBillFromAppointment] removes the rows with the
    given line id and no other row, and recomputes the invoice of the
    appointment, which adds up afterwards. *)
Theorem deleteBillFromAppointment_removes_line appointmentId billId w p b0 :
  Prisma.payment_of_appointment appointmentId w = Some p ->
  Prisma.bill_by_id billId w = Some b0 ->
  exists w' p',
    deleteBillFromAppointment appointmentId billId w = (Ok true, w') /\
    Prisma.bill_by_id billId w' = None /\
    (forall b, In b (patientBills w') <->
               In b (patientBills w) /\ PatientBills.id b <> billId) /\
    (forall other, other <> billId ->
       Prisma.bill_by_id other w' = Prisma.bill_by_id other w) /\
    Prisma.payment_of_appointment appointmentId w' = Some p' /\
    invoice_adds_up w' p'.
Proof.
  intros Hp Hb.
  destruct (invoice_after_recompute appointmentId (line_deleted billId w) p Hp)
    as [Hp' Hcons].
  apply adds_up_iff in Hcons.
  eexists _, _. split; [by apply (deleteBill_run appointmentId billId w p b0)|].
  split; [|split; [|split; [|by split]]].
  - unfold Prisma.bill_by_id, recomputed, payments_written, line_deleted.
    cbn [patientBills with_payments with_patientBills].
    destruct (List.find _ _) as [x|] eqn:E; [|reflexivity].
    apply find_some in E as [Hin Hx]. apply filter_In in Hin as [_ Hn].
    by rewrite Hx in Hn.
  - intros b. unfold recomputed, payments_written, line_deleted.
    cbn [patientBills with_payments with_patientBills].
    rewrite filter_In. unfold Prisma.bill_has_id.
    by rewrite negb_true_iff, Z.eqb_neq.
  - intros other Hne. unfold Prisma.bill_by_id, recomputed, payments_written,
      line_deleted. cbn [patientBills with_payments with_patientBills].
    apply find_filter_other. unfold Prisma.bill_has_id.
    intros x Hx. apply Z.eqb_eq in Hx. apply negb_true_iff, Z.eqb_neq. congruence.
Qed.

(** X11.  How [deleteBillFromAppointment] fails: without an invoice for the
    appointment it throws "Payment not found"; with an invoice but without
    the line, Prisma's delete throws; nothing is written and no total is
    recomputed in either case. *)
Theorem deleteBillFromAppointment_failures appointmentId billId w :
  (Prisma.payment_of_appointment appointmentId w = None ->
   deleteBillFromAppointment appointmentId billId w
   = (Throw (Error "Payment not found"), w))
  /\
  (forall p,
     Prisma.payment_of_appointment appointmentId w = Some p ->
     Prisma.bill_by_id billId w = None ->
     deleteBillFromAppointment appointmentId billId w
     = (Throw PrismaRecordNotFound, w)).
Proof. split; [apply deleteBill_no_payment | apply deleteBill_no_bill]. Qed.

End EditAndDelete.

(** The dressing at 0.1 is edited to quantity 3: it costs
    0.30000000000000004, and the invoice sums to 0.30000000000000004 + 0.2 +
    100, which is 100.5. *)
Lemma editBillInAppointment_quantity_witness :
  exists b' w' p',
    DoctorService.editBillInAppointment Sample.env 1 1
      (DoctorService.mkEdit None (Some 3) None) Sample5.world = (Ok b', w') /\
    PatientBills.quantity b' = 3 /\
    PatientBills.total_cost b' = 0.30000000000000004%float /\
    Prisma.bill_by_id 1 w' = Some b' /\
    Prisma.payment_of_appointment 1 w' = Some p' /\
    Prisma.bills_of (Payment.id p') w' = [b'; Sample5.line2; Sample5.line3] /\
    Payment.total_amount p' = 100.5%float /\
    Ledger.invoice_adds_up w' p'.
Proof.
  destruct (editBillInAppointment_quantity Sample.env 1 1
              (DoctorService.mkEdit None (Some 3) None) Sample5.world
              Sample5.payment1 Sample5.line1 3 eq_refl eq_refl
              (or_introl eq_refl) eq_refl ltac:(discriminate))
    as (b' & w' & p' & Hrun & Hq & _ & Ht & _ & _ & Hb & Hp & Hc).
  pose proof (editBill_run Sample.env 1 1 (DoctorService.mkEdit None (Some 3) None)
                Sample5.world Sample5.payment1 Sample5.line1 0%float
                eq_refl eq_refl ltac:(discriminate)) as Hrun2.
  same_run Hrun Hrun2.
  vm_compute in Hp. injection Hp as <-.
  eexists _, _, _. split; [exact Hrun2|].
  split; [reflexivity|]. split; [reflexivity|]. split; [exact Hb|].
  split; [reflexivity|]. split; [reflexivity|]. split; [reflexivity|].
  exact Hc.
Defined.

(** The injection at 0.2 becomes three dressings at 0.1: unit cost 0.1, total
    cost 0.30000000000000004.  It becomes four free check-ups: unit cost 0,
    and a total cost of 0.2 * 4 = 0.8, from the old unit cost. *)
Lemma editBillInAppointment_service_and_quantity_witness :
  (exists b' w',
     DoctorService.editBillInAppointment Sample.env 1 2
       (DoctorService.mkEdit (Some 7) (Some 3) None) Sample5.world = (Ok b', w') /\
     PatientBills.unit_cost b' = 0.1%float /\
     PatientBills.quantity b' = 3 /\
     PatientBills.total_cost b' = 0.30000000000000004%float)
  /\
  (exists b' w',
     DoctorService.editBillInAppointment Sample.env 1 2
       (DoctorService.mkEdit (Some 6) (Some 4) None) Sample5.world = (Ok b', w') /\
     PatientBills.unit_cost b' = 0%float /\
     PatientBills.quantity b' = 4 /\
     PatientBills.total_cost b' = 0.8%float).
Proof.
  split.
  - destruct (editBillInAppointment_service_and_quantity Sample.env 1 2
                (DoctorService.mkEdit (Some 7) (Some 3) None)
                Sample5.world Sample5.payment1 Sample5.line2 7
                Sample5.dressing 3 eq_refl eq_refl eq_refl
                ltac:(discriminate) eq_refl eq_refl ltac:(discriminate))
      as (b' & w' & Hrun & _ & Hu & Hq & Hpaid & _).
    exists b', w'. split; [exact Hrun|]. split; [exact Hu|]. split; [exact Hq|].
    rewrite (Hpaid eq_refl). reflexivity.
  - destruct (editBillInAppointment_service_and_quantity Sample.env 1 2
                (DoctorService.mkEdit (Some 6) (Some 4) None)
                Sample5.world Sample5.payment1 Sample5.line2 6
                Sample2.free_checkup 4 eq_refl eq_refl eq_refl
                ltac:(discriminate) eq_refl eq_refl ltac:(discriminate))
      as (b' & w' & Hrun & _ & Hu & Hq & _ & Hfree).
    exists b', w'. split; [exact Hrun|]. split; [exact Hu|]. split; [exact Hq|].
    rewrite (Hfree eq_refl). reflexivity.
Defined.

(** Two scans at 33 become two dressings at 0.1: the quantity stays and the
    line costs 0.1 * 2 = 0.2. *)
Lemma editBillInAppointment_service_only_witness :
  exists b' w',
    DoctorService.editBillInAppointment Sample.env 2 5
      (DoctorService.mkEdit (Some 7) None None) Sample5.world = (Ok b', w') /\
    PatientBills.service_id b' = 7 /\
    PatientBills.unit_cost b' = 0.1%float /\
    PatientBills.quantity b' = 2 /\
    PatientBills.total_cost b' = 0.2%float.
Proof.
  destruct (editBillInAppointment_service_only Sample.env 2 5
              (DoctorService.mkEdit (Some 7) None None)
              Sample5.world Sample5.payment2 Sample5.line5 7
              Sample5.dressing eq_refl eq_refl eq_refl
              ltac:(discriminate) eq_refl)
    as (b' & w' & Hrun & Hkeep & Hcost & _).
  exists b', w'. split; [exact Hrun|].
  destruct (Hkeep (or_introl eq_refl)) as (Hs & Hu & Hq).
  split; [exact Hs|]. split; [exact Hu|]. split; [exact Hq|].
  rewrite (Hcost eq_refl). reflexivity.
Defined.

Lemma editBillInAppointment_ignores_falsy_witness :
  exists w',
    DoctorService.editBillInAppointment Sample.env 1 1
      (DoctorService.mkEdit (Some 0) (Some 0) (Some "")) Sample.world
    = (Ok Sample.bill1, w') /\
    patientBills w' = patientBills Sample.world.
Proof.
  apply (editBillInAppointment_ignores_falsy Sample.env 1 1
           (DoctorService.mkEdit (Some 0) (Some 0) (Some "")) Sample.world
           Sample.payment1 Sample.bill1 eq_refl eq_refl
           (or_intror eq_refl) (or_intror eq_refl) (or_intror eq_refl)).
Defined.

Lemma editBillInAppointment_failures_witness :
  DoctorService.editBillInAppointment Sample.env 1 99
    (DoctorService.mkEdit None (Some 3) None) Sample.world
  = (Throw (Error "Bill not found"), Sample.world)
  /\
  DoctorService.editBillInAppointment Sample.env 1 1
    (DoctorService.mkEdit (Some 9) None None) Sample.world
  = (Throw (Error "Service not found"), Sample.world).
Proof.
  split.
  - apply (proj1 (proj2 (editBillInAppointment_failures Sample.env 1 99
             (DoctorService.mkEdit None (Some 3) None) Sample.world))
             Sample.payment1 eq_refl eq_refl).
  - apply (proj2 (proj2 (editBillInAppointment_failures Sample.env 1 1
             (DoctorService.mkEdit (Some 9) None None) Sample.world))
             Sample.payment1 Sample.bill1 9 eq_refl eq_refl eq_refl
             ltac:(discriminate) eq_refl).
Defined.

(** The consultation is deleted from the invoice of 0.1 + 0.2 + 100: the two
    lines left sum to 0.30000000000000004. *)
Lemma deleteBillFromAppointment_removes_line_witness :
  exists w' p',
    DoctorService.deleteBillFromAppointment 1 3 Sample5.world = (Ok true, w') /\
    Prisma.bill_by_id 3 w' = None /\
    Prisma.bill_by_id 2 w' = Some Sample5.line2 /\
    Prisma.payment_of_appointment 1 w' = Some p' /\
    Prisma.bills_of (Payment.id p') w' = [Sample5.line1; Sample5.line2] /\
    Payment.total_amount p' = 0.30000000000000004%float /\
    Ledger.invoice_adds_up w' p'.
Proof.
  destruct (deleteBillFromAppointment_removes_line 1 3 Sample5.world
              Sample5.payment1 Sample5.line3 eq_refl eq_refl)
    as (w' & p' & Hrun & Hgone & _ & Hother & Hp & Hc).
  pose proof (deleteBill_run 1 3 Sample5.world Sample5.payment1 Sample5.line3
                eq_refl eq_refl) as Hrun2.
  rewrite Hrun2 in Hrun.
  pose proof (f_equal snd Hrun) as Hw. cbn [snd] in Hw. subst w'.
  vm_compute in Hp. injection Hp as <-.
  eexists _, _. split; [exact Hrun2|]. split; [exact Hgone|].
  split; [reflexivity|]. split; [reflexivity|]. split; [reflexivity|].
  split; [reflexivity|]. exact Hc.
Defined.

Lemma deleteBillFromAppointment_failures_witness :
  DoctorService.deleteBillFromAppointment 1 99 Sample.world
  = (Throw PrismaRecordNotFound, Sample.world).
Proof.
  apply (proj2 (deleteBillFromAppointment_failures 1 99 Sample.world)
           Sample.payment1 eq_refl eq_refl).
Defined.

(** ** Billing: the summary of an invoice and its finalization *)

Section Summary.
Import DoctorService Ledger Outbox NotificationService Billing.
Variable env : Env.

Lemma payment_has_own_id p : Prisma.payment_has_id (Payment.id p) p = true.
Proof. apply Z.eqb_refl. Qed.

Lemma summary_edit_fields data p :
  Payment.id (summary_edit env data p) = Payment.id p /\
  Payment.appointment_id (summary_edit env data p) = Payment.appointment_id p /\
  Payment.finalized (summary_edit env data p) = Payment.finalized p /\
  Payment.discount (summary_edit env data p)
  = JS.nullish (ef_discount data) (Payment.discount p) /\
  Payment.bill_date (summary_edit env data p)
  = (if JS.truthy_opt_string (ef_bill_date data)
     then Date_parse env (JS.nullish (ef_bill_date data) "")
     else Payment.bill_date p).
Proof.
  unfold summary_edit.
  by destruct (ef_discount data), (JS.truthy_opt_string (ef_bill_date data)).
Qed.

(** X12.  [editFinalBillSummary].  Without an invoice for the appointment it
    throws "Payment not found" and writes nothing.  Otherwise it succeeds and
    returns the stored invoice with its lines: the discount is the one given
    whenever one is given (0 included), the bill date is replaced only by a
    non-empty date, the finalized flag is kept, the total becomes what the
    lines sum to, and no line is touched. *)
Theorem editFinalBillSummary_spec appointmentId data w :
  (Prisma.payment_of_appointment appointmentId w = None ->
   editFinalBillSummary env appointmentId data w
   = (Throw (Error "Payment not found"), w))
  /\
  (forall p,
     Prisma.payment_of_appointment appointmentId w = Some p ->
     Prisma.payment_by_id (Payment.id p) w = Some p ->
     exists p' w',
       editFinalBillSummary env appointmentId data w
       = (Ok (Some (p', Prisma.bills_of (Payment.id p) w)), w') /\
       Prisma.payment_of_appointment appointmentId w' = Some p' /\
       Payment.discount p' = JS.nullish (ef_discount data) (Payment.discount p) /\
       Payment.bill_date p'
       = (if JS.truthy_opt_string (ef_bill_date data)
          then Date_parse env (JS.nullish (ef_bill_date data) "")
          else Payment.bill_date p) /\
       Payment.finalized p' = Payment.finalized p /\
       sums_to (Prisma.bills_of (Payment.id p) w) (Payment.total_amount p') /\
       patientBills w' = patientBills w).
Proof.
  split.
  - intros H. unfold editFinalBillSummary, Prisma.payment_find_appointment_id.
    by rewrite bind_gets, H.
  - intros p Hp Hkey.
    pose proof (editFinalBillSummary_run env appointmentId data w p Hp) as Hrun.
    cbv zeta in Hrun.
    destruct (summary_edit_fields data p) as (Hid & Happ & Hfin & Hdisc & Hdate).
    set (T := sum_total_cost (Prisma.bills_of (Payment.id p) w)).
    assert (Hby : Prisma.payment_by_id (Payment.id p)
                    (recomputed (Payment.id p)
                       (payments_written (Payment.id p) (summary_edit env data) w))
                  = Some (Payment.set_total_amount T (summary_edit env data p))).
    { unfold recomputed. rewrite !payment_by_id_written
        by (intros r; first [reflexivity | apply summary_edit_fields]).
      rewrite Hkey. cbn [fmap option_fmap option_map].
      rewrite payment_has_own_id. unfold Prisma.payment_has_id.
      rewrite Hid, Z.eqb_refl. reflexivity. }
    rewrite Hby in Hrun. cbn [option_map Payment.id Payment.set_total_amount] in Hrun.
    rewrite Hid in Hrun.
    exists (Payment.set_total_amount T (summary_edit env data p)).
    eexists. split; [exact Hrun|]. split.
    { unfold recomputed. rewrite !payment_of_appointment_written
        by (intros r; first [reflexivity | apply summary_edit_fields]).
      rewrite Hp. cbn [fmap option_fmap option_map].
      rewrite payment_has_own_id. unfold Prisma.payment_has_id.
      rewrite Hid, Z.eqb_refl. reflexivity. }
    cbn [Payment.discount Payment.bill_date Payment.finalized Payment.total_amount
         Payment.set_total_amount].
    do 3 (split; [assumption|]). split; [by apply sums_to_iff | reflexivity].
Qed.

(** [generateFinalBillForAppointment] on an appointment with an invoice. *)
Lemma generateFinalBill_run appointmentId discount bill_date w p q :
  Prisma.payment_of_appointment appointmentId w = Some p ->
  Prisma.payment_by_id (Payment.id p) w = Some q ->
  let total := sum_total_cost (Prisma.bills_of (Payment.id p) w) in
  let f := finalized_with env discount bill_date total in
  generateFinalBillForAppointment env appointmentId discount bill_date w
  = (Ok (mkFinalBill (f q) (Prisma.bills_of (Payment.id q) w)
           (total - total * discount / 100)%float
           (total * discount / 100)%float),
     payments_written (Payment.id p) f w).
Proof.
  intros Hp Hq total f.
  unfold generateFinalBillForAppointment, Prisma.payment_find_appointment_id,
    Prisma.payment_bills.
  rewrite bind_gets, Hp, bind_gets.
  erewrite bind_Ok by (apply payment_update_run; exact Hq).
  rewrite bind_gets. reflexivity.
Qed.

(** X13.  Finalization is repeatable: on a finalized invoice
    [generateFinalBillForAppointment] succeeds again, and with the same
    discount and date it returns the same bill and leaves the database as it
    is. *)
Theorem generateFinalBillForAppointment_repeat appointmentId discount bill_date w p :
  Prisma.payment_of_appointment appointmentId w = Some p ->
  Prisma.payment_by_id (Payment.id p) w = Some p ->
  exists fb w',
    generateFinalBillForAppointment env appointmentId discount bill_date w
    = (Ok fb, w') /\
    Payment.finalized (updated fb) = true /\
    generateFinalBillForAppointment env appointmentId discount bill_date w'
    = (Ok fb, w').
Proof.
  intros Hp Hkey.
  pose proof (generateFinalBill_run appointmentId discount bill_date w p p Hp Hkey)
    as Hrun. cbv zeta in Hrun.
  set (T := sum_total_cost (Prisma.bills_of (Payment.id p) w)) in *.
  set (f := finalized_with env discount bill_date T) in *.
  set (w1 := payments_written (Payment.id p) f w) in *.
  assert (Hp1 : Prisma.payment_of_appointment appointmentId w1 = Some (f p)).
  { unfold w1. rewrite payment_of_appointment_written by reflexivity.
    rewrite Hp. cbn [fmap option_fmap option_map].
    by rewrite payment_has_own_id. }
  assert (Hkey1 : Prisma.payment_by_id (Payment.id (f p)) w1 = Some (f p)).
  { unfold w1. rewrite payment_by_id_written by reflexivity.
    change (Payment.id (f p)) with (Payment.id p).
    rewrite Hkey. cbn [fmap option_fmap option_map].
    by rewrite payment_has_own_id. }
  pose proof (generateFinalBill_run appointmentId discount bill_date w1 (f p) (f p)
                Hp1 Hkey1) as Hrun1. cbv zeta in Hrun1.
  change (Payment.id (f p)) with (Payment.id p) in Hrun1.
  change (Prisma.bills_of (Payment.id p) w1)
    with (Prisma.bills_of (Payment.id p) w) in Hrun1.
  fold T f in Hrun1.
  change (f (f p)) with (f p) in Hrun1.
  assert (Hw : payments_written (Payment.id p) f w1 = w1).
  { unfold w1, payments_written. cbn [payments with_payments next_payment_id].
    unfold with_payments. cbn. f_equal.
    apply update_where_idemp; reflexivity. }
  rewrite Hw in Hrun1.
  eexists _, _. split; [exact Hrun|]. split; [reflexivity|]. exact Hrun1.
Qed.

End Summary.

(** A discount of 15 and a new date on the open invoice of 33 + 66: both are
    written, the invoice stays open and its total is 99. *)
Lemma editFinalBillSummary_spec_witness :
  Payment.discount Sample5.payment2 = 0%float /\
  Payment.bill_date Sample5.payment2 = Sample.t_now /\
  exists p' w',
    DoctorService.editFinalBillSummary Sample.env 2
      (DoctorService.mkEditFinal (Some 15%float) (Some "2023-11-15")) Sample5.world
    = (Ok (Some (p', [Sample5.line4; Sample5.line5])), w') /\
    Payment.discount p' = 15%float /\
    Payment.bill_date p' = Sample.t_nov15 /\
    Payment.finalized p' = false /\
    Payment.total_amount p' = 99%float.
Proof.
  split; [reflexivity|]. split; [reflexivity|].
  destruct (proj2 (editFinalBillSummary_spec Sample.env 2
                     (DoctorService.mkEditFinal (Some 15%float) (Some "2023-11-15"))
                     Sample5.world) Sample5.payment2 eq_refl eq_refl)
    as (p' & w' & Hrun & _ & Hd & Hdate & Hfin & Hsum & _).
  exists p', w'. split; [exact Hrun|]. split; [exact Hd|].
  split; [exact Hdate|]. split; [exact Hfin|].
  apply sums_to_iff in Hsum. rewrite <- Hsum. reflexivity.
Defined.

Lemma generateFinalBillForAppointment_repeat_witness :
  exists fb w',
    DoctorService.generateFinalBillForAppointment Sample.env 2 10
      "2023-11-15" Sample.world = (Ok fb, w') /\
    DoctorService.generateFinalBillForAppointment Sample.env 2 10
      "2023-11-15" w' = (Ok fb, w').
Proof.
  destruct (generateFinalBillForAppointment_repeat Sample.env 2 10
              "2023-11-15" Sample.world Sample.payment2 eq_refl eq_refl)
    as (fb & w' & Hrun & _ & Hagain).
  by exists fb, w'.
Defined.

(** ** Billing: the ledger invariant, service by service *)

Section LedgerPreserved.
Import DoctorService Ledger Outbox NotificationService Billing.
Variable env : Env.

Lemma generateFinalBill_keeps_ledger appointmentId discount bill_date w fb w' :
  ledger_consistent w ->
  generateFinalBillForAppointment env appointmentId discount bill_date w = (Ok fb, w') ->
  ledger_consistent w'.
Proof.
  intros Hinv Hrun.
  destruct (Prisma.payment_of_appointment appointmentId w) as [p|] eqn:Hp.
  - destruct (payment_by_own_id _ _ _ Hp) as [q Hq].
    rewrite (generateFinalBill_run env appointmentId discount bill_date w p q Hp Hq)
      in Hrun.
    injection Hrun as _ <-. intros y Hy.
    unfold payments_written in Hy. cbn [payments with_payments] in Hy.
    apply In_update_where in Hy as (x & Hx & ->).
    unfold invoice_consistent.
    change (Prisma.bills_of ?i (payments_written _ _ w)) with (Prisma.bills_of i w).
    unfold Prisma.payment_has_id.
    destruct (Z.eqb_spec (Payment.id x) (Payment.id p)) as [E|E].
    + cbn. by rewrite E.
    + by apply Hinv.
  - unfold generateFinalBillForAppointment, Prisma.payment_find_appointment_id in Hrun.
    rewrite bind_gets, Hp in Hrun. discriminate.
Qed.

(** X15.  The ledger invariant (the cached total of every invoice is what
    its lines sum to, added in table order as binary64 numbers) survives
    every successful call of a billing service: adding a line, editing the
    summary and finalizing always; editing or deleting a line when the line
    belongs to the invoice of the appointment named in the request. *)
Theorem billing_services_keep_ledger appointmentId w :
  ledger_adds_up w ->
  (forall input bill w',
     addBillToAppointment env appointmentId input w = (Ok bill, w') ->
     ledger_adds_up w')
  /\
  (forall data r w',
     editFinalBillSummary env appointmentId data w = (Ok r, w') ->
     ledger_adds_up w')
  /\
  (forall discount bill_date fb w',
     generateFinalBillForAppointment env appointmentId discount bill_date w
     = (Ok fb, w') ->
     ledger_adds_up w')
  /\
  (forall p billId,
     Prisma.payment_of_appointment appointmentId w = Some p ->
     (forall b, In b (patientBills w) -> PatientBills.id b = billId ->
                PatientBills.bill_id b = Payment.id p) ->
     (forall data r w',
        editBillInAppointment env appointmentId billId data w = (Ok r, w') ->
        ledger_adds_up w')
     /\
     (forall r w',
        deleteBillFromAppointment appointmentId billId w = (Ok r, w') ->
        ledger_adds_up w')).
Proof.
  intros Hinv. apply ledger_adds_up_iff in Hinv. split; [|split; [|split]].
  - intros input bill w' H. apply ledger_adds_up_iff.
    by apply (addBillToAppointment_keeps_ledger env appointmentId input w bill).
  - intros data r w' H. apply ledger_adds_up_iff.
    by apply (editFinalBillSummary_keeps_ledger env appointmentId data w r).
  - intros discount bill_date fb w' H. apply ledger_adds_up_iff.
    by apply (generateFinalBill_keeps_ledger appointmentId discount bill_date w fb).
  - intros p billId Hp Hown. split.
    + intros data r w' H. apply ledger_adds_up_iff.
      by apply (editBillInAppointment_keeps_ledger env appointmentId billId data w p r).
    + intros r w' H. apply ledger_adds_up_iff.
      by apply (deleteBillFromAppointment_keeps_ledger appointmentId billId w p r).
Qed.

End LedgerPreserved.

(** In the hospital with fractional prices every invoice adds up; it still
    does after three dressings are added to appointment 1 (whose invoice then
    totals 100.6) and after line 1, a line of that invoice, is edited. *)
Lemma billing_services_keep_ledger_witness :
  (exists bill w' p',
     DoctorService.addBillToAppointment Sample.env 1
       (DoctorService.mkAdd 7 3 "2023-11-15") Sample5.world = (Ok bill, w') /\
     Ledger.ledger_adds_up w' /\
     Prisma.payment_of_appointment 1 w' = Some p' /\
     Payment.total_amount p' = 100.6%float)
  /\
  (exists bill w',
     DoctorService.editBillInAppointment Sample.env 1 1
       (DoctorService.mkEdit None (Some 3) None) Sample5.world = (Ok bill, w') /\
     Ledger.ledger_adds_up w').
Proof.
  pose proof (billing_services_keep_ledger Sample.env 1 Sample5.world
                Sample5_ledger_adds_up) as (Hadd & _ & _ & Hline).
  split.
  - pose proof (addBill_run Sample.env 1 (DoctorService.mkAdd 7 3 "2023-11-15")
                  Sample5.world Sample.appointment1 Sample5.dressing
                  eq_refl eq_refl) as Hrun.
    cbv zeta in Hrun.
    eexists _, _, _. split; [exact Hrun|]. split; [exact (Hadd _ _ _ Hrun)|].
    split; reflexivity.
  - pose proof (editBill_run Sample.env 1 1 (DoctorService.mkEdit None (Some 3) None)
                  Sample5.world Sample5.payment1 Sample5.line1 0%float
                  eq_refl eq_refl ltac:(discriminate)) as Hrun.
    eexists _, _. split; [exact Hrun|].
    refine (proj1 (Hline Sample5.payment1 1 eq_refl _) _ _ _ Hrun).
    intros b [<-|[<-|[<-|[<-|[<-|[<-|[<-|[]]]]]]]]; first [reflexivity | discriminate].
Defined.

(** ** Appointments: booking *)

Section BookingRuns.
Import NotificationService Outbox AppointmentService Bookings.
Variable env : Env.

Lemma find_None_intro {A} (P : A -> bool) l :
  (forall x, In x l -> P x = false) -> List.find P l = None.
Proof.
  intros H. destruct (List.find P l) as [x|] eqn:E; [|reflexivity].
  apply find_some in E as [Hin Hx]. by rewrite (H x Hin) in Hx.
Qed.

Lemma createAppointment_no_patient userId body w :
  Prisma.patient_of_user userId w = None ->
  createAppointmentService env userId body w
  = (Throw (Error "Patient profile not found"), w).
Proof.
  intros H. unfold createAppointmentService, Prisma.patient_find_user_id.
  by rewrite bind_gets, H.
Qed.

Lemma createAppointment_no_doctor userId body w patient :
  Prisma.patient_of_user userId w = Some patient ->
  Prisma.doctor_by_id (doctor_id body) w = None ->
  createAppointmentService env userId body w = (Throw (Error "Doctor not found"), w).
Proof.
  intros Hp Hd. unfold createAppointmentService, Prisma.patient_find_user_id,
    Prisma.doctor_find_id.
  by rewrite bind_gets, Hp, bind_gets, Hd.
Qed.

Lemma createAppointment_conflict userId body w patient doctor x :
  Prisma.patient_of_user userId w = Some patient ->
  Prisma.doctor_by_id (doctor_id body) w = Some doctor ->
  In x (appointments w) ->
  holds_slot (doctor_id body) (Date_parse env (appointment_date body)) (time body) x
  = true ->
  createAppointmentService env userId body w
  = (Throw (Error "This time slot is already booked for the selected doctor"), w).
Proof.
  intros Hp Hd Hin Hx. unfold createAppointmentService, Prisma.patient_find_user_id,
    Prisma.doctor_find_id, Prisma.appointment_findFirst.
  rewrite bind_gets, Hp, bind_gets, Hd, bind_gets.
  by destruct (find_is_Some _ _ _ Hin Hx) as [y ->].
Qed.

Lemma createAppointment_run userId body w patient doctor :
  Prisma.patient_of_user userId w = Some patient ->
  Prisma.doctor_by_id (doctor_id body) w = Some doctor ->
  slot_free (doctor_id body) (Date_parse env (appointment_date body)) (time body) w ->
  createAppointmentService env userId body w
  = (Ok (requested env patient body w),
     notify env (booked (requested env patient body w) w)
       (booking_notes env userId patient doctor body (requested env patient body w)
          (Prisma.users_with_role "ADMIN" w))).
Proof.
  intros Hp Hd Hfree. unfold createAppointmentService, Prisma.patient_find_user_id,
    Prisma.doctor_find_id, Prisma.appointment_findFirst, Prisma.user_findMany_role.
  rewrite bind_gets, Hp, bind_gets, Hd, bind_gets.
  rewrite (find_None_intro _ _ Hfree).
  erewrite bind_Ok by reflexivity.
  fold (requested env patient body w). fold (booked (requested env patient body w) w).
  unfold booking_notes. fold (admins_watch env body).
  destruct (Doctor.user_id doctor) as [du|];
    [destruct (JS.truthy_string du)|];
    (destruct (admins_watch env body)); run; reflexivity.
Qed.

End BookingRuns.

Section BookingProperties.
Import NotificationService Outbox AppointmentService Bookings.
Variable env : Env.

Lemma notify_next_appointment_id w l :
  next_appointment_id (notify env w l) = next_appointment_id w.
Proof.
  revert w. induction l as [|d l IH]; intros w; [reflexivity|].
  cbn. unfold notify in IH. by rewrite IH.
Qed.

Lemma notify_outbox_only w l :
  patients (notify env w l) = patients w /\
  doctors (notify env w l) = doctors w /\
  appointments (notify env w l) = appointments w /\
  next_appointment_id (notify env w l) = next_appointment_id w.
Proof.
  destruct (notify_frame env w l) as (_ & -> & -> & _ & -> & _).
  by rewrite notify_next_appointment_id.
Qed.

(** X16.  A successful booking notifies, in this order: the doctor (when the
    doctor has a user account), the patient who booked, and every
    administrator exactly when the booking is made between 8 and 17 o'clock
    or its type contains "urgent" or "emergency" in any letter case.  The
    patient's confirmation links to the new appointment. *)
Theorem createAppointmentService_notifies uid body w patient doctor :
  Prisma.patient_of_user uid w = Some patient ->
  Prisma.doctor_by_id (doctor_id body) w = Some doctor ->
  slot_free (doctor_id body) (Date_parse env (appointment_date body)) (time body) w ->
  exists a w' notes,
    createAppointmentService env uid body w = (Ok a, w') /\
    outbox w' = outbox w ++ notes /\
    userId <$> notes
    = booking_recipients env uid doctor body (Prisma.users_with_role "ADMIN" w) /\
    exists note,
      In note notes /\ userId note = uid /\
      link note = Some ("/appointments/" +:+ pretty (Appointment.id a)).
Proof.
  intros Hp Hd Hfree.
  eexists _, _, _. split; [by apply createAppointment_run|].
  split; [by rewrite outbox_notify|]. split.
  - unfold booking_notes, booking_recipients. cbv zeta.
    rewrite !fmap_app. f_equal; [|f_equal].
    + destruct (Doctor.user_id doctor) as [du|]; [|reflexivity].
      by destruct (JS.truthy_string du).
    + destruct (admins_watch env body); [|reflexivity].
      rewrite <- list_fmap_compose. reflexivity.
  - eexists. split; [|split].
    + unfold booking_notes. cbv zeta. apply in_or_app. right. by left.
    + reflexivity.
    + reflexivity.
Qed.

(** X17.  A booking is refused, and nothing is written, when the caller has
    no patient profile ("Patient profile not found") or the doctor does not
    exist ("Doctor not found"). *)
Theorem createAppointmentService_refusals uid body w :
  (Prisma.patient_of_user uid w = None ->
   createAppointmentService env uid body w
   = (Throw (Error "Patient profile not found"), w))
  /\
  (forall patient,
     Prisma.patient_of_user uid w = Some patient ->
     Prisma.doctor_by_id (doctor_id body) w = None ->
     createAppointmentService env uid body w
     = (Throw (Error "Doctor not found"), w)).
Proof.
  split; [apply createAppointment_no_patient | apply createAppointment_no_doctor].
Qed.

Lemma holds_own_slot a :
  Appointment.status a <> CANCELLED ->
  holds_slot (Appointment.doctor_id a) (Appointment.appointment_date a)
    (Appointment.time a) a = true.
Proof. intros H. by apply holds_slot_true. Qed.

Lemma find_snoc_fresh {A} (P : A -> bool) l x :
  (forall y, In y l -> P y = false) -> P x = true ->
  List.find P (l ++ [x]) = Some x.
Proof.
  intros Hl Hx. rewrite (find_app_None _ _ _ (find_None_intro _ _ Hl)).
  cbn. by rewrite Hx.
Qed.

(** X18.  A cancellation frees the slot.  After a successful booking the
    same request is refused with the slot-conflict error; once the patient
    has cancelled the (still pending) appointment, the same request succeeds
    again and creates a new pending appointment under the next key. *)
Theorem cancelled_slot_can_be_rebooked uid body reason w patient doctor :
  Prisma.patient_of_user uid w = Some patient ->
  Prisma.doctor_by_id (doctor_id body) w = Some doctor ->
  slot_free (doctor_id body) (Date_parse env (appointment_date body)) (time body) w ->
  fresh_appointment_key w ->
  exists a w1 a' w2 b w3,
    createAppointmentService env uid body w = (Ok a, w1) /\
    createAppointmentService env uid body w1
    = (Throw (Error "This time slot is already booked for the selected doctor"), w1) /\
    updateAppointmentStatusService env uid (Appointment.id a)
      (mkUpdate CANCELLED reason) w1 = (Ok a', w2) /\
    Appointment.status a' = CANCELLED /\
    createAppointmentService env uid body w2 = (Ok b, w3) /\
    Appointment.status b = PENDING /\
    Appointment.id b = Appointment.id a + 1.
Proof.
  intros Hp Hd Hfree Hfresh.
  set (a := requested env patient body w).
  set (w1 := notify env (booked a w)
               (booking_notes env uid patient doctor body a
                  (Prisma.users_with_role "ADMIN" w))).
  destruct (notify_outbox_only (booked a w)
              (booking_notes env uid patient doctor body a
                 (Prisma.users_with_role "ADMIN" w)))
    as (Hpat1 & Hdoc1 & Happ1 & Hnext1).
  fold w1 in Hpat1, Hdoc1, Happ1, Hnext1.
  cbn [patients doctors appointments next_appointment_id booked with_appointments]
    in Hpat1, Hdoc1, Happ1, Hnext1.
  assert (Hp1 : Prisma.patient_of_user uid w1 = Some patient)
    by (unfold Prisma.patient_of_user; by rewrite Hpat1).
  assert (Hd1 : Prisma.doctor_by_id (doctor_id body) w1 = Some doctor)
    by (unfold Prisma.doctor_by_id; by rewrite Hdoc1).
  assert (Ha1 : Prisma.appointment_by_id (Appointment.id a) w1 = Some a).
  { unfold Prisma.appointment_by_id. rewrite Happ1. apply find_snoc_fresh.
    - intros y Hy. apply Z.eqb_neq. by apply Hfresh.
    - apply Z.eqb_refl. }
  set (w2 := notify env (status_written (Appointment.id a) CANCELLED reason w1)
               (patient_cancel_notes env patient doctor a reason
                  (Prisma.users_with_role "ADMIN" w1))).
  destruct (notify_outbox_only (status_written (Appointment.id a) CANCELLED reason w1)
              (patient_cancel_notes env patient doctor a reason
                 (Prisma.users_with_role "ADMIN" w1)))
    as (Hpat2 & Hdoc2 & Happ2 & Hnext2).
  fold w2 in Hpat2, Hdoc2, Happ2, Hnext2.
  cbn [patients doctors appointments next_appointment_id status_written
       with_appointments] in Hpat2, Hdoc2, Happ2, Hnext2.
  assert (Hp2 : Prisma.patient_of_user uid w2 = Some patient)
    by (unfold Prisma.patient_of_user; by rewrite Hpat2, Hpat1).
  assert (Hd2 : Prisma.doctor_by_id (doctor_id body) w2 = Some doctor)
    by (unfold Prisma.doctor_by_id; by rewrite Hdoc2, Hdoc1).
  assert (Hfree2 : slot_free (doctor_id body) (Date_parse env (appointment_date body))
                     (time body) w2).
  { intros x Hx. rewrite Happ2, Happ1 in Hx.
    apply In_update_where in Hx as (y & Hy & ->).
    destruct (Prisma.has_id (Appointment.id a) y) eqn:Hid.
    - unfold holds_slot. cbn. by rewrite !andb_false_r.
    - apply in_app_or in Hy as [Hy|[<-|[]]]; [by apply Hfree|].
      unfold Prisma.has_id in Hid. by rewrite Z.eqb_refl in Hid. }
  exists a, w1, (with_status CANCELLED reason a), w2.
  eexists _, _.
  split; [by apply createAppointment_run|].
  split.
  { apply (createAppointment_conflict env uid body w1 patient doctor a Hp1 Hd1).
    - rewrite Happ1. apply in_or_app. right. by left.
    - apply (holds_own_slot a). discriminate. }
  split.
  { apply (patient_cancel_run env uid (Appointment.id a) reason w1 patient a doctor);
      [exact Hp1 | exact Ha1 | reflexivity | exact Hd1 | reflexivity]. }
  split; [reflexivity|].
  split; [by apply createAppointment_run|].
  split; [reflexivity|].
  cbn [Appointment.id requested a]. by rewrite Hnext2, Hnext1.
Qed.

End BookingProperties.

(** At ten in the evening, a booking of type "URGENT review" still reaches the
    administrator. *)
Lemma createAppointmentService_notifies_witness :
  exists a w' notes,
    AppointmentService.createAppointmentService Sample3.night_env "u-ben"
      (AppointmentService.mkCreate "d1" "2023-11-15" "12:00" "URGENT review" None)
      Sample.world = (Ok a, w') /\
    Outbox.outbox w' = notes /\
    NotificationService.userId <$> notes = ["u-mehta"; "u-ben"; "u-admin"].
Proof.
  destruct (createAppointmentService_notifies Sample3.night_env "u-ben"
              (AppointmentService.mkCreate "d1" "2023-11-15" "12:00" "URGENT review" None)
              Sample.world Sample.ben Sample.mehta eq_refl eq_refl)
    as (a & w' & notes & Hrun & Hout & Hto & _).
  { intros a [<-|[<-|[]]]; reflexivity. }
  exists a, w', notes. by repeat split.
Defined.

Lemma createAppointmentService_refusals_witness :
  AppointmentService.createAppointmentService Sample.env "u-mehta"
    (AppointmentService.mkCreate "d1" "2023-11-15" "12:00" "checkup" None)
    Sample.world
  = (Throw (Error "Patient profile not found"), Sample.world)
  /\
  AppointmentService.createAppointmentService Sample.env "u-ben"
    (AppointmentService.mkCreate "d9" "2023-11-15" "12:00" "checkup" None)
    Sample.world
  = (Throw (Error "Doctor not found"), Sample.world).
Proof.
  split.
  - by apply (proj1 (createAppointmentService_refusals Sample.env "u-mehta"
                       (AppointmentService.mkCreate "d1" "2023-11-15" "12:00" "checkup" None)
                       Sample.world)).
  - by apply (proj2 (createAppointmentService_refusals Sample.env "u-ben"
                       (AppointmentService.mkCreate "d9" "2023-11-15" "12:00" "checkup" None)
                       Sample.world) Sample.ben).
Defined.

Lemma cancelled_slot_can_be_rebooked_witness :
  exists a w1 a' w2 b w3,
    AppointmentService.createAppointmentService Sample.env "u-ben"
      (AppointmentService.mkCreate "d1" "2023-11-15" "12:00" "checkup" None)
      Sample.world = (Ok a, w1) /\
    AppointmentService.createAppointmentService Sample.env "u-ben"
      (AppointmentService.mkCreate "d1" "2023-11-15" "12:00" "checkup" None) w1
    = (Throw (Error "This time slot is already booked for the selected doctor"), w1) /\
    AppointmentService.updateAppointmentStatusService Sample.env "u-ben"
      (Appointment.id a) (AppointmentService.mkUpdate CANCELLED None) w1
    = (Ok a', w2) /\
    AppointmentService.createAppointmentService Sample.env "u-ben"
      (AppointmentService.mkCreate "d1" "2023-11-15" "12:00" "checkup" None) w2
    = (Ok b, w3) /\
    Appointment.id b = Appointment.id a + 1.
Proof.
  destruct (cancelled_slot_can_be_rebooked Sample.env "u-ben"
              (AppointmentService.mkCreate "d1" "2023-11-15" "12:00" "checkup" None)
              None Sample.world Sample.ben Sample.mehta eq_refl eq_refl)
    as (a & w1 & a' & w2 & b & w3 & H1 & H2 & H3 & _ & H4 & _ & H5).
  { intros a [<-|[<-|[]]]; reflexivity. }
  { intros a [<-|[<-|[]]]; discriminate. }
  by exists a, w1, a', w2, b, w3.
Defined.

(** ** Appointments: status changes *)

Section StatusProperties.
Import NotificationService Outbox AppointmentService Bookings.
Variable env : Env.

Lemma AppointmentStatus_of_to_string st :
  AppointmentStatus_of_string (AppointmentStatus_to_string st) = Some st.
Proof. by destruct st. Qed.

Lemma AppointmentStatus_of_string_Some s st :
  AppointmentStatus_of_string s = Some st -> s = AppointmentStatus_to_string st.
Proof.
  unfold AppointmentStatus_of_string.
  repeat match goal with
         | |- context [String.eqb s ?c] => destruct (String.eqb_spec s c) as [->|_]
         end; intros [= <-]; reflexivity.
Qed.

Lemma In_update_where_intro {A} (P : A -> bool) f l x :
  In x l -> In (if P x then f x else x) (Prisma.update_where P f l).
Proof.
  intros H. unfold Prisma.update_where.
  by apply (in_map (fun r => if P r then f r else r)).
Qed.

(** X19.  What [updateDoctorAppointmentStatus] refuses, each time returning
    an error object without throwing and without writing: a status that is
    not one of the four members of the enumeration, spelled in capitals
    (tested first); a caller who is no doctor; an appointment that does not
    exist or belongs to another doctor. *)
Theorem updateDoctorAppointmentStatus_refusals uid id status reason w :
  ((forall st, status <> AppointmentStatus_to_string st) ->
   DoctorService.updateDoctorAppointmentStatus env uid id status reason w
   = (Ok (DoctorService.error_ "Invalid status value"), w))
  /\
  (forall st,
     status = AppointmentStatus_to_string st ->
     Prisma.doctor_of_user uid w = None ->
     DoctorService.updateDoctorAppointmentStatus env uid id status reason w
     = (Ok (DoctorService.error_ "Doctor not found"), w))
  /\
  (forall st doctor,
     status = AppointmentStatus_to_string st ->
     Prisma.doctor_of_user uid w = Some doctor ->
     (forall a, In a (appointments w) -> Appointment.id a = id ->
                Appointment.doctor_id a <> Doctor.id doctor) ->
     DoctorService.updateDoctorAppointmentStatus env uid id status reason w
     = (Ok (DoctorService.error_ "Appointment not found"), w)).
Proof.
  unfold DoctorService.updateDoctorAppointmentStatus, Prisma.doctor_find_user_id,
    Prisma.appointment_findFirst.
  split; [|split].
  - intros Hbad.
    destruct (AppointmentStatus_of_string status) as [st|] eqn:E; [|reflexivity].
    by destruct (Hbad st (AppointmentStatus_of_string_Some _ _ E)).
  - intros st -> Hd. by rewrite AppointmentStatus_of_to_string, bind_gets, Hd.
  - intros st doctor -> Hd Hforeign.
    rewrite AppointmentStatus_of_to_string, bind_gets, Hd, bind_gets.
    rewrite find_None_intro; [reflexivity|].
    intros a Hin. unfold Prisma.has_id.
    destruct (Z.eqb_spec (Appointment.id a) id) as [Hid|]; [|reflexivity].
    cbn. apply String.eqb_neq. by apply Hforeign.
Qed.

(** X20.  A doctor may move an appointment of theirs to any status from any
    status: the service checks no life cycle.  The call succeeds whatever the
    current status is; the stored row takes the new status, takes the reason
    when one is given, and keeps everything else. *)
Theorem updateDoctorAppointmentStatus_any_transition
    uid id st reason w doctor a patient :
  Prisma.doctor_of_user uid w = Some doctor ->
  Prisma.appointment_by_id id w = Some a ->
  Appointment.doctor_id a = Doctor.id doctor ->
  Prisma.patient_by_id (Appointment.patient_id a) w = Some patient ->
  exists a' w',
    DoctorService.updateDoctorAppointmentStatus env uid id
      (AppointmentStatus_to_string st) reason w
    = (Ok (DoctorService.updated_ a'), w') /\
    Appointment.status a' = st /\
    Appointment.reason a' = JS.nullish_opt reason (Appointment.reason a) /\
    a' = Appointment.set_status (Appointment.status a') (Appointment.reason a') a /\
    Prisma.appointment_by_id id w' = Some a'.
Proof.
  intros Hd Ha Hown Hp.
  eexists _, _. split.
  { apply (doctor_status_run env uid id _ st reason w doctor a patient);
      [apply AppointmentStatus_of_to_string | assumption..]. }
  split; [reflexivity|]. split; [reflexivity|]. split; [reflexivity|].
  unfold Prisma.appointment_by_id. rewrite appointments_notify.
  by apply appointment_by_id_written.
Qed.

(** X21.  The slot is checked at booking only.  When a doctor sets a
    cancelled appointment back to SCHEDULED while another appointment that is
    not cancelled holds the same doctor, date and time, the call succeeds and
    the database holds two live appointments on one slot. *)
Theorem doctor_revival_double_books uid id reason w doctor a b patient :
  Prisma.doctor_of_user uid w = Some doctor ->
  Prisma.appointment_by_id id w = Some a ->
  Appointment.doctor_id a = Doctor.id doctor ->
  Prisma.patient_by_id (Appointment.patient_id a) w = Some patient ->
  Appointment.status a = CANCELLED ->
  In b (appointments w) ->
  Appointment.id b <> id ->
  holds_slot (Appointment.doctor_id a) (Appointment.appointment_date a)
    (Appointment.time a) b = true ->
  exists a' w',
    DoctorService.updateDoctorAppointmentStatus env uid id "SCHEDULED" reason w
    = (Ok (DoctorService.updated_ a'), w') /\
    In a' (appointments w') /\ In b (appointments w') /\
    Appointment.id a' <> Appointment.id b /\
    holds_slot (Appointment.doctor_id a) (Appointment.appointment_date a)
      (Appointment.time a) a' = true /\
    holds_slot (Appointment.doctor_id a) (Appointment.appointment_date a)
      (Appointment.time a) b = true.
Proof.
  intros Hd Ha Hown Hp Hst Hb Hne Hslot.
  eexists _, _. split.
  { by apply (doctor_status_run env uid id "SCHEDULED" SCHEDULED reason w doctor a
                patient). }
  rewrite appointments_notify. cbn [appointments status_written with_appointments].
  pose proof Ha as Hfound. apply find_some in Hfound as [Hin Hid].
  split.
  { pose proof (In_update_where_intro (Prisma.has_id id)
                  (with_status SCHEDULED reason) _ a Hin) as H.
    by rewrite Hid in H. }
  split.
  { pose proof (In_update_where_intro (Prisma.has_id id)
                  (with_status SCHEDULED reason) _ b Hb) as H.
    assert (Prisma.has_id id b = false) as Hf by (by apply Z.eqb_neq).
    by rewrite Hf in H. }
  split.
  { cbn. apply Z.eqb_eq in Hid. congruence. }
  split; [|exact Hslot].
  apply holds_slot_true. by repeat split.
Qed.

(** X22.  A patient's status change other than a cancellation is applied to
    an appointment of theirs from any status, and tells no one: no
    notification is stored and nothing is emitted. *)
Theorem patient_status_change_silent uid id st reason w patient a :
  Prisma.patient_of_user uid w = Some patient ->
  Prisma.appointment_by_id id w = Some a ->
  Appointment.patient_id a = Patient.id patient ->
  st <> CANCELLED ->
  exists a' w',
    updateAppointmentStatusService env uid id (mkUpdate st reason) w = (Ok a', w') /\
    Appointment.status a' = st /\
    Prisma.appointment_by_id id w' = Some a' /\
    notifications w' = notifications w /\
    effects w' = effects w.
Proof.
  intros Hp Ha Hown Hst.
  exists (with_status st reason a), (status_written id st reason w).
  split.
  { unfold updateAppointmentStatusService, Prisma.patient_find_user_id,
      Prisma.appointment_findFirst, Prisma.doctor_find_id.
    rewrite bind_gets, Hp, bind_gets.
    rewrite (find_and _ _ _ a Ha) by (rewrite Hown; apply String.eqb_refl).
    rewrite bind_gets. cbn [status AppointmentService.reason].
    rewrite (bool_decide_eq_false_2 _ Hst). cbn [andb].
    erewrite bind_Ok by (apply appointment_update_run; exact Ha).
    reflexivity. }
  split; [reflexivity|].
  split; [by apply appointment_by_id_written|]. by split.
Qed.

(** X23.  A patient reaches only appointments of their own: without a
    patient profile the service throws "Patient profile not found"; for an
    appointment that does not exist or belongs to another patient it throws
    "Appointment not found"; nothing is written in either case. *)
Theorem updateAppointmentStatusService_refusals uid id body w :
  (Prisma.patient_of_user uid w = None ->
   updateAppointmentStatusService env uid id body w
   = (Throw (Error "Patient profile not found"), w))
  /\
  (forall patient,
     Prisma.patient_of_user uid w = Some patient ->
     (forall a, In a (appointments w) -> Appointment.id a = id ->
                Appointment.patient_id a <> Patient.id patient) ->
     updateAppointmentStatusService env uid id body w
     = (Throw (Error "Appointment not found"), w)).
Proof.
  unfold updateAppointmentStatusService, Prisma.patient_find_user_id,
    Prisma.appointment_findFirst.
  split.
  - intros Hp. by rewrite bind_gets, Hp.
  - intros patient Hp Hforeign. rewrite bind_gets, Hp, bind_gets.
    rewrite find_None_intro; [reflexivity|].
    intros a Hin. unfold Prisma.has_id.
    destruct (Z.eqb_spec (Appointment.id a) id) as [Hid|]; [|reflexivity].
    cbn. apply String.eqb_neq. by apply Hforeign.
Qed.

End StatusProperties.

Lemma updateDoctorAppointmentStatus_refusals_witness :
  DoctorService.updateDoctorAppointmentStatus Sample.env "u-mehta" 1 "cancelled"
    None Sample.world
  = (Ok (DoctorService.error_ "Invalid status value"), Sample.world)
  /\
  DoctorService.updateDoctorAppointmentStatus Sample.env "u-asha" 1 "CANCELLED"
    None Sample.world
  = (Ok (DoctorService.error_ "Doctor not found"), Sample.world)
  /\
  DoctorService.updateDoctorAppointmentStatus Sample.env "u-mehta" 7 "CANCELLED"
    None Sample.world
  = (Ok (DoctorService.error_ "Appointment not found"), Sample.world).
Proof.
  split; [|split].
  - apply (proj1 (updateDoctorAppointmentStatus_refusals Sample.env "u-mehta" 1
                    "cancelled" None Sample.world)).
    by intros [].
  - by apply (proj1 (proj2 (updateDoctorAppointmentStatus_refusals Sample.env
                              "u-asha" 1 "CANCELLED" None Sample.world)) CANCELLED).
  - apply (proj2 (proj2 (updateDoctorAppointmentStatus_refusals Sample.env
                           "u-mehta" 7 "CANCELLED" None Sample.world))
             CANCELLED Sample.mehta eq_refl eq_refl).
    intros a [<-|[<-|[]]]; discriminate.
Defined.

(** A completed appointment can be set back to PENDING. *)
Lemma updateDoctorAppointmentStatus_any_transition_witness :
  exists a' w',
    DoctorService.updateDoctorAppointmentStatus Sample.env "u-mehta" 2 "PENDING"
      None Sample.world
    = (Ok (DoctorService.updated_ a'), w') /\
    Appointment.status Sample.appointment2 = SCHEDULED /\
    Appointment.status a' = PENDING /\
    Prisma.appointment_by_id 2 w' = Some a'.
Proof.
  destruct (updateDoctorAppointmentStatus_any_transition Sample.env "u-mehta" 2
              PENDING None Sample.world Sample.mehta Sample.appointment2 Sample.ben
              eq_refl eq_refl eq_refl eq_refl)
    as (a' & w' & Hrun & Hst & _ & _ & Hby).
  by exists a', w'.
Defined.

Lemma doctor_revival_double_books_witness :
  exists a' w',
    DoctorService.updateDoctorAppointmentStatus Sample.env "u-mehta" 1 "SCHEDULED"
      None Sample3.world_rebooked
    = (Ok (DoctorService.updated_ a'), w') /\
    In a' (appointments w') /\ In Sample3.appointment3 (appointments w') /\
    AppointmentService.holds_slot "d1" Sample.t_nov15 "10:00" a' = true /\
    AppointmentService.holds_slot "d1" Sample.t_nov15 "10:00" Sample3.appointment3
    = true.
Proof.
  destruct (doctor_revival_double_books Sample.env "u-mehta" 1 None
              Sample3.world_rebooked Sample.mehta Sample3.cancelled1
              Sample3.appointment3 Sample.asha
              eq_refl eq_refl eq_refl eq_refl eq_refl
              ltac:(right; right; by left) ltac:(discriminate) eq_refl)
    as (a' & w' & Hrun & Ha' & Hb & _ & H1 & H2).
  by exists a', w'.
Defined.

(** A patient can mark their own pending appointment as completed. *)
Lemma patient_status_change_silent_witness :
  exists a' w',
    AppointmentService.updateAppointmentStatusService Sample.env "u-asha" 1
      (AppointmentService.mkUpdate COMPLETED None) Sample.world = (Ok a', w') /\
    Appointment.status a' = COMPLETED /\
    notifications w' = [].
Proof.
  destruct (patient_status_change_silent Sample.env "u-asha" 1 COMPLETED None
              Sample.world Sample.asha Sample.appointment1
              eq_refl eq_refl eq_refl ltac:(discriminate))
    as (a' & w' & Hrun & Hst & _ & Hn & _).
  by exists a', w'.
Defined.

Lemma updateAppointmentStatusService_refusals_witness :
  AppointmentService.updateAppointmentStatusService Sample.env "u-ben" 1
    (AppointmentService.mkUpdate CANCELLED None) Sample.world
  = (Throw (Error "Appointment not found"), Sample.world).
Proof.
  apply (proj2 (updateAppointmentStatusService_refusals Sample.env "u-ben" 1
                  (AppointmentService.mkUpdate CANCELLED None) Sample.world)
           Sample.ben eq_refl).
  intros a [<-|[<-|[]]]; discriminate.
Defined.

(** ** Notifications: reading and marking *)

Section Inbox.
Import NotificationService Outbox.

Lemma newest_first_total : Total Prisma.newest_first.
Proof. intros a b. unfold Prisma.newest_first. lia. Qed.

Lemma newest_first_trans : Transitive Prisma.newest_first.
Proof. intros a b c. unfold Prisma.newest_first. lia. Qed.

Lemma StronglySorted_lookup {A} (R : A -> A -> Prop) l (i j : nat) x y :
  StronglySorted R l -> (i < j)%nat ->
  l !! i = Some x -> l !! j = Some y -> R x y.
Proof.
  intros Hs. revert i j. induction Hs as [|a l Hs IH Hall]; intros i j Hij Hi Hj.
  - by rewrite lookup_nil in Hi.
  - destruct j as [|j]; [lia|]. cbn in Hj. destruct i as [|i]; cbn in Hi.
    + injection Hi as <-. rewrite List.Forall_forall in Hall. apply Hall.
      apply list_elem_of_In. by eapply list_elem_of_lookup_2.
    + apply (IH i j); [lia | assumption..].
Qed.

(** X24.  [getNotifications] never throws and never writes.  It returns each
    stored notification of the user once (with the unread filter: each unread
    one), and nothing else, newest first: an entry never has a later creation
    time than an entry before it. *)
Theorem getNotifications_newest_first uid unread w :
  exists l,
    getNotifications uid unread w = (Ok l, w) /\
    Permutation l
      (List.filter
         (fun n => (String.eqb (Notification.userId n) uid
                    && (negb unread || negb (Notification.isRead n)))%bool)
         (notifications w)) /\
    forall (i j : nat) x y,
      (i < j)%nat -> l !! i = Some x -> l !! j = Some y ->
      Notification.createdAt y <= Notification.createdAt x.
Proof.
  eexists. split; [reflexivity|]. split.
  - rewrite (merge_sort_Permutation Prisma.newest_first).
    erewrite List.filter_ext; [reflexivity|].
    intros n. cbv beta. destruct unread; cbn [negb orb].
    + reflexivity.
    + by rewrite andb_true_r.
  - intros i j x y Hij Hi Hj.
    change (Prisma.newest_first x y).
    eapply StronglySorted_lookup;
      [apply (@StronglySorted_merge_sort _ Prisma.newest_first _
                newest_first_trans newest_first_total)
      | exact Hij | exact Hi | exact Hj].
Qed.

Lemma unread_after_read id l m :
  In m (Prisma.update_where (Prisma.notification_has_id id)
          (Notification.set_isRead true) l)
  /\ Notification.isRead m = false
  <-> In m l /\ Notification.isRead m = false /\ Notification.id m <> id.
Proof.
  split.
  - intros [Hin Hr]. apply In_update_where in Hin as (x & Hx & ->).
    unfold Prisma.notification_has_id in *.
    destruct (String.eqb_spec (Notification.id x) id) as [E|E]; [discriminate|].
    by repeat split.
  - intros (Hin & Hr & Hne). split; [|exact Hr].
    pose proof (In_update_where_intro (Prisma.notification_has_id id)
                  (Notification.set_isRead true) l m Hin) as H.
    unfold Prisma.notification_has_id in H.
    by destruct (String.eqb_spec (Notification.id m) id) as [E|E].
Qed.

(** X25.  [markNotificationRead] beyond the happy path.  For an id that
    names no notification the service throws (Prisma's record-not-found) and
    the socket handler swallows the error; nothing is written.  For a stored
    notification, whoever its owner is, the call removes exactly that
    notification from every user's unread list, adds or removes no row, and
    emits nothing. *)
Theorem markNotificationRead_scope id w :
  (Prisma.notification_by_id id w = None ->
   markNotificationRead id w = (Throw PrismaRecordNotFound, w) /\
   socket_notification_read id w = (Ok tt, w))
  /\
  (forall n,
     Prisma.notification_by_id id w = Some n ->
     exists w',
       markNotificationRead id w = (Ok (Notification.set_isRead true n), w') /\
       (forall uid, exists l l',
          getNotifications uid true w = (Ok l, w) /\
          getNotifications uid true w' = (Ok l', w') /\
          forall m, In m l' <-> In m l /\ Notification.id m <> id) /\
       map Notification.id (notifications w') = map Notification.id (notifications w) /\
       effects w' = effects w).
Proof.
  split.
  - intros Hn. unfold socket_notification_read, try_catch, bind,
      markNotificationRead, Prisma.notification_update_isRead.
    by rewrite Hn.
  - intros n Hn.
    set (w' := with_notifications
                 (Prisma.update_where (Prisma.notification_has_id id)
                    (Notification.set_isRead true) (notifications w))
                 (next_notification_id w) w).
    exists w'. split.
    { unfold markNotificationRead, Prisma.notification_update_isRead.
      rewrite Hn. reflexivity. }
    split; [|split; [|reflexivity]].
    + intros uid.
      destruct (getNotifications_run uid true w) as (l & Hl & Hin).
      destruct (getNotifications_run uid true w') as (l' & Hl' & Hin').
      exists l, l'. split; [exact Hl|]. split; [exact Hl'|].
      intros m. rewrite Hin', Hin. cbn [notifications with_notifications].
      pose proof (unread_after_read id (notifications w) m) as H.
      split.
      * intros (H1 & H2 & H3). specialize (H3 eq_refl).
        destruct (proj1 H (conj H1 H3)) as (? & ? & ?). by repeat split.
      * intros ((H1 & H2 & H3) & Hne). specialize (H3 eq_refl).
        destruct (proj2 H (conj H1 (conj H3 Hne))) as [? ?]. by repeat split.
    + cbn [notifications with_notifications]. by apply map_update_where.
Qed.

End Inbox.

Lemma markNotificationRead_scope_witness :
  NotificationService.markNotificationRead "7" Sample.world_with_note
  = (Throw PrismaRecordNotFound, Sample.world_with_note)
  /\ NotificationService.socket_notification_read "7" Sample.world_with_note
     = (Ok tt, Sample.world_with_note)
  /\ exists w',
       NotificationService.markNotificationRead "1" Sample.world_with_note
       = (Ok (Notification.set_isRead true Sample.note1), w') /\
       map Notification.id (notifications w') = ["1"].
Proof.
  pose proof (markNotificationRead_scope "7" Sample.world_with_note) as [Hnone _].
  pose proof (markNotificationRead_scope "1" Sample.world_with_note) as [_ Hsome].
  destruct (Hnone eq_refl) as [H1 H2].
  destruct (Hsome Sample.note1 eq_refl) as (w' & Hrun & _ & Hids & _).
  split; [exact H1|]. split; [exact H2|]. by exists w'.
Defined.

(** ** The connection registry over its reachable states *)

Section RegistryInvariant.
Import WebSocketService Connections NotificationService Outbox.

Lemma In_fmap_inv {A B} (f : A -> B) l y :
  In y (f <$> l) -> exists x, y = f x /\ In x l.
Proof.
  intros H. apply list_elem_of_In, list_elem_of_fmap in H as (x & -> & Hx).
  exists x. split; [reflexivity | by apply list_elem_of_In].
Qed.

Lemma is_open_false sid ws :
  is_open sid ws = false -> ~ In sid (Socket.id <$> sockets ws).
Proof.
  unfold is_open. intros H Hin. apply In_fmap_inv in Hin as (s & -> & Hs).
  assert (existsb (fun x => String.eqb (Socket.id x) (Socket.id s)) (sockets ws) = true)
    as Ht; [|congruence].
  apply existsb_exists. exists s. split; [exact Hs | apply String.eqb_refl].
Qed.

Lemma NoDup_cons_In {A} (x : A) l : NoDup (x :: l) <-> ~ In x l /\ NoDup l.
Proof. rewrite list.NoDup_cons. by rewrite list_elem_of_In. Qed.

Lemma NoDup_fmap_In_inj {A B} (f : A -> B) l a b :
  NoDup (f <$> l) -> In a l -> In b l -> f a = f b -> a = b.
Proof.
  induction l as [|x l IH]; [by intros _ []|].
  rewrite fmap_cons, NoDup_cons_In. intros [Hx Hnd] [<-|Ha] [<-|Hb] Hab.
  - reflexivity.
  - destruct Hx. rewrite Hab. by apply In_fmap.
  - destruct Hx. rewrite <- Hab. by apply In_fmap.
  - by apply IH.
Qed.

Lemma filter_fmap_NoDup {A B} (f : A -> B) (P : A -> bool) l :
  NoDup (f <$> l) -> NoDup (f <$> List.filter P l).
Proof.
  induction l as [|x l IH]; [done|].
  rewrite fmap_cons, NoDup_cons_In. intros [Hx Hnd]. cbn.
  destruct (P x); [|by apply IH].
  rewrite fmap_cons, NoDup_cons_In. split; [|by apply IH].
  intros Hin. apply Hx. apply In_fmap_inv in Hin as (y & -> & Hy).
  apply In_fmap. by apply filter_In in Hy as [? _].
Qed.

Lemma reachable_invariant ws : reachable ws -> registry_invariant ws.
Proof.
  induction 1 as [|s ws Hr (Hnd & Hrooms & Hmap) Hfresh Hnew
                  |s ws Hr (Hnd & Hrooms & Hmap) Hopen].
  - split; [apply NoDup_nil_2|]. split; [by intros s []|].
    intros u sid H. change (connectedUsers init) with (∅ : gmap string string) in H.
    by rewrite lookup_empty in H.
  - apply is_open_false in Hfresh.
    unfold on_connection.
    destruct (Socket.userId s) as [u0|] eqn:Hu;
      [destruct (JS.truthy_string u0) eqn:Ht|].
    + split; [|split].
      * cbn. apply NoDup_cons_In. by split.
      * intros x [<-|Hx]; [|by apply Hrooms].
        cbn. rewrite Hnew, Hu. unfold rooms_for. by rewrite Ht.
      * intros u sid. cbn [connectedUsers sockets].
        destruct (decide (u = u0)) as [->|Hne].
        -- rewrite lookup_insert_eq. intros [= <-]. split; [exact Ht|].
           eexists. split; [by left|]. by split.
        -- rewrite lookup_insert_ne by congruence. intros H.
           destruct (Hmap u sid H) as (Htu & x & Hx & Hid & Hux).
           split; [exact Htu|]. exists x. split; [by right | by split].
    + split; [|split].
      * cbn. apply NoDup_cons_In. by split.
      * intros x [<-|Hx]; [|by apply Hrooms].
        rewrite Hnew, Hu. unfold rooms_for. by rewrite Ht.
      * intros u sid H. destruct (Hmap u sid H) as (Htu & x & Hx & Hid & Hux).
        split; [exact Htu|]. exists x. split; [by right | by split].
    + split; [|split].
      * cbn. apply NoDup_cons_In. by split.
      * intros x [<-|Hx]; [|by apply Hrooms]. by rewrite Hnew, Hu.
      * intros u sid H. destruct (Hmap u sid H) as (Htu & x & Hx & Hid & Hux).
        split; [exact Htu|]. exists x. split; [by right | by split].
  - assert (Hkeep : forall u sid,
              connectedUsers ws !! u = Some sid ->
              Socket.userId s <> Some u ->
              JS.truthy_string u = true /\
              exists x,
                In x (List.filter
                        (fun x => negb (String.eqb (Socket.id x) (Socket.id s)))
                        (sockets ws))
                /\ Socket.id x = sid /\ Socket.userId x = Some u).
    { intros u sid H Hother.
      destruct (Hmap u sid H) as (Htu & x & Hx & Hid & Hux).
      split; [exact Htu|]. exists x. split; [|by split].
      apply filter_In. split; [exact Hx|].
      apply negb_true_iff, String.eqb_neq. intros Heq.
      apply Hother. rewrite <- Hux. f_equal.
      symmetry. by apply (NoDup_fmap_In_inj Socket.id (sockets ws)). }
    assert (Hrest : NoDup (Socket.id <$>
                             List.filter
                               (fun x => negb (String.eqb (Socket.id x) (Socket.id s)))
                               (sockets ws)))
      by (by apply filter_fmap_NoDup).
    assert (Hrooms' : forall x,
              In x (List.filter
                      (fun x => negb (String.eqb (Socket.id x) (Socket.id s)))
                      (sockets ws)) ->
              Socket.rooms x = rooms_for (Socket.userId x)).
    { intros x Hx. apply filter_In in Hx as [Hx _]. by apply Hrooms. }
    unfold on_disconnect. cbv zeta.
    destruct (Socket.userId s) as [u0|] eqn:Hu;
      [destruct (JS.truthy_string u0) eqn:Ht|].
    + split; [exact Hrest|]. split; [exact Hrooms'|].
      intros u sid. cbn [connectedUsers sockets].
      destruct (decide (u = u0)) as [->|Hne].
      * by rewrite lookup_delete_eq.
      * rewrite lookup_delete_ne by congruence. intros H.
        apply (Hkeep u sid H). congruence.
    + split; [exact Hrest|]. split; [exact Hrooms'|].
      intros u sid H. apply (Hkeep u sid H).
      intros [= ->]. destruct (Hmap u sid H) as [Htu _]. congruence.
    + split; [exact Hrest|]. split; [exact Hrooms'|].
      intros u sid H. by apply (Hkeep u sid H).
Qed.

(** X26.  In every reachable state of the registry, [isUserConnected]
    answers [true] only for a user who has an open socket, the one the map
    names. *)
Theorem isUserConnected_sound ws u :
  reachable ws ->
  isUserConnected u ws = true ->
  exists s,
    In s (sockets ws) /\ Socket.userId s = Some u /\
    connectedUsers ws !! u = Some (Socket.id s) /\
    is_open (Socket.id s) ws = true.
Proof.
  intros Hr Hc. destruct (reachable_invariant ws Hr) as (_ & _ & Hmap).
  unfold isUserConnected in Hc. apply bool_decide_eq_true in Hc as [sid Hsid].
  destruct (Hmap u sid Hsid) as (_ & s & Hs & <- & Hu).
  exists s. repeat split; try assumption.
  unfold is_open. apply existsb_exists. exists s.
  split; [exact Hs | apply String.eqb_refl].
Qed.

Lemma user_room_inj u v : String.eqb (user_room u) (user_room v) = String.eqb u v.
Proof. reflexivity. Qed.

Lemma in_room_sessions ws u :
  registry_invariant ws -> u <> "" ->
  in_room (user_room u) ws = sessions_of u ws.
Proof.
  intros (_ & Hrooms & _) Hu. unfold in_room, sessions_of. f_equal.
  apply List.filter_ext_in. intros s Hs. rewrite (Hrooms s Hs).
  unfold rooms_for. destruct (Socket.userId s) as [v|].
  - destruct (JS.truthy_string v) eqn:Hv.
    + cbn. rewrite orb_false_r, user_room_inj.
      destruct (String.eqb_spec u v) as [->|Hne].
      * symmetry. by apply bool_decide_eq_true.
      * symmetry. apply bool_decide_eq_false. congruence.
    + cbn. symmetry. apply bool_decide_eq_false. intros [= ->].
      apply truthy_nonempty in Hu. congruence.
  - cbn. symmetry. by apply bool_decide_eq_false.
Qed.

(** X27.  With a service installed in a reachable state, [createNotification]
    for a user stores the row and then emits one [new_notification] event,
    carrying the stored row, that reaches every open socket authenticated as
    that user and no other socket, whether or not [connectedUsers] still
    lists the user. *)
Theorem createNotification_reaches_every_session env data w ws :
  webSocketService w = Some ws ->
  reachable ws ->
  userId data <> "" ->
  exists n w',
    createNotification env data w = (Ok n, w') /\
    effects w'
    = effects w ++
      [DbCreateNotification n;
       Emit (user_room (userId data)) "new_notification"
         (NotificationPayload.mk (Notification.id n) (Notification.title n)
            (Notification.message n) (Notification.link n) false
            (toISOString env (Notification.createdAt n)))
         (sessions_of (userId data) ws)].
Proof.
  intros Hws Hr Hu.
  exists (notification_row env data w), (after_notification env w data).
  split; [apply createNotification_run|].
  unfold after_notification, deliveries. cbn [effects with_effects].
  rewrite Hws, <- app_assoc.
  rewrite (in_room_sessions ws (userId data) (reachable_invariant ws Hr) Hu).
  reflexivity.
Qed.

End RegistryInvariant.

Lemma isUserConnected_sound_witness :
  exists s,
    In s (WebSocketService.sockets Sample4.ws_one) /\
    Socket.userId s = Some "u-asha" /\
    Socket.id s = "socket-1".
Proof.
  destruct (isUserConnected_sound Sample4.ws_one "u-asha") as (s & Hs & Hu & Hm & _).
  - apply Connections.reachable_connection;
      [apply Connections.reachable_init | reflexivity | reflexivity].
  - unfold WebSocketService.isUserConnected. apply bool_decide_eq_true.
    exists "socket-1". apply lookup_insert_eq.
  - exists s. split; [exact Hs|]. split; [exact Hu|].
    change (WebSocketService.connectedUsers Sample4.ws_one)
      with (<["u-asha" := "socket-1"]> (∅ : gmap string string)) in Hm.
    rewrite lookup_insert_eq in Hm. by injection Hm as <-.
Defined.

(** The registry no longer lists Asha, yet her open session gets the event. *)
Lemma createNotification_reaches_every_session_witness :
  exists n w' payload,
    NotificationService.createNotification Sample.env
      (NotificationService.mkData "u-asha" "New Bill Generated"
         "A new bill has been generated for your appointment."
         (Some "/appointments")) Sample4.world_stale = (Ok n, w') /\
    effects w'
    = [DbCreateNotification n;
       Emit "user_u-asha" "new_notification" payload ["socket-2"]].
Proof.
  destruct (createNotification_reaches_every_session Sample.env
              (NotificationService.mkData "u-asha" "New Bill Generated"
                 "A new bill has been generated for your appointment."
                 (Some "/appointments")) Sample4.world_stale Sample4.ws_stale
              eq_refl)
    as (n & w' & Hrun & Heff).
  - change Sample4.ws_stale
      with (WebSocketService.on_disconnect
              (Socket.join (WebSocketService.user_room "u-asha") Sample.s1)
              (WebSocketService.on_connection Sample.s2
                 (WebSocketService.on_connection Sample.s1 WebSocketService.init))).
    apply Connections.reachable_disconnect; [|right; by left].
    apply Connections.reachable_connection; [|reflexivity|reflexivity].
    apply Connections.reachable_connection;
      [apply Connections.reachable_init | reflexivity | reflexivity].
  - discriminate.
  - eexists n, w', _. split; [exact Hrun|]. exact Heff.
Defined.

(** ** Appointments: what a patient reads *)

Section PatientReads.
Import AppointmentQueries.

(** X28.  A patient reads only appointments of their own, and the three
    reading services agree.  The list holds each appointment of the patient
    once and no other; the count is the length of the list; an
    appointment is returned by id exactly when it is on the list, and
    otherwise the service throws "Appointment not found".  Without a patient
    profile all three throw "Patient profile not found".  None of them
    writes. *)
Theorem patient_reads_only_own_appointments uid w :
  (Prisma.patient_of_user uid w = None ->
   getPatientAppointmentsService uid w
   = (Throw (Error "Patient profile not found"), w) /\
   getAppointmentCountService uid w
   = (Throw (Error "Patient profile not found"), w) /\
   forall id, getAppointmentByIdService uid id w
              = (Throw (Error "Patient profile not found"), w))
  /\
  (forall patient,
     Prisma.patient_of_user uid w = Some patient ->
     exists l,
       getPatientAppointmentsService uid w = (Ok l, w) /\
       Permutation l
         (List.filter (of_patient patient) (appointments w)) /\
       (forall a, In a l ->
                  Appointment.patient_id a = Patient.id patient) /\
       getAppointmentCountService uid w = (Ok (length l), w) /\
       forall id,
         (exists a, getAppointmentByIdService uid id w = (Ok a, w) /\
                    Appointment.id a = id /\ In a l)
         \/
         (getAppointmentByIdService uid id w
          = (Throw (Error "Appointment not found"), w) /\
          forall a, In a l -> Appointment.id a <> id)).
Proof.
  assert (Hbyid : forall id,
    getAppointmentByIdService uid id w
    = match Prisma.patient_of_user uid w with
      | None => (Throw (Error "Patient profile not found"), w)
      | Some patient =>
          match List.find (fun a => (Prisma.has_id id a && of_patient patient a)%bool)
                  (appointments w) with
          | Some a => (Ok a, w)
          | None => (Throw (Error "Appointment not found"), w)
          end
      end).
  { intros id. unfold getAppointmentByIdService, Prisma.patient_find_user_id,
      Prisma.appointment_findFirst. rewrite bind_gets.
    destruct (Prisma.patient_of_user uid w); [|reflexivity].
    rewrite bind_gets. by destruct (List.find _ _). }
  unfold getPatientAppointmentsService, getAppointmentCountService,
    Prisma.patient_find_user_id.
  split.
  - intros Hp. rewrite !bind_gets, Hp. repeat split.
    intros id. by rewrite Hbyid, Hp.
  - intros patient Hp. rewrite !bind_gets, Hp.
    pose proof (merge_sort_Permutation latest_first
                  (List.filter (of_patient patient) (appointments w))) as Hperm.
    eexists. split; [reflexivity|]. split; [exact Hperm|].
    assert (Hin : forall a,
              In a (merge_sort latest_first
                      (List.filter (of_patient patient) (appointments w)))
              <-> In a (appointments w) /\ of_patient patient a = true).
    { intros a. rewrite <- filter_In. split; intros H.
      - eapply Permutation_in; [exact Hperm | exact H].
      - eapply Permutation_in; [symmetry; exact Hperm | exact H]. }
    split.
    { intros a Ha. apply Hin in Ha as [_ Ha]. by apply String.eqb_eq in Ha. }
    split.
    { unfold gets. do 2 f_equal. symmetry. by apply Permutation_length. }
    intros id. rewrite Hbyid, Hp.
    destruct (List.find (fun a => (Prisma.has_id id a && of_patient patient a)%bool)
                (appointments w)) as [a|] eqn:Hfind.
    + left. exists a. split; [reflexivity|].
      apply find_some in Hfind as [Ha Hok].
      apply andb_true_iff in Hok as [Hid Hown]. apply Z.eqb_eq in Hid.
      split; [exact Hid|]. by apply Hin.
    + right. split; [reflexivity|].
      intros a Ha Hid. apply Hin in Ha as [Ha Hown].
      pose proof (find_none _ _ Hfind a Ha) as Hno. cbv beta in Hno.
      unfold Prisma.has_id in Hno. rewrite Hown, Hid, Z.eqb_refl in Hno.
      discriminate.
Qed.

End PatientReads.

Lemma patient_reads_only_own_appointments_witness :
  AppointmentQueries.getPatientAppointmentsService "u-asha" Sample3.world_rebooked
  = (Ok [Sample3.cancelled1], Sample3.world_rebooked)
  /\
  AppointmentQueries.getAppointmentCountService "u-asha" Sample3.world_rebooked
  = (Ok 1%nat, Sample3.world_rebooked)
  /\
  AppointmentQueries.getAppointmentByIdService "u-asha" 3 Sample3.world_rebooked
  = (Throw (Error "Appointment not found"), Sample3.world_rebooked).
Proof.
  destruct (proj2 (patient_reads_only_own_appointments "u-asha"
                     Sample3.world_rebooked) Sample.asha eq_refl)
    as (l & Hl & Hperm & _ & Hcount & Hid).
  cbn in Hperm. apply Permutation_sym, Permutation_length_1_inv in Hperm. subst l.
  split; [exact Hl|]. split; [exact Hcount|].
  destruct (Hid 3) as [(a & _ & Ha & [<-|[]])|[Hno _]]; [discriminate | exact Hno].
Defined.

(** ** The daily report to the administrators *)

Section DailyReport.
Import NotificationService Outbox AdminNotificationService.

Lemma count_status_total l :
  length l
  = (count_status PENDING l + count_status SCHEDULED l
     + count_status COMPLETED l + count_status CANCELLED l)%nat.
Proof.
  unfold count_status. induction l as [|a l IH]; [reflexivity|].
  cbn [List.filter length]. destruct (Appointment.status a);
    repeat match goal with
           | |- context [bool_decide (?x = ?y)] =>
               first [ rewrite (bool_decide_eq_true_2 (x = y)) by reflexivity
                     | rewrite (bool_decide_eq_false_2 (x = y)) by discriminate ]
           end; cbn [length]; lia.
Qed.

(** X29.  [sendDailyAppointmentSummary] never throws.  The total it reports
    is the number of appointments dated today (from midnight UTC of today up
    to midnight UTC of tomorrow) and equals the sum of the four counts by
    status.  Every administrator gets one report, all with the same text
    and in the order of the user table; with no administrator nothing is
    stored.  No appointment is touched. *)
Theorem sendDailyAppointmentSummary_counts cal env w :
  exists stats w' message,
    sendDailyAppointmentSummary cal env w = (Ok stats, w') /\
    total stats
    = length (List.filter
                (on_day (utc_midnight (now env))
                   (utc_midnight (next_day cal (now env))))
                (appointments w)) /\
    total stats
    = (pending stats + scheduled stats + completed stats + cancelled stats)%nat /\
    outbox w'
    = outbox w ++ (daily_report message <$> Prisma.users_with_role "ADMIN" w) /\
    (Prisma.users_with_role "ADMIN" w = [] -> w' = w) /\
    appointments w' = appointments w.
Proof.
  unfold sendDailyAppointmentSummary, Prisma.user_findMany_role. cbv zeta.
  run. eexists _, _, _. split; [reflexivity|].
  split; [reflexivity|]. split; [apply count_status_total|].
  split; [by rewrite outbox_notify|].
  split; [by intros ->|]. apply notify_frame.
Qed.

End DailyReport.

(** ** The guard of the administrators' booking notification *)

Section BookingGuard.
Import AppointmentService Bookings.

Lemma prefix_append sub s :
  String.prefix sub s = true <-> exists post, s = sub +:+ post.
Proof.
  revert s. induction sub as [|a sub IH]; intros s.
  - split; [intros _; by exists s | intros _; by destruct s].
  - destruct s as [|b s]; cbn [String.prefix].
    + split; [discriminate | by intros [post ?]].
    + destruct (ascii_dec a b) as [->|Hne].
      * rewrite IH. split; intros [post H]; exists post.
        -- by rewrite H.
        -- by injection H.
      * split; [discriminate|]. intros [post H]. injection H as H _. congruence.
Qed.

Lemma includes_substring s sub :
  JS.includes s sub = true <-> exists pre post, s = pre +:+ sub +:+ post.
Proof.
  split.
  - induction s as [|c s IH].
    + cbn [JS.includes]. destruct (String.prefix sub "") eqn:E; [|discriminate].
      intros _. apply prefix_append in E as [post E]. by exists "", post.
    + cbn [JS.includes]. destruct (String.prefix sub (String c s)) eqn:E.
      * intros _. apply prefix_append in E as [post E]. by exists "", post.
      * intros H. destruct (IH H) as (pre & post & ->).
        by exists (String c pre), post.
  - intros (pre & post & ->). apply includes_append_r.
    assert (String.prefix sub (sub +:+ post) = true) as H
      by (apply prefix_append; by exists post).
    destruct (sub +:+ post); cbn [JS.includes]; by rewrite H.
Qed.

Lemma lower_ascii_idemp c : JS.lower_ascii (JS.lower_ascii c) = JS.lower_ascii c.
Proof.
  destruct c as [[] [] [] [] [] [] [] []]; reflexivity.
Qed.

Lemma toLowerCase_idemp s : JS.toLowerCase (JS.toLowerCase s) = JS.toLowerCase s.
Proof.
  induction s as [|c s IH]; [reflexivity|]. cbn. by rewrite lower_ascii_idemp, IH.
Qed.

Lemma toLowerCase_append s t :
  JS.toLowerCase (s +:+ t) = JS.toLowerCase s +:+ JS.toLowerCase t.
Proof.
  induction s as [|c s IH]; [reflexivity|].
  change (String c s +:+ t) with (String c (s +:+ t)). cbn. by rewrite IH.
Qed.

(** X30.  When the administrators are told of a booking.  The guard holds
    exactly when the hour of the clock is from 8 to 17, or the type of the
    appointment, put in lower case, contains "urgent" or "emergency" anywhere.
    So the letter case of the type does not matter, and a type that contains
    one of the two words in any letter case, such as "Non-URGENT follow-up",
    passes the guard at any hour. *)
Theorem admins_watch_spec env body :
  (admins_watch env body = true <->
   (8 <= currentHour env <= 17) \/
   (exists pre post, JS.toLowerCase (type body) = pre +:+ "urgent" +:+ post) \/
   (exists pre post, JS.toLowerCase (type body) = pre +:+ "emergency" +:+ post))
  /\
  is_urgent_type (JS.toLowerCase (type body)) = is_urgent_type (type body)
  /\
  (forall pre word post,
     type body = pre +:+ word +:+ post ->
     JS.toLowerCase word = "urgent" \/ JS.toLowerCase word = "emergency" ->
     admins_watch env body = true).
Proof.
  assert (Hguard : admins_watch env body = true <->
    (8 <= currentHour env <= 17) \/
    (exists pre post, JS.toLowerCase (type body) = pre +:+ "urgent" +:+ post) \/
    (exists pre post, JS.toLowerCase (type body) = pre +:+ "emergency" +:+ post)).
  { unfold admins_watch, is_urgent_type.
    rewrite !orb_true_iff, andb_true_iff, !Z.leb_le, !includes_substring.
    tauto. }
  split; [exact Hguard|]. split.
  - unfold is_urgent_type. by rewrite toLowerCase_idemp.
  - intros pre word post Htype Hword. apply Hguard. right.
    rewrite Htype, !toLowerCase_append.
    destruct Hword as [-> | ->]; [left | right]; by eexists _, _.
Qed.

End BookingGuard.
